(** * billboard-scraper: a shallow embedding of [index.js]

    The program fetches the weekly Hot-100 pages of a range of years, extracts
    the ranked entries of each page, appends them to a per-year record file of
    JSON lines and loads that file into a database table inside one
    transaction.

    [src/index.js] holds two versions of the program: the year-range version
    (the file proper) and, after a separator, an earlier single-year version.
    They are embedded as the modules [YearRange] and [SingleYear]; what both
    share text for text ([download]) is defined once.

    The libraries the program calls (luxon, jsdom, undici, pg, readline, the
    JSON built-ins) are not part of the repository.  Their behaviour is
    modelled from their documentation as far as the program uses it:
    - JavaScript strings are sequences of UTF-16 code units ([list N]);
    - JavaScript numbers are modelled where they are safe integers ([JNum]):
      a numeral read by [JSON.parse] stands for the double nearest to its
      value, so 1984.0 and 1e3 are the integers 1984 and 1000; any other
      number is kept by its literal ([JNumOther]), and its text is taken to
      be that literal;
    - [JSON.stringify] and [JSON.parse] follow ECMAScript (well-formed
      stringify: a surrogate without its pair is escaped);
    - a file is the sequence of its bytes, a text file the sequence of its
      code units: the UTF-8 coding of the record file is not modelled;
    - [download] ends its write stream without waiting for it, and the page
      is read next with no wait in between: what the file holds by then is
      up to the file system ([reached]), and the body is in the file only
      once the stream has finished ([pending], [settle]).  Every other file
      the program reads was written before an operation it waited for (a
      request, the parsing of a page, a query); those writes are taken to be
      in the file when it is read;
    - readline ends a line at LF, CR LF or CR;
    - luxon works in the zone of the process, which the program never
      sets: a zone is the offset from UTC it has at every instant ([zone]),
      a [DateTime] is its epoch time in milliseconds with the offset of the
      zone at it, and the calendar fields are those of the local time;
    - a database session is idle, in a transaction or in a failed
      transaction; the client sends every parameter as text;
    - the zone, the remote site, the file system's timing, the HTML parser
      and the acceptance of a row by the database are parameters of the
      development ([Environment]). *)

From Stdlib Require Import ZArith NArith List Lia Bool DecimalZ DecimalFacts.
From stdpp Require Import base strings pretty list gmap.

Set Warnings "-register-all".
Open Scope Z_scope.

(** ** JavaScript values *)

Module Js.

(** A string is its sequence of UTF-16 code units. *)
Definition JsString : Type := list N.

(** The code units of an ASCII literal of the source. *)
Definition lit (s : string) : JsString :=
  map (fun a => N.of_nat (Ascii.nat_of_ascii a)) (String.list_ascii_of_string s).

Inductive JsValue : Type :=
| JUndefined
| JNull
| JBool (b : bool)
| JNum (z : Z)                 (* a number that is a safe integer *)
| JNumOther (literal : JsString) (* any other number, by its JSON literal *)
| JStr (s : JsString)
| JArr (items : list JsValue)
| JObj (members : list (JsString * JsValue)).

Inductive Exn : Type :=
| TypeError (msg : string)
| ReferenceError (msg : string)
| SyntaxError
| Error (msg : string)
| QueryError (msg : string)
| SystemError (code : string).

Definition MAX_SAFE_INTEGER : Z := 9007199254740991.

Definition isSafeInteger (z : Z) : bool :=
  (- MAX_SAFE_INTEGER <=? z) && (z <=? MAX_SAFE_INTEGER).

(** [v === n] for a numeric literal [n] of the source. *)
Definition strict_eq_num (v : JsValue) (n : Z) : bool :=
  match v with JNum z => z =? n | _ => false end.

Definition JsString_eqb (a b : JsString) : bool := bool_decide (a = b).

(** [v === s] for a string literal [s] of the source. *)
Definition strict_eq_str (v : JsValue) (s : JsString) : bool :=
  match v with JStr t => JsString_eqb t s | _ => false end.

(** [v === null]. *)
Definition strict_eq_null (v : JsValue) : bool :=
  match v with JNull => true | _ => false end.

(** ToBoolean. *)
Definition isTruthy (v : JsValue) : bool :=
  match v with
  | JUndefined | JNull | JBool false | JNum 0 | JStr [] => false
  | JNumOther l => negb (JsString_eqb l (lit "-0") || JsString_eqb l (lit "NaN"))
  | _ => true
  end.

(** *** String.prototype.trim *)

(** WhiteSpace and LineTerminator code units of ECMAScript. *)
Definition isWhiteSpace (c : N) : bool :=
  ((9 <=? c) && (c <=? 13) || (c =? 32) || (c =? 160) || (c =? 5760)
   || (8192 <=? c) && (c <=? 8202) || (c =? 8232) || (c =? 8233)
   || (c =? 8239) || (c =? 8287) || (c =? 12288) || (c =? 65279))%N.

Fixpoint trimStart (s : JsString) : JsString :=
  match s with
  | c :: rest => if isWhiteSpace c then trimStart rest else s
  | [] => []
  end.

Definition trim (s : JsString) : JsString :=
  rev (trimStart (rev (trimStart s))).

(** *** Number to string, for safe integers: plain decimal digits. *)

Fixpoint uint_chars (u : Decimal.uint) : JsString :=
  match u with
  | Decimal.Nil => []
  | Decimal.D0 u => 48%N :: uint_chars u
  | Decimal.D1 u => 49%N :: uint_chars u
  | Decimal.D2 u => 50%N :: uint_chars u
  | Decimal.D3 u => 51%N :: uint_chars u
  | Decimal.D4 u => 52%N :: uint_chars u
  | Decimal.D5 u => 53%N :: uint_chars u
  | Decimal.D6 u => 54%N :: uint_chars u
  | Decimal.D7 u => 55%N :: uint_chars u
  | Decimal.D8 u => 56%N :: uint_chars u
  | Decimal.D9 u => 57%N :: uint_chars u
  end.

Definition numberToString (z : Z) : JsString :=
  match Z.to_int z with
  | Decimal.Pos u => uint_chars u
  | Decimal.Neg u => 45%N :: uint_chars u
  end.

(** *** JSON.stringify *)

Definition hexDigit (n : N) : N := (if n <? 10 then 48 + n else 87 + n)%N.

(** [\uXXXX], lower-case hexadecimal. *)
Definition unicodeEscape (c : N) : JsString :=
  [92; 117; hexDigit ((c / 4096) mod 16); hexDigit ((c / 256) mod 16);
   hexDigit ((c / 16) mod 16); hexDigit (c mod 16)]%N.

Definition isLeadingSurrogate (c : N) : bool := ((55296 <=? c) && (c <=? 56319))%N.
Definition isTrailingSurrogate (c : N) : bool := ((56320 <=? c) && (c <=? 57343))%N.

(** QuoteJSONString without the enclosing quotes (well-formed JSON.stringify:
    control characters, the quote and the backslash are escaped, and so is a
    surrogate that is not part of a pair). *)
Fixpoint quoteBody (s : JsString) : JsString :=
  match s with
  | [] => []
  | c :: rest =>
    if (c =? 8)%N then [92; 98]%N ++ quoteBody rest
    else if (c =? 9)%N then [92; 116]%N ++ quoteBody rest
    else if (c =? 10)%N then [92; 110]%N ++ quoteBody rest
    else if (c =? 12)%N then [92; 102]%N ++ quoteBody rest
    else if (c =? 13)%N then [92; 114]%N ++ quoteBody rest
    else if (c =? 34)%N then [92; 34]%N ++ quoteBody rest
    else if (c =? 92)%N then [92; 92]%N ++ quoteBody rest
    else if (c <? 32)%N then unicodeEscape c ++ quoteBody rest
    else if isLeadingSurrogate c then
      match rest with
      | d :: rest' =>
        if isTrailingSurrogate d then c :: d :: quoteBody rest'
        else unicodeEscape c ++ quoteBody rest
      | [] => unicodeEscape c
      end
    else if isTrailingSurrogate c then unicodeEscape c ++ quoteBody rest
    else c :: quoteBody rest
  end.

Definition quoteJSONString (s : JsString) : JsString :=
  34%N :: quoteBody s ++ [34%N].

Definition joinComma (parts : list JsString) : JsString :=
  match parts with
  | [] => []
  | p :: ps => p ++ concat (map (fun q => 44%N :: q) ps)
  end.

(** SerializeJSONProperty: [None] stands for undefined (the property or the
    whole value is left out; inside an array it prints as null). *)
Fixpoint serializeJSONProperty (v : JsValue) : option JsString :=
  match v with
  | JUndefined => None
  | JNull => Some (lit "null")
  | JBool true => Some (lit "true")
  | JBool false => Some (lit "false")
  | JNum z => Some (numberToString z)
  | JNumOther l => Some l
  | JStr s => Some (quoteJSONString s)
  | JArr items =>
    Some (91%N :: joinComma
            (map (fun x => match serializeJSONProperty x with
                           | Some t => t
                           | None => lit "null"
                           end) items) ++ [93%N])
  | JObj members =>
    Some (123%N :: joinComma
            (omap (fun kv => match serializeJSONProperty (snd kv) with
                             | Some t => Some (quoteJSONString (fst kv) ++ 58%N :: t)
                             | None => None
                             end) members) ++ [125%N])
  end.

(** [JSON.stringify(v)]; [None] is the result undefined. *)
Definition JSON_stringify (v : JsValue) : option JsString :=
  serializeJSONProperty v.

(** *** JSON.parse *)

Definition isJSONWhiteSpace (c : N) : bool :=
  ((c =? 32) || (c =? 9) || (c =? 10) || (c =? 13))%N.

Fixpoint skipWhiteSpace (s : JsString) : JsString :=
  match s with
  | c :: rest => if isJSONWhiteSpace c then skipWhiteSpace rest else s
  | [] => []
  end.

Definition isDigit (c : N) : bool := ((48 <=? c) && (c <=? 57))%N.

Definition hexValue (c : N) : option N :=
  (if isDigit c then Some (c - 48)
   else if (97 <=? c) && (c <=? 102) then Some (c - 87)
   else if (65 <=? c) && (c <=? 70) then Some (c - 55)
   else None)%N.

Definition hex4 (a b c d : N) : option N :=
  match hexValue a, hexValue b, hexValue c, hexValue d with
  | Some x, Some y, Some z, Some w => Some (((x * 16 + y) * 16 + z) * 16 + w)%N
  | _, _, _, _ => None
  end.

(** The character an escape sequence [\e] stands for. *)
Definition simpleEscape (e : N) : option N :=
  (if e =? 34 then Some 34 else if e =? 92 then Some 92
   else if e =? 47 then Some 47 else if e =? 98 then Some 8
   else if e =? 102 then Some 12 else if e =? 110 then Some 10
   else if e =? 114 then Some 13 else if e =? 116 then Some 9
   else None)%N.

(** The characters of a JSON string after its opening quote, up to and
    including the closing quote; the result is the string and the rest of
    the input. *)
Fixpoint parseStringBody (s : JsString) : option (JsString * JsString) :=
  match s with
  | [] => None
  | c :: r =>
    if (c =? 34)%N then Some ([], r)
    else if (c =? 92)%N then
      match r with
      | [] => None
      | e :: r1 =>
        if (e =? 117)%N then
          match r1 with
          | h1 :: h2 :: h3 :: h4 :: r2 =>
            match hex4 h1 h2 h3 h4 with
            | Some u =>
              match parseStringBody r2 with
              | Some (t, rest) => Some (u :: t, rest)
              | None => None
              end
            | None => None
            end
          | _ => None
          end
        else
          match simpleEscape e with
          | Some u =>
            match parseStringBody r1 with
            | Some (t, rest) => Some (u :: t, rest)
            | None => None
            end
          | None => None
          end
      end
    else if (c <? 32)%N then None
    else
      match parseStringBody r with
      | Some (t, rest) => Some (c :: t, rest)
      | None => None
      end
  end.

(** The longest prefix of decimal digits, as a decimal numeral. *)
Fixpoint scanDigits (s : JsString) : Decimal.uint * JsString :=
  match s with
  | [] => (Decimal.Nil, [])
  | c :: r =>
    if isDigit c then
      let '(u, rest) := scanDigits r in
      ((if c =? 48 then Decimal.D0 u else if c =? 49 then Decimal.D1 u
        else if c =? 50 then Decimal.D2 u else if c =? 51 then Decimal.D3 u
        else if c =? 52 then Decimal.D4 u else if c =? 53 then Decimal.D5 u
        else if c =? 54 then Decimal.D6 u else if c =? 55 then Decimal.D7 u
        else if c =? 56 then Decimal.D8 u else Decimal.D9 u)%N, rest)
    else (Decimal.Nil, s)
  end.

(** The integer part of a JSON number is 0 or starts with a digit 1-9. *)
Definition validIntPart (u : Decimal.uint) : bool :=
  match u with
  | Decimal.Nil => false
  | Decimal.D0 Decimal.Nil => true
  | Decimal.D0 _ => false
  | _ => true
  end.

(** The optional fraction of a JSON number, by its digits: no digits when
    there is no fraction; [None] is a syntax error. *)
Definition scanFraction (s : JsString) : option (Decimal.uint * JsString) :=
  match s with
  | c :: r =>
    if (c =? 46)%N then
      match scanDigits r with
      | (Decimal.Nil, _) => None
      | (digits, rest) => Some (digits, rest)
      end
    else Some (Decimal.Nil, s)
  | [] => Some (Decimal.Nil, s)
  end.

(** The optional exponent of a JSON number, by its value: [Some None] when
    there is no exponent; [None] is a syntax error. *)
Definition scanExponent (s : JsString) : option (option Z * JsString) :=
  match s with
  | c :: r =>
    if ((c =? 101) || (c =? 69))%N then
      let '(minus, r') :=
        match r with
        | sg :: r1 =>
          if (sg =? 45)%N then (true, r1)
          else if (sg =? 43)%N then (false, r1) else (false, r)
        | [] => (false, r)
        end in
      match scanDigits r' with
      | (Decimal.Nil, _) => None
      | (digits, rest) =>
        Some (Some (if minus then - Z.of_uint digits else Z.of_uint digits), rest)
      end
    else Some (None, s)
  | [] => Some (None, s)
  end.

(** Whether the double nearest to [m / 10^n] is the integer [z], for
    [1 <= z < 2^53].  Around [z] the doubles are [2^(bits - 53)] apart, half
    as much below a power of two, and a value half way between two doubles
    goes to the one whose significand is even. *)
Definition roundsTo (m n z : Z) : bool :=
  let bits := Z.log2 z + 1 in
  let d := m - z * 10 ^ n in
  let even := (bits <? 53) || Z.even z in
  let k := if 0 <=? d then d * 2 ^ (54 - bits)
           else if z =? 2 ^ (bits - 1) then - d * 2 ^ (55 - bits)
           else - d * 2 ^ (54 - bits) in
  (k <? 10 ^ n) || ((k =? 10 ^ n) && even).

(** The safe integer that is the double nearest to [m / 10^n], when it is
    one ([0 < m], [0 < n]): zero below half of the least double, or else one
    of the two integers next to the value. *)
Definition nearestInteger (m n : Z) : option Z :=
  let z := m / 10 ^ n in
  if (z =? 0) && (m * 2 ^ 1075 <=? 10 ^ n) then Some 0
  else if (1 <=? z) && isSafeInteger z && roundsTo m n z then Some z
  else if isSafeInteger (z + 1) && roundsTo m n (z + 1) then Some (z + 1)
  else None.

(** The number a numeral with a fraction or an exponent stands for: the
    double nearest to [m * 10^e], where [m] is the number its digits make.
    When that is a safe integer the numeral is read as the integer, minus
    zero as the literal -0, anything else is kept as written. *)
Definition decimalNumber (negative : bool) (m e : Z) (literal : JsString) : JsValue :=
  let magnitude :=
    if m =? 0 then Some 0
    else if 0 <=? e then
      if e <? 16 then
        if isSafeInteger (m * 10 ^ e) then Some (m * 10 ^ e) else None
      else None
    else nearestInteger m (- e) in
  match magnitude with
  | Some 0 => if negative then JNumOther (lit "-0") else JNum 0
  | Some z => JNum (if negative then - z else z)
  | None => JNumOther literal
  end.

(** A JSON number at the head of [s].  An integer literal within the safe
    range is read as that integer; minus zero and an integer beyond the safe
    range are kept as written; a numeral with a fraction or an exponent is
    read by its value. *)
Definition parseDigits (negative : bool) (s s1 : JsString)
  : option (JsValue * JsString) :=
  let '(u, s2) := scanDigits s1 in
  if validIntPart u then
    match scanFraction s2 with
    | None => None
    | Some (fraction, s3) =>
      match scanExponent s3 with
      | None => None
      | Some (exponent, s4) =>
        let literal := take (length s - length s4) s in
        match fraction, exponent with
        | Decimal.Nil, None =>
          let z := Z.of_int (if negative then Decimal.Neg u else Decimal.Pos u) in
          if negb (isSafeInteger z) || (negative && (z =? 0))
          then Some (JNumOther literal, s4)
          else Some (JNum z, s4)
        | _, _ =>
          let m := Z.of_uint u * 10 ^ Z.of_nat (Decimal.nb_digits fraction)
                   + Z.of_uint fraction in
          let e := default 0 exponent - Z.of_nat (Decimal.nb_digits fraction) in
          Some (decimalNumber negative m e literal, s4)
        end
      end
    end
  else None.

Definition parseNumber (s : JsString) : option (JsValue * JsString) :=
  match s with
  | c :: r => if (c =? 45)%N then parseDigits true s r else parseDigits false s s
  | [] => None
  end.

(** A keyword at the head of the input. *)
Fixpoint stripPrefix (word s : JsString) : option JsString :=
  match word, s with
  | [], _ => Some s
  | w :: word', c :: s' => if (w =? c)%N then stripPrefix word' s' else None
  | _ :: _, [] => None
  end.

(** JSONValue, JSONArray elements and JSONObject members.  The recursion
    is on a bound of the input left; [JSON_parse] starts it with the length of
    the text, each nested call having consumed a character before. *)
Fixpoint parseValue (fuel : nat) (s : JsString) : option (JsValue * JsString) :=
  match fuel with
  | O => None
  | S fuel' =>
    match s with
    | [] => None
    | c :: r =>
      if (c =? 34)%N then
        match parseStringBody r with
        | Some (t, rest) => Some (JStr t, rest)
        | None => None
        end
      else if (c =? 91)%N then
        match skipWhiteSpace r with
        | d :: r1 =>
          if (d =? 93)%N then Some (JArr [], r1)
          else
            match parseElements fuel' (d :: r1) with
            | Some (items, rest) => Some (JArr items, rest)
            | None => None
            end
        | [] => None
        end
      else if (c =? 123)%N then
        match skipWhiteSpace r with
        | d :: r1 =>
          if (d =? 125)%N then Some (JObj [], r1)
          else
            match parseMembers fuel' (d :: r1) with
            | Some (members, rest) => Some (JObj members, rest)
            | None => None
            end
        | [] => None
        end
      else if (c =? 116)%N then
        match stripPrefix (lit "true") s with
        | Some rest => Some (JBool true, rest)
        | None => None
        end
      else if (c =? 102)%N then
        match stripPrefix (lit "false") s with
        | Some rest => Some (JBool false, rest)
        | None => None
        end
      else if (c =? 110)%N then
        match stripPrefix (lit "null") s with
        | Some rest => Some (JNull, rest)
        | None => None
        end
      else parseNumber s
    end
  end

(** Elements up to and including the closing bracket; the input starts at
    the first element. *)
with parseElements (fuel : nat) (s : JsString) : option (list JsValue * JsString) :=
  match fuel with
  | O => None
  | S fuel' =>
    match parseValue fuel' s with
    | None => None
    | Some (v, rest) =>
      match skipWhiteSpace rest with
      | d :: r1 =>
        if (d =? 93)%N then Some ([v], r1)
        else if (d =? 44)%N then
          match parseElements fuel' (skipWhiteSpace r1) with
          | Some (vs, rest') => Some (v :: vs, rest')
          | None => None
          end
        else None
      | [] => None
      end
    end
  end

(** Members up to and including the closing brace; the input starts at the
    first key. *)
with parseMembers (fuel : nat) (s : JsString)
  : option (list (JsString * JsValue) * JsString) :=
  match fuel with
  | O => None
  | S fuel' =>
    match s with
    | q :: r =>
      if (q =? 34)%N then
        match parseStringBody r with
        | None => None
        | Some (key, rest) =>
          match skipWhiteSpace rest with
          | colon :: r1 =>
            if (colon =? 58)%N then
              match parseValue fuel' (skipWhiteSpace r1) with
              | None => None
              | Some (v, rest1) =>
                match skipWhiteSpace rest1 with
                | d :: r2 =>
                  if (d =? 125)%N then Some ([(key, v)], r2)
                  else if (d =? 44)%N then
                    match parseMembers fuel' (skipWhiteSpace r2) with
                    | Some (ms, rest') => Some ((key, v) :: ms, rest')
                    | None => None
                    end
                  else None
                | [] => None
                end
              end
            else None
          | [] => None
          end
        end
      else None
    | [] => None
    end
  end.

(** [JSON.parse(text)]: one value, white space around it, nothing else;
    anything else is a SyntaxError. *)
Definition JSON_parse (text : JsString) : Exn + JsValue :=
  match parseValue (S (length text)) (skipWhiteSpace text) with
  | Some (v, rest) =>
    match skipWhiteSpace rest with
    | [] => inr v
    | _ :: _ => inl SyntaxError
    end
  | None => inl SyntaxError
  end.

(** *** Property access by an index written in the source: [v[i]] *)

Definition propertyKey (i : nat) : JsString := numberToString (Z.of_nat i).

(** The value of the last member with the key, as JSON.parse keeps it. *)
Fixpoint lookupMember (key : JsString) (members : list (JsString * JsValue))
  : option JsValue :=
  match members with
  | [] => None
  | (k, v) :: rest =>
    match lookupMember key rest with
    | Some v' => Some v'
    | None => if JsString_eqb k key then Some v else None
    end
  end.

Definition js_get (v : JsValue) (i : nat) : Exn + JsValue :=
  match v with
  | JUndefined | JNull => inl (TypeError "Cannot read properties of null or undefined")
  | JArr items => inr (default JUndefined (items !! i))
  | JStr s => inr (match s !! i with Some c => JStr [c] | None => JUndefined end)
  | JObj members => inr (default JUndefined (lookupMember (propertyKey i) members))
  | _ => inr JUndefined
  end.

(** [v[i] = x]: an array is updated in place, or extended when [i] is past
    its end; an object gets the member; on a primitive the assignment of
    sloppy mode does nothing. *)
Definition js_set (v : JsValue) (i : nat) (x : JsValue) : Exn + JsValue :=
  match v with
  | JUndefined | JNull => inl (TypeError "Cannot set properties of null or undefined")
  | JArr items =>
    if bool_decide (i < length items)%nat then inr (JArr (<[i := x]> items))
    else inr (JArr (items ++ replicate (i - length items) JUndefined ++ [x]))
  | JObj members => inr (JObj (members ++ [(propertyKey i, x)]))
  | _ => inr v
  end.

(** *** parseInt of a command-line argument: [None] is NaN. *)

Fixpoint scanHex (acc : N) (seen : bool) (s : JsString) : option N :=
  match s with
  | c :: r =>
    match hexValue c with
    | Some h => scanHex (acc * 16 + h)%N true r
    | None => if seen then Some acc else None
    end
  | [] => if seen then Some acc else None
  end.

Definition parseInt (text : JsString) : option Z :=
  let s := trimStart text in
  let '(negative, s1) :=
    match s with
    | c :: r => if (c =? 45)%N then (true, r) else if (c =? 43)%N then (false, r) else (false, s)
    | [] => (false, s)
    end in
  let magnitude :=
    match s1 with
    | z :: x :: r =>
      if ((z =? 48) && ((x =? 120) || (x =? 88)))%N then option_map Z.of_N (scanHex 0 false r)
      else match scanDigits s1 with
           | (Decimal.Nil, _) => None
           | (u, _) => Some (Z.of_uint u)
           end
    | _ => match scanDigits s1 with
           | (Decimal.Nil, _) => None
           | (u, _) => Some (Z.of_uint u)
           end
    end in
  option_map (fun m => if negative then - m else m) magnitude.

End Js.

Import Js.

(** ** Dates: the part of luxon the program uses *)

Module Luxon.

(** Days from 1970-01-01 to a date of the proleptic Gregorian calendar. *)
Definition daysFromCivil (year month day : Z) : Z :=
  let y := if month <=? 2 then year - 1 else year in
  let era := y / 400 in
  let yoe := y - era * 400 in
  let mp := if month >? 2 then month - 3 else month + 9 in
  let doy := (153 * mp + 2) / 5 + day - 1 in
  let doe := yoe * 365 + yoe / 4 - yoe / 100 + doy in
  era * 146097 + doe - 719468.

(** The calendar date (year, month, day) of a day number. *)
Definition civilFromDays (days : Z) : Z * Z * Z :=
  let z := days + 719468 in
  let era := z / 146097 in
  let doe := z - era * 146097 in
  let yoe := (doe - doe / 1460 + doe / 36524 - doe / 146096) / 365 in
  let doy := doe - (365 * yoe + yoe / 4 - yoe / 100) in
  let mp := (5 * doy + 2) / 153 in
  let day := doy - (153 * mp + 2) / 5 + 1 in
  let month := if mp <? 10 then mp + 3 else mp - 9 in
  let year := yoe + era * 400 + (if month <=? 2 then 1 else 0) in
  (year, month, day).

(** ISO weekday of a day number, Monday = 1 ... Sunday = 7 (1970-01-01 was a
    Thursday). *)
Definition isoWeekday (days : Z) : Z := (days + 3) mod 7 + 1.

Definition weeksInWeekYear (weekYear : Z) : Z :=
  let p1 := (weekYear + weekYear / 4 - weekYear / 100 + weekYear / 400) mod 7 in
  let last := weekYear - 1 in
  let p2 := (last + last / 4 - last / 100 + last / 400) mod 7 in
  if (p1 =? 4) || (p2 =? 3) then 53 else 52.

(** weekToGregorian, as a day number: week 1 is the week of January 4th. *)
Definition weekToDays (weekYear weekNumber weekday : Z) : Z :=
  let jan4 := daysFromCivil weekYear 1 4 in
  jan4 - isoWeekday jan4 + 7 * (weekNumber - 1) + weekday.

(** gregorianToWeek: (weekYear, weekNumber, weekday) of a day number. *)
Definition daysToWeek (days : Z) : Z * Z * Z :=
  let '(year, _, _) := civilFromDays days in
  let ordinal := days - daysFromCivil year 1 1 + 1 in
  let weekday := isoWeekday days in
  let weekNumber := (ordinal - weekday + 10) / 7 in
  if weekNumber <? 1 then (year - 1, weeksInWeekYear (year - 1), weekday)
  else if weekNumber >? weeksInWeekYear year then (year + 1, 1, weekday)
  else (year, weekNumber, weekday).

Definition MS_PER_DAY : Z := 86400000.
Definition MS_PER_MINUTE : Z := 60000.

(** A time zone as luxon asks it ([zone.offset(ts)]): the offset from UTC,
    in minutes, that the zone has at an epoch time. *)
Abbreviation Zone := (Z -> Z).

(** The zone UTC, and the zones with a fixed offset. *)
Definition UTC : Zone := fun _ => 0.
Definition fixedOffset (minutes : Z) : Zone := fun _ => minutes.

(** A valid DateTime: its epoch time in milliseconds ([+date] in the
    source) and the offset of its zone at that time, in minutes.  The
    program sets no zone, so the zone of its DateTimes is that of the
    process. *)
Record DateTime : Type := mkDateTime { ts : Z; offset : Z }.

(** The local time, as an epoch time of its own, and the local day. *)
Definition localTS (date : DateTime) : Z := ts date + offset date * MS_PER_MINUTE.

Definition dayOf (date : DateTime) : Z := localTS date / MS_PER_DAY.

(** [DateTime.fromISO(`${year}-W${ww}-${weekday}T00:00Z`)] where [ww] is the
    two-digit week of the source text.  [None] is an invalid DateTime: the
    year must print with four digits, the week and the weekday must exist.
    The text ends in Z, so it names midnight UTC of that day; without the
    option setZone the DateTime is given in the zone of the process. *)
Definition fromISO_week (zone : Zone) (year weekNumber weekday : Z) : option DateTime :=
  if (1000 <=? year) && (year <=? 9999)
     && (1 <=? weekNumber) && (weekNumber <=? weeksInWeekYear year)
     && (1 <=? weekday) && (weekday <=? 7)
  then
    let t := weekToDays year weekNumber weekday * MS_PER_DAY in
    Some (mkDateTime t (zone t))
  else None.

(** fixOffset of luxon: the epoch time and the offset of a local time,
    starting from the offset [o] it had before.  When the zone has another
    offset there, the time is moved by the difference; when that is still
    not the offset of the zone, the local time does not exist (it falls in
    the hour that a change of the offset leaves out) and is moved on. *)
Definition fixOffset (local o : Z) (zone : Zone) : Z * Z :=
  let utcGuess := local - o * MS_PER_MINUTE in
  let o2 := zone utcGuess in
  if o =? o2 then (utcGuess, o)
  else
    let utcGuess' := utcGuess - (o2 - o) * MS_PER_MINUTE in
    let o3 := zone utcGuess' in
    if o2 =? o3 then (utcGuess', o2)
    else (local - Z.min o2 o3 * MS_PER_MINUTE, Z.max o2 o3).

(** [date.plus({ weeks: n })]: the same local time [7 * n] calendar days
    later. *)
Definition plus_weeks (zone : Zone) (date : DateTime) (n : Z) : DateTime :=
  let '(t, o) := fixOffset (localTS date + n * 7 * MS_PER_DAY) (offset date) zone in
  mkDateTime t o.

Definition weekYear (date : DateTime) : Z := fst (fst (daysToWeek (dayOf date))).
Definition weekNumber (date : DateTime) : Z := snd (fst (daysToWeek (dayOf date))).
Definition weekday (date : DateTime) : Z := snd (daysToWeek (dayOf date)).

Definition padStart (width : nat) (s : string) : string :=
  String.concat "" (replicate (width - String.length s) "0") +:+ s.

(** [date.toISODate()], the local date, e.g. 1961-12-30. *)
Definition toISODate (date : DateTime) : string :=
  let '(y, m, d) := civilFromDays (dayOf date) in
  padStart 4 (pretty y) +:+ "-" +:+ padStart 2 (pretty m) +:+ "-" +:+ padStart 2 (pretty d).

(** [date.toISOWeekDate()], the local week date, e.g. 1961-W52-6. *)
Definition toISOWeekDate (date : DateTime) : string :=
  padStart 4 (pretty (weekYear date)) +:+ "-W" +:+ padStart 2 (pretty (weekNumber date))
    +:+ "-" +:+ pretty (weekday date).

End Luxon.

Import Luxon.

(** ** The document: what jsdom returns for the queries of the program *)

Module Dom.

(** A node as far as [nodeValue] sees it: a text node has its text, an
    element has null. *)
Record Node : Type := mkNode { nodeValue : option JsString }.

(** An element as far as [firstChild] sees it: null for a childless one. *)
Record Element : Type := mkElement { firstChild : option Node }.

(** A chart row, a [div.o-chart-results-list-row-container], by the result of
    the three [row.querySelector] calls of the program ([None] is null). *)
Record Row : Type := mkRow {
  q_position : option Element; (* li.o-chart-results-list__item:first-child > span *)
  q_title : option Element;    (* h3#title-of-a-story *)
  q_artist : option Element    (* h3#title-of-a-story + span *)
}.

(** [q?.firstChild.nodeValue.trim()] where [q] is the result of a
    querySelector: the optional chain stops at a null [q] with undefined;
    past it every property read of null is a TypeError. *)
Definition textOf (q : option Element) : Exn + JsValue :=
  match q with
  | None => inr JUndefined
  | Some el =>
    match firstChild el with
    | None => inl (TypeError "Cannot read properties of null (reading 'nodeValue')")
    | Some node =>
      match nodeValue node with
      | None => inl (TypeError "Cannot read properties of null (reading 'trim')")
      | Some text => inr (JStr (trim text))
      end
    end
  end.

End Dom.

Import Dom.

(** ** The world the program acts on *)

Inductive Event : Type :=
| ConsoleInfo (msg : string)
| ConsoleError (msg : string) (args : list JsValue)
| ConsoleErrorExn (err : Exn)
| Request (url : string)            (* undici request *)
| FromFile (fileName : string)      (* JSDOM.fromFile *)
| Query (text : string) (values : option JsValue). (* pgClient.query *)

(** A row of [raw_chart] as the driver sends it: five text parameters,
    [None] is NULL. *)
Abbreviation SqlRow := (list (option JsString)).

(** The state of the session of a client. *)
Inductive Transaction : Type :=
| Idle
| Active (staged : list SqlRow)
| Failed.

Record Database : Type := mkDatabase {
  committed : list SqlRow;
  session : Transaction
}.

(** [files] is what a read finds now; [pending] is, for the files with a
    write stream that has not finished, what they will hold once it has. *)
Record World : Type := mkWorld {
  files : gmap string (list N);
  pending : gmap string (list N);
  database : Database;
  trace : list Event
}.

(** A computation of the program: it changes the world and returns or
    throws. *)
Definition M (A : Type) : Type := World -> World * (Exn + A).

Definition ret {A} (a : A) : M A := fun w => (w, inr a).
Definition throw {A} (e : Exn) : M A := fun w => (w, inl e).
Definition bind {A B} (c : M A) (k : A -> M B) : M B :=
  fun w => match c w with
           | (w', inr a) => k a w'
           | (w', inl e) => (w', inl e)
           end.
Definition tryCatch {A} (c : M A) (handler : Exn -> M A) : M A :=
  fun w => match c w with
           | (w', inr a) => (w', inr a)
           | (w', inl e) => handler e w'
           end.
Definition liftEither {A} (r : Exn + A) : M A := fun w => (w, r).

Notation "'let*' x ':=' c 'in' k" := (bind c (fun x => k))
  (at level 10, x name, c at level 100, k at level 200).
Notation "c1 ';;;' c2" := (bind c1 (fun _ => c2))
  (at level 100, c2 at level 200, right associativity).

(** A [for ... of] loop over a list: the body runs for each item, in order,
    until one throws. *)
Fixpoint forEach {A} (items : list A) (body : A -> M unit) : M unit :=
  match items with
  | [] => ret tt
  | x :: rest => body x ;;; forEach rest body
  end.

Definition emit (e : Event) : M unit :=
  fun w => (mkWorld (files w) (pending w) (database w) (trace w ++ [e]), inr tt).

Definition console_info (msg : string) : M unit := emit (ConsoleInfo msg).
Definition console_error (msg : string) (args : list JsValue) : M unit :=
  emit (ConsoleError msg args).

(** *** fs *)

Definition existsSync (fileName : string) : M bool :=
  fun w => (w, inr (bool_decide (is_Some (files w !! fileName)))).

(** [fs.createWriteStream(fileName)] with the [write] calls and the [end]
    that follow it, when nothing waits for the stream (lines 27 to 31): the
    file will hold [content], created or in place of what it held, once the
    stream has finished ([pending]).  Until then the file holds what has
    reached it: [reached fileName content] is [None] when the stream has not
    opened the file yet, which is then as it was, and [Some n] when the file
    holds the first [n] bytes of the content. *)
Definition writeUnawaited (reached : string -> list N -> option nat)
  (fileName : string) (content : list N) : M unit :=
  fun w => (mkWorld
              (match reached fileName content with
               | Some n => <[fileName := take n content]> (files w)
               | None => files w
               end)
              (<[fileName := content]> (pending w))
              (database w) (trace w), inr tt).

(** The world once every write stream has finished. *)
Definition settle (w : World) : World :=
  mkWorld (pending w ∪ files w) ∅ (database w) (trace w).

(** [fs.createWriteStream(fileName, { flags: 'a' })]: the file is created
    when it is missing and kept when it exists. *)
Definition createAppendStream (fileName : string) : M unit :=
  fun w => (mkWorld (<[fileName := default [] (files w !! fileName)]> (files w))
              (pending w) (database w) (trace w), inr tt).

(** [writeStream.write(data)] on the append stream of [fileName]. *)
Definition write (fileName : string) (data : list N) : M unit :=
  fun w => (mkWorld (<[fileName := default [] (files w !! fileName) ++ data]> (files w))
              (pending w) (database w) (trace w), inr tt).

(** [fs.createReadStream(fileName)], read to its end. *)
Definition readFile (fileName : string) : M (list N) :=
  fun w => match files w !! fileName with
           | Some content => (w, inr content)
           | None => (w, inl (SystemError "ENOENT"))
           end.

(** *** readline: the lines of a text, ended by LF, CR LF or CR; the text
    after the last line end is a line when it is not empty. *)
Fixpoint splitLines (current : JsString) (text : list N) : list JsString :=
  match text with
  | [] => match current with [] => [] | _ :: _ => [rev current] end
  | c :: rest =>
    if (c =? 10)%N then rev current :: splitLines [] rest
    else if (c =? 13)%N then
      match rest with
      | d :: rest' =>
        if (d =? 10)%N then rev current :: splitLines [] rest'
        else rev current :: splitLines [] rest
      | [] => [rev current]
      end
    else splitLines (c :: current) rest
  end.

Definition readLines (text : list N) : list JsString := splitLines [] text.

(** *** pg *)

Module Pg.

(** escapeElement of the driver: backslash and quote escaped, in quotes. *)
Definition escapeElement (s : JsString) : JsString :=
  34%N :: concat (map (fun c => if ((c =? 92) || (c =? 34))%N then [92%N; c] else [c]) s)
    ++ [34%N].

(** The text of a value that is not null, undefined or an array. *)
Definition scalarText (v : JsValue) : JsString :=
  match v with
  | JBool true => lit "true"
  | JBool false => lit "false"
  | JNum z => numberToString z
  | JNumOther l => l
  | JStr s => s
  | _ => default [] (JSON_stringify v)
  end.

(** arrayString of the driver, element by element. *)
Fixpoint arrayElement (v : JsValue) : JsString :=
  match v with
  | JNull | JUndefined => lit "NULL"
  | JArr items => 123%N :: joinComma (map arrayElement items) ++ [125%N]
  | _ => escapeElement (scalarText v)
  end.

(** prepareValue of the driver: the text sent for a parameter, [None] for
    NULL. *)
Definition prepareValue (v : JsValue) : option JsString :=
  match v with
  | JNull | JUndefined => None
  | JArr _ => Some (arrayElement v)
  | _ => Some (scalarText v)
  end.

Definition INSERT : string :=
  "INSERT INTO raw_chart (year, week, position, artist, title) VALUES ($1, $2, $3, $4, $5)".

(** The parameters of the insert statement, when the driver and the server
    take them: [values] must be an array, of as many items as the statement
    has placeholders. *)
Definition bindParameters (values : JsValue) : Exn + SqlRow :=
  match values with
  | JArr items =>
    if bool_decide (length items = 5%nat) then inr (map prepareValue items)
    else inl (QueryError "bind message supplies a wrong number of parameters")
  | _ =>
    if isTruthy values then inl (QueryError "Query values must be an array")
    else inl (QueryError "there is no parameter $1")
  end.

Section Server.

(** Whether the server takes a row, given the rows committed and the rows
    staged by the transaction (types, constraints). *)
Variable accepts : list SqlRow -> list SqlRow -> SqlRow -> bool.
(** Whether the server commits the staged rows. *)
Variable commits : list SqlRow -> list SqlRow -> bool.

Definition setDatabase (d : Database) : M unit :=
  fun w => (mkWorld (files w) (pending w) d (trace w), inr tt).

(** [new PgClient()] with [connect()]: a session of its own, no transaction
    open. *)
Definition newClient : M unit :=
  fun w => (mkWorld (files w) (pending w) (mkDatabase (committed (database w)) Idle)
              (trace w),
            inr tt).

Definition query_BEGIN : M unit :=
  emit (Query "BEGIN" None) ;;;
  fun w =>
    let d := database w in
    match session d with
    | Idle => setDatabase (mkDatabase (committed d) (Active [])) w
    | Active _ => (w, inr tt)
    | Failed => (w, inl (QueryError "current transaction is aborted"))
    end.

Definition query_INSERT (values : JsValue) : M unit :=
  emit (Query INSERT (Some values)) ;;;
  fun w =>
    let d := database w in
    match session d with
    | Failed => (w, inl (QueryError "current transaction is aborted"))
    | Active staged =>
      match bindParameters values with
      | inl e => (mkWorld (files w) (pending w) (mkDatabase (committed d) Failed) (trace w), inl e)
      | inr row =>
        if accepts (committed d) staged row
        then setDatabase (mkDatabase (committed d) (Active (staged ++ [row]))) w
        else (mkWorld (files w) (pending w) (mkDatabase (committed d) Failed) (trace w),
              inl (QueryError "the server refused the row"))
      end
    | Idle =>
      match bindParameters values with
      | inl e => (w, inl e)
      | inr row =>
        if accepts (committed d) [] row
        then setDatabase (mkDatabase (committed d ++ [row]) Idle) w
        else (w, inl (QueryError "the server refused the row"))
      end
    end.

Definition query_COMMIT : M unit :=
  emit (Query "COMMIT" None) ;;;
  fun w =>
    let d := database w in
    match session d with
    | Active staged =>
      if commits (committed d) staged
      then setDatabase (mkDatabase (committed d ++ staged) Idle) w
      else (mkWorld (files w) (pending w) (mkDatabase (committed d) Idle) (trace w),
            inl (QueryError "the server refused to commit"))
    | Failed => setDatabase (mkDatabase (committed d) Idle) w
    | Idle => (w, inr tt)
    end.

Definition query_ROLLBACK : M unit :=
  emit (Query "ROLLBACK" None) ;;;
  fun w => setDatabase (mkDatabase (committed (database w)) Idle) w.

End Server.

End Pg.

(** ** The program *)

(** The response of the remote site as [download] reads it. *)
Record Response : Type := mkResponse {
  statusCode : Z;
  contentType : JsValue;        (* headers['content-type'] *)
  body : list (list N);         (* the chunks of the body *)
  bodyError : option Exn        (* the error that ends the body early *)
}.

(** What the program takes from outside. *)
Record Environment : Type := mkEnvironment {
  (* the time zone of the process *)
  zone : Zone;
  (* the outcome of [request(url)] *)
  request : string -> Exn + Response;
  (* the file system: how much of a page that [download] has written is in
     its cache file when [download] has returned, see [writeUnawaited] *)
  reached : string -> list N -> option nat;
  (* jsdom: the rows [div.o-chart-results-list-row-container] of a page *)
  rowsOf : list N -> list Row;
  (* the database server *)
  accepts : list SqlRow -> list SqlRow -> SqlRow -> bool;
  commits : list SqlRow -> list SqlRow -> bool;
  (* the wall clock: the text of the time spent on a year *)
  elapsed : Z -> string
}.

(** One produced chart entry, [{ position, artist, title }]. *)
Record Entry : Type := mkEntry {
  position : JsValue;
  artist : JsValue;
  title : JsValue
}.

(** A run of the generator [parseHtml] to its end: the entries it yielded,
    what it wrote to the console between them, and the error that ended it,
    if one did. *)
Record Generated : Type := mkGenerated {
  yielded : list Entry;
  logged : list Event;
  thrown : option Exn
}.

Definition stopWith (events : list Event) (e : Exn) : Generated :=
  mkGenerated [] events (Some e).

Definition yieldThen (entry : Entry) (g : Generated) : Generated :=
  mkGenerated (entry :: yielded g) (logged g) (thrown g).

Section Download.

Variable env : Environment.

Definition download (date : DateTime) (htmlFileName : string) : M JsValue :=
  console_info ("Downloading HTML for " +:+ toISODate date +:+ "...") ;;;
  let url := "https://www.billboard.com/charts/hot-100/" +:+ toISODate date +:+ "/" in
  emit (Request url) ;;;
  let* response := liftEither (request env url) in
  if negb (statusCode response =? 200) then
    console_error "Status code is not 200!" [JNum (statusCode response)] ;;;
    ret JNull
  else
    let contentTypeHeader := contentType response in
    if negb (strict_eq_str contentTypeHeader (lit "text/html; charset=UTF-8")) then
      console_error "Content type is unexpected!" [contentTypeHeader] ;;;
      ret JNull
    else
      (* the chunks received go to a stream that is not awaited, also
         when the body breaks off *)
      writeUnawaited (reached env) htmlFileName (concat (body response)) ;;;
      match bodyError response with
      | Some e => throw e
      | None => ret JUndefined
      end.

End Download.

(** How the body of a [for] statement ends: the loop goes on, or the
    enclosing function returns. *)
Inductive Completion : Type := Continue | Return.

(** [for (let date = dateFrom; +date < +dateTo; date = date.plus({ weeks: 1 }))]
    runs at most this many times when every step moves the epoch time on by
    a day at least: a step adds a week, give or take what the offset of the
    zone changes by. *)
Definition weekFuel (dateFrom dateTo : DateTime) : nat :=
  Z.to_nat ((ts dateTo - ts dateFrom) / MS_PER_DAY + 1).

(** *** The year-range version (index.js) *)

Module YearRange.

Section Program.

Variable env : Environment.

(** The rows of [parseHtml] from index [i] on. *)
Fixpoint parseRows (i : Z) (rows : list Row) : Generated :=
  match rows with
  | [] => mkGenerated [] [] None
  | row :: rest =>
    match textOf (q_title row) with
    | inl e => stopWith [] e
    | inr title =>
      match textOf (q_artist row) with
      | inl e => stopWith [] e
      | inr artist =>
        if strict_eq_null title || strict_eq_null artist then
          (* console.error('Unexpected HTML!', position, title, artist):
             no [position] is declared in this version, reading it throws
             before anything is logged and before [throw new Error]. *)
          stopWith [] (ReferenceError "position is not defined")
        else yieldThen (mkEntry (JNum (i + 1)) artist title) (parseRows (i + 1) rest)
      end
    end
  end.

Definition parseHtml (fileName : string) : M Generated :=
  console_info ("Parsing " +:+ fileName +:+ "...") ;;;
  emit (FromFile fileName) ;;;
  fun w =>
    match files w !! fileName with
    | None => (w, inr (stopWith [] (SystemError "ENOENT")))
    | Some page =>
      let rows := rowsOf env page in
      if negb (bool_decide (length rows = 100%nat)) then
        (console_error "Entries are not 100!" [JStr (lit fileName)] ;;;
         ret (mkGenerated [] [] None)) w
      else ret (parseRows 0 rows) w
    end.

Definition ingest (date : DateTime) (jsonlFileName : string) : M unit :=
  let htmlFileName := "html/" +:+ toISODate date +:+ ".html" in
  let* cached := existsSync htmlFileName in
  (if negb cached then download env date htmlFileName ;;; ret tt else ret tt) ;;;
  createAppendStream jsonlFileName ;;;
  console_info ("Writing parsed HTML to " +:+ jsonlFileName +:+ "...") ;;;
  let* generated := parseHtml htmlFileName in
  forEach (yielded generated) (fun entry =>
    match JSON_stringify (JArr [JNum (weekYear date); JNum (weekNumber date);
                                position entry; artist entry; title entry]) with
    | Some line => write jsonlFileName line ;;; write jsonlFileName [10%N]
    | None => throw (TypeError "The chunk argument must be of type string")
    end) ;;;
  forEach (logged generated) emit ;;;
  match thrown generated with
  | Some e => throw e
  | None => console_info ("Process done for " +:+ toISODate date +:+ ".")
  end.

(** The historical correction of [store]. *)
Definition correct (values : JsValue) : Exn + JsValue :=
  match js_get values 0 with
  | inl e => inl e
  | inr v0 =>
    if strict_eq_num v0 1984 then
      match js_get values 1 with
      | inl e => inl e
      | inr v1 =>
        if strict_eq_num v1 7 then
          match js_get values 4 with
          | inl e => inl e
          | inr v4 =>
            if strict_eq_str v4 (lit "Remember The Nights")
            then js_set values 2 (JStr (lit "87"))
            else inr values
          end
        else inr values
      end
    else inr values
  end.

(** The body of the [for await] loop of [store], for one line. *)
Definition storeLine (line : JsString) : M unit :=
  let* values := liftEither (JSON_parse line) in
  let* values := liftEither (correct values) in
  Pg.query_INSERT (accepts env) values.

Definition store (jsonlFileName : string) : M unit :=
  let* present := existsSync jsonlFileName in
  if negb present then
    console_error ("JSONL file " +:+ jsonlFileName +:+ " does not exist!") []
  else
    Pg.newClient ;;;
    Pg.query_BEGIN ;;;
    console_info ("Inserting data from " +:+ jsonlFileName +:+ " to database...") ;;;
    tryCatch
      (let* text := readFile jsonlFileName in
       forEach (readLines text) storeLine ;;;
       Pg.query_COMMIT (commits env))
      (fun err => Pg.query_ROLLBACK ;;; throw err).

(** The weeks of a year: the loop at lines 140-145. *)
Fixpoint weekLoop (fuel : nat) (date dateTo : DateTime) (jsonlFileName : string)
  : M unit :=
  match fuel with
  | O => ret tt
  | S fuel' =>
    if ts date <? ts dateTo then
      if bool_decide (toISOWeekDate date = "1961-W52-6") then
        weekLoop fuel' (plus_weeks (zone env) date 1) dateTo jsonlFileName
      else
        ingest date jsonlFileName ;;;
        weekLoop fuel' (plus_weeks (zone env) date 1) dateTo jsonlFileName
    else ret tt
  end.

(** The body of the loop over the years, lines 124-159. *)
Definition yearBody (year : Z) : M Completion :=
  let dateFrom :=
    if year =? 1958 then fromISO_week (zone env) year 31 6
    else fromISO_week (zone env) year 1 6 in
  let dateTo := fromISO_week (zone env) (year + 1) 1 6 in
  match dateFrom, dateTo with
  | Some dateFrom, Some dateTo =>
    let jsonlFileName := "jsonl/" +:+ pretty year +:+ ".jsonl" in
    let* present := existsSync jsonlFileName in
    (if negb present
     then weekLoop (weekFuel dateFrom dateTo) dateFrom dateTo jsonlFileName
     else ret tt) ;;;
    (* try { await store(jsonlFileName) } catch (err) { throw err; ... }:
       the statements after [throw err] (log, unlink, --year, continue) are
       never reached. *)
    tryCatch (store jsonlFileName) (fun err => throw err) ;;;
    console_info ("Time elapsed: " +:+ elapsed env year +:+ ".") ;;;
    ret Continue
  | _, _ =>
    console_error "Date parse error!" [JNum year] ;;;
    ret Return
  end.

Fixpoint yearLoop (fuel : nat) (year yearEnd : Z) : M unit :=
  match fuel with
  | O => ret tt
  | S fuel' =>
    if year <=? yearEnd then
      let* completion := yearBody year in
      match completion with
      | Continue => yearLoop fuel' (year + 1) yearEnd
      | Return => ret tt
      end
    else ret tt
  end.

Definition numberOrNaN (n : option Z) : JsValue :=
  match n with Some z => JNum z | None => JNumOther (lit "NaN") end.

(** [main], with [argv] for [process.argv]. *)
Definition main (argv : list string) : M unit :=
  if (length argv <? 4)%nat then
    console_error "Missing year start and end!" [] ;;;
    console_info "Example: node index.js 1998 2020"
  else
    let yearStart := parseInt (lit (nth 2 argv "")) in
    let yearEnd := parseInt (lit (nth 3 argv "")) in
    match yearStart, yearEnd with
    | Some yearStart, Some yearEnd =>
      if (yearStart <? 1958) || (yearEnd >? 2022) then
        console_error "Year outside available range of 1958-2022!"
          [JNum yearStart; JNum yearEnd]
      else yearLoop (Z.to_nat (yearEnd - yearStart + 1)) yearStart yearEnd
    | _, _ =>
      console_error "Date parse error!" [numberOrNaN yearStart; numberOrNaN yearEnd]
    end.

(** [main().then(() => console.info('Done!')).catch(console.error)]. *)
Definition program (argv : list string) (w : World) : World :=
  match main argv w with
  | (w', inr _) => fst (console_info "Done!" w')
  | (w', inl err) => fst (emit (ConsoleErrorExn err) w')
  end.

End Program.

End YearRange.

(** *** The single-year version (the second text of index.js) *)

Module SingleYear.

Section Program.

Variable env : Environment.

(** The rows of [parseHtml], [for (const row of rows)]. *)
Fixpoint parseRows (rows : list Row) : Generated :=
  match rows with
  | [] => mkGenerated [] [] None
  | row :: rest =>
    match textOf (q_position row) with
    | inl e => stopWith [] e
    | inr position =>
      match textOf (q_title row) with
      | inl e => stopWith [] e
      | inr title =>
        match textOf (q_artist row) with
        | inl e => stopWith [] e
        | inr artist =>
          if strict_eq_null position || strict_eq_null title || strict_eq_null artist then
            stopWith [ConsoleError "Unexpected HTML" [position; title; artist]]
                     (Error "Unexpected HTML")
          else yieldThen (mkEntry position artist title) (parseRows rest)
        end
      end
    end
  end.

Definition parseHtml (fileName : string) : M Generated :=
  console_info ("Parsing " +:+ fileName +:+ "...") ;;;
  emit (FromFile fileName) ;;;
  fun w =>
    match files w !! fileName with
    | None => (w, inr (stopWith [] (SystemError "ENOENT")))
    | Some page => (w, inr (parseRows (rowsOf env page)))
    end.

Definition ingest (date : DateTime) (jsonlFileName : string) : M unit :=
  let htmlFileName := "html/" +:+ toISODate date +:+ ".html" in
  let* cached := existsSync htmlFileName in
  (if negb cached then download env date htmlFileName ;;; ret tt else ret tt) ;;;
  createAppendStream jsonlFileName ;;;
  console_info ("Writing parsed HTML to " +:+ jsonlFileName +:+ "...") ;;;
  let* generated := parseHtml htmlFileName in
  forEach (yielded generated) (fun entry =>
    match JSON_stringify (JArr [JNum (weekYear date); JNum (weekNumber date);
                                position entry; artist entry; title entry]) with
    | Some line => write jsonlFileName line ;;; write jsonlFileName [10%N]
    | None => throw (TypeError "The chunk argument must be of type string")
    end) ;;;
  forEach (logged generated) emit ;;;
  match thrown generated with
  | Some e => throw e
  | None => console_info ("Process done for " +:+ toISODate date +:+ ".")
  end.

Definition storeLine (line : JsString) : M unit :=
  let* values := liftEither (JSON_parse line) in
  Pg.query_INSERT (accepts env) values.

Definition store (jsonlFileName : string) : M unit :=
  let* present := existsSync jsonlFileName in
  if negb present then
    console_error ("JSONL file " +:+ jsonlFileName +:+ " does not exist!") []
  else
    Pg.newClient ;;;
    Pg.query_BEGIN ;;;
    console_info ("Inserting data from " +:+ jsonlFileName +:+ " to database...") ;;;
    tryCatch
      (let* text := readFile jsonlFileName in
       forEach (readLines text) storeLine ;;;
       Pg.query_COMMIT (commits env))
      (fun err => Pg.query_ROLLBACK ;;; throw err).

Fixpoint weekLoop (fuel : nat) (date dateTo : DateTime) (jsonlFileName : string)
  : M unit :=
  match fuel with
  | O => ret tt
  | S fuel' =>
    if ts date <? ts dateTo then
      ingest date jsonlFileName ;;;
      weekLoop fuel' (plus_weeks (zone env) date 1) dateTo jsonlFileName
    else ret tt
  end.

Definition main (argv : list string) : M unit :=
  if (length argv <? 3)%nat then
    console_error "Missing year!" [] ;;;
    console_info "Example: node index.js 2020"
  else
    match parseInt (lit (nth 2 argv "")) with
    | None => console_error "Date parse error!" [JNumOther (lit "NaN")]
    | Some yearInput =>
      match fromISO_week (zone env) yearInput 1 6,
            fromISO_week (zone env) (yearInput + 1) 1 6 with
      | Some dateFrom, Some dateTo =>
        let jsonlFileName := "jsonl/" +:+ pretty yearInput +:+ ".jsonl" in
        let* present := existsSync jsonlFileName in
        (if negb present
         then weekLoop (weekFuel dateFrom dateTo) dateFrom dateTo jsonlFileName
         else ret tt) ;;;
        store jsonlFileName
      | _, _ => console_error "Date parse error!" [JNum yearInput]
      end
    end.

Definition program (argv : list string) (w : World) : World :=
  match main argv w with
  | (w', inr _) => fst (console_info "Done!" w')
  | (w', inl err) => fst (emit (ConsoleErrorExn err) w')
  end.

End Program.

End SingleYear.

(** ** Notions used by the statements *)

(** The request of a page and the parsing of a cached page: the two events
    of an ingestion. *)
Definition isIngestEvent (e : Event) : bool :=
  match e with
  | Request _ | FromFile _ => true
  | _ => false
  end.

(** An element whose first child is a text node with a character that is
    not white space. *)
Definition hasVisibleText (q : option Element) : Prop :=
  exists text, q = Some (mkElement (Some (mkNode (Some text))))
               /\ Exists (fun c => isWhiteSpace c = false) text.

(** A well-formed chart row: its title and its artist are there, each with a
    visible text. *)
Definition wellFormedRow (row : Row) : Prop :=
  hasVisibleText (q_title row) /\ hasVisibleText (q_artist row).

(** A row whose rank label is there and reads, white space aside, as the
    decimal numeral of [rank]. *)
Definition hasRankLabel (rank : Z) (row : Row) : Prop :=
  exists label,
    q_position row = Some (mkElement (Some (mkNode (Some label))))
    /\ trim label = numberToString rank.

(** Well-formed rows of a page with rank labels, the first with the rank
    [start], the next ones counting up. *)
Fixpoint rankedFrom (start : Z) (rows : list Row) : Prop :=
  match rows with
  | [] => True
  | row :: rest =>
    wellFormedRow row /\ hasRankLabel start row /\ rankedFrom (start + 1) rest
  end.

(** A non-empty string value. *)
Definition isNonEmptyText (v : JsValue) : Prop :=
  exists s, v = JStr s /\ s <> [].

(** A text element, for examples. *)
Definition textElement (s : string) : option Element :=
  Some (mkElement (Some (mkNode (Some (lit s))))).

Definition goodRow : Row :=
  mkRow (textElement "1") (textElement " Song ") (textElement " Singer ").

(** A row whose [h3#title-of-a-story] is missing; with it the selector
    [h3#title-of-a-story + span] of the artist finds nothing either. *)
Definition untitledRow : Row :=
  mkRow (textElement "42") None None.

(** A well-formed row with the rank label [rank]. *)
Definition rankedRow (rank : Z) : Row :=
  mkRow (Some (mkElement (Some (mkNode (Some (32%N :: numberToString rank))))))
        (textElement " Song ") (textElement " Singer ").

(** A page of 100 rows, the 42nd without a title. *)
Definition pageWithUntitledRow : list Row :=
  replicate 41 goodRow ++ untitledRow :: replicate 58 goodRow.

Definition emptyDatabase : Database := mkDatabase [] Idle.

(** The address of the chart of a week, as [download] builds it. *)
Definition chartUrl (date : DateTime) : string :=
  "https://www.billboard.com/charts/hot-100/" +:+ toISODate date +:+ "/".

(** What [download] logs for a response it does not take. *)
Definition deviationLog (response : Response) : Event :=
  if negb (statusCode response =? 200)
  then ConsoleError "Status code is not 200!" [JNum (statusCode response)]
  else ConsoleError "Content type is unexpected!" [contentType response].

(** The dates for which the loop over the weeks of the year-range version
    calls [ingest], in order: the same loop, collecting its dates. *)
Fixpoint weekDates (zone : Zone) (fuel : nat) (date dateTo : DateTime)
  : list DateTime :=
  match fuel with
  | O => []
  | S fuel' =>
    if ts date <? ts dateTo then
      if bool_decide (toISOWeekDate date = "1961-W52-6") then
        weekDates zone fuel' (plus_weeks zone date 1) dateTo
      else date :: weekDates zone fuel' (plus_weeks zone date 1) dateTo
    else []
  end.

(** The week the dates of a year start at. *)
Definition firstWeek (year : Z) : Z := if year =? 1958 then 31 else 1.

(** The week-ending dates of a year in the year-range version, for a
    process in the zone [zone]. *)
Definition weekEndingDates (zone : Zone) (year : Z) : list DateTime :=
  match fromISO_week zone year (firstWeek year) 6, fromISO_week zone (year + 1) 1 6 with
  | Some dateFrom, Some dateTo =>
    weekDates zone (weekFuel dateFrom dateTo) dateFrom dateTo
  | _, _ => []
  end.

(** The zone has an offset that never changes, and it is UTC or east of it:
    the offset is [o] minutes, from none to less than a day. *)
Definition fixedEastOfUTC (zone : Zone) (o : Z) : Prop :=
  (forall t, zone t = o) /\ 0 <= o < 1440.

(** A zone with summer time, for examples: one hour east of UTC, two hours
    from 2020-03-29T01:00Z until 2020-10-25T01:00Z. *)
Definition centralEurope2020 : Zone :=
  fun t => if (1585443600000 <=? t) && (t <? 1603587600000) then 120 else 60.

(** A DateTime as it reads in a zone with the offset [o]. *)
Definition inZone (o : Z) (date : DateTime) : DateTime := mkDateTime (ts date) o.

(** Midnight UTC, as a DateTime of the zone UTC. *)
Definition utcMidnight (date : DateTime) : Prop :=
  ts date mod MS_PER_DAY = 0 /\ offset date = 0.

Definition isoWeekDate (date : DateTime) : Z * Z * Z :=
  (weekYear date, weekNumber date, weekday date).

(** The record file of a year. *)
Definition jsonlName (year : Z) : string := "jsonl/" +:+ pretty year +:+ ".jsonl".

#[global] Instance DateTime_eq_dec : EqDecision DateTime.
Proof. solve_decision. Defined.

(** What the dates of a year have to be: they start at the Saturday of the
    first week, there is one for each ISO week of the year from the first
    week on except week 52 of 1961, the k-th is k weeks after the first, all
    lie before the Saturday of week 1 of the next year, and none is
    1961-W52-6. *)
Definition weeklyFrom (year : Z) (dateFrom dateTo : DateTime)
  (dates : list DateTime) : Prop :=
  head dates = Some dateFrom
  /\ map isoWeekDate dates
     = map (fun k => (year, k, 6))
         (filter (fun k => (year, k) <> (1961, 52))
            (seqZ (firstWeek year) (weeksInWeekYear year - firstWeek year + 1)))
  /\ map ts dates
     = map (fun k => ts dateFrom + k * (7 * MS_PER_DAY))
         (seqZ 0 (Z.of_nat (length dates)))
  /\ Forall (fun date => ts date < ts dateTo) dates
  /\ Forall (fun date => toISOWeekDate date <> "1961-W52-6") dates.

(** The dates of a year are what they have to be when the zone is UTC. *)
Definition yearDatesOk (year : Z) : Prop :=
  match fromISO_week UTC year (firstWeek year) 6, fromISO_week UTC (year + 1) 1 6 with
  | Some dateFrom, Some dateTo =>
    weeklyFrom year dateFrom dateTo (weekEndingDates UTC year)
  | _, _ => False
  end.

#[global] Instance weeklyFrom_dec (year : Z) (dateFrom dateTo : DateTime)
  (dates : list DateTime) : Decision (weeklyFrom year dateFrom dateTo dates).
Proof. unfold weeklyFrom. apply _. Defined.

#[global] Instance yearDatesOk_dec (year : Z) : Decision (yearDatesOk year) :=
  match fromISO_week UTC year (firstWeek year) 6 as f,
        fromISO_week UTC (year + 1) 1 6 as t
    return Decision (match f, t with
                     | Some dateFrom, Some dateTo =>
                       weeklyFrom year dateFrom dateTo (weekEndingDates UTC year)
                     | _, _ => False
                     end)
  with
  | Some dateFrom, Some dateTo =>
    weeklyFrom_dec year dateFrom dateTo (weekEndingDates UTC year)
  | Some _, None => right (fun H => H)
  | None, _ => right (fun H => H)
  end.

(** A character that ends an element of an array: the comma or the closing
    bracket. *)
Definition endsElement (d : N) : Prop := d = 44%N \/ d = 93%N.

(** The values [ingest] puts in a record: safe integers, strings, and
    undefined for a field the extractor did not find. *)
Definition isField (v : JsValue) : Prop :=
  match v with
  | JNum z => isSafeInteger z = true
  | JStr _ | JNull | JUndefined => True
  | _ => False
  end.

(** The text of an array element: undefined is written as null. *)
Definition fieldText (v : JsValue) : JsString :=
  match serializeJSONProperty v with
  | Some t => t
  | None => lit "null"
  end.

(** What a field is when it is read back. *)
Definition readBack (v : JsValue) : JsValue :=
  match v with
  | JUndefined => JNull
  | _ => v
  end.

(** The position of a chart entry: an integer or a numeral as text. *)
Definition isPosition (v : JsValue) : Prop :=
  match v with
  | JNum z => isSafeInteger z = true
  | JStr _ => True
  | _ => False
  end.

(** The record of a chart entry,
    [[weekYear, weekNumber, position, artist, title]]. *)
Definition isChartRecord (v : JsValue) : Prop :=
  exists year week p a t,
    v = JArr [JNum year; JNum week; p; JStr a; JStr t]
    /\ isSafeInteger year = true /\ isSafeInteger week = true /\ isPosition p.

(** The text of a record file with the given lines, each written with its
    line feed as [ingest] does. *)
Definition recordFile (lines : list JsString) : list N :=
  concat (map (fun line => line ++ [10%N]) lines).

(** The values [store] hands to the insert statement for a line, in the
    year-range version: the line parsed and corrected. *)
Definition YearRange_valuesOf (line : JsString) : Exn + JsValue :=
  match JSON_parse line with
  | inl e => inl e
  | inr values => YearRange.correct values
  end.

(** The row a line stands for: its values as the parameters of the insert
    statement, or the error of parsing or binding them. *)
Definition rowOf (valuesOf : JsString -> Exn + JsValue) (line : JsString)
  : Exn + SqlRow :=
  match valuesOf line with
  | inl e => inl e
  | inr values => Pg.bindParameters values
  end.

(** The rows of the lines, staged one after the other behind [staged], or
    the first error: of a line that has no row, or of a row the server
    refuses. *)
Fixpoint stageLines (env : Environment) (valuesOf : JsString -> Exn + JsValue)
  (committed staged : list SqlRow) (lines : list JsString) : Exn + list SqlRow :=
  match lines with
  | [] => inr staged
  | line :: rest =>
    match rowOf valuesOf line with
    | inl e => inl e
    | inr row =>
      if accepts env committed staged row
      then stageLines env valuesOf committed (staged ++ [row]) rest
      else inl (QueryError "the server refused the row")
    end
  end.

(** The outcome of loading the lines in one transaction: all their rows, or
    the first error. *)
Definition loadOutcome (env : Environment) (valuesOf : JsString -> Exn + JsValue)
  (committed : list SqlRow) (lines : list JsString) : Exn + list SqlRow :=
  match stageLines env valuesOf committed [] lines with
  | inl e => inl e
  | inr rows =>
    if commits env committed rows then inr rows
    else inl (QueryError "the server refused to commit")
  end.

(** All or nothing: [after] is the outcome of loading [text] in the world
    [before].  Either the call returns and the database has, behind the rows
    it had, one row for each line of the text, in order; or the call throws
    the first error of the load and the database has the rows it had.  Either
    way no transaction stays open and no file is touched. *)
Definition allOrNothing (env : Environment) (valuesOf : JsString -> Exn + JsValue)
  (text : list N) (before : World) (after : World * (Exn + unit)) : Prop :=
  files (fst after) = files before
  /\ session (database (fst after)) = Idle
  /\ ((snd after = inr tt
       /\ exists rows,
           Forall2 (fun line row => rowOf valuesOf line = inr row) (readLines text) rows
           /\ committed (database (fst after)) = committed (database before) ++ rows)
      \/ (exists e,
            snd after = inl e
            /\ loadOutcome env valuesOf (committed (database before)) (readLines text)
               = inl e
            /\ committed (database (fst after)) = committed (database before))).

(** A string literal in a JSON text, in its quotes. *)
Definition quoted (s : string) : JsString := 34%N :: lit s ++ [34%N].

(** The line [[1984, 7, "99", "Some Artist", "Remember The Nights"]]. *)
Definition literalLine : JsString :=
  lit "[1984, 7, " ++ quoted "99" ++ lit ", " ++ quoted "Some Artist" ++ lit ", "
    ++ quoted "Remember The Nights" ++ lit "]".

(** The same record with its year written with a fraction,
    [[1984.0, 7, "99", "Some Artist", "Remember The Nights"]]. *)
Definition fractionLine : JsString :=
  lit "[1984.0, 7, " ++ quoted "99" ++ lit ", " ++ quoted "Some Artist" ++ lit ", "
    ++ quoted "Remember The Nights" ++ lit "]".

(** A world whose only file is the record file of 1984, with that line. *)
Definition worldWithLiteralLine : World :=
  mkWorld {[ "jsonl/1984.jsonl" := literalLine ++ [10%N] ]} ∅ emptyDatabase [].

(** A step of the program that ingests nothing: it leaves the files as they
    are and adds no request and no page parsing to the trace. *)
Definition quietStep (before after : World) : Prop :=
  files after = files before
  /\ exists events,
      trace after = trace before ++ events
      /\ Forall (fun e => isIngestEvent e = false) events.

(** A computation all of whose runs are quiet steps. *)
Definition quiet {A} (c : M A) : Prop := forall w, quietStep w (fst (c w)).

(** A world whose only file is the record file of 2020, with one line that
    is not JSON. *)
Definition worldWithBrokenRecordFile : World :=
  mkWorld {[ "jsonl/2020.jsonl" := lit "not json" ++ [10%N] ]} ∅ emptyDatabase [].

(** A text without control characters, so without a line end. *)
Definition printable (s : JsString) : Prop := Forall (fun c => (32 <= c)%N) s.

(** The first Saturday of 2020 in the zone UTC, for examples. *)
Definition sampleDate : DateTime := mkDateTime 1578096000000 0.

Definition isTypeError (e : Exn) : bool :=
  match e with TypeError _ => true | _ => false end.

(** A world with one cached page and nothing else. *)
Definition worldWithPage (fileName : string) : World :=
  mkWorld {[ fileName := [] ]} ∅ emptyDatabase [].

(** An environment for examples: the process is in a zone with the given
    offset, the site answers 404, every page has the given rows, the server
    takes everything. *)
Definition envInZone (minutes : Z) (rows : list Row) : Environment :=
  mkEnvironment
    (fixedOffset minutes)
    (fun _ => inr (mkResponse 404 (JStr (lit "text/html; charset=UTF-8")) [] None))
    (fun _ _ => None)
    (fun _ => rows)
    (fun _ _ _ => true) (fun _ _ => true) (fun _ => "1 second").

(** The same in the zone UTC. *)
Definition sampleEnv (rows : list Row) : Environment := envInZone 0 rows.

(** *** Notions of the further properties *)

(** The cache file of the page of a week. *)
Definition htmlName (date : DateTime) : string :=
  "html/" +:+ toISODate date +:+ ".html".

(** The record [ingest] writes for an entry of the page of [date]. *)
Definition recordOf (date : DateTime) (entry : Entry) : JsValue :=
  JArr [JNum (weekYear date); JNum (weekNumber date);
        position entry; artist entry; title entry].

(** Its line in the record file. *)
Definition recordLine (date : DateTime) (entry : Entry) : JsString :=
  default [] (JSON_stringify (recordOf date entry)).

(** What the year-range extractor makes of a cached page. *)
Definition YearRange_extract (env : Environment) (page : list N) : Generated :=
  if bool_decide (length (rowsOf env page) = 100%nat)
  then YearRange.parseRows 0 (rowsOf env page)
  else mkGenerated [] [] None.

(** What the single-year extractor makes of a cached page. *)
Definition SingleYear_extract (env : Environment) (page : list N) : Generated :=
  SingleYear.parseRows (rowsOf env page).

(** What the year-range extractor logs for a cached page before it yields. *)
Definition YearRange_parseLog (env : Environment) (fileName : string) (page : list N)
  : list Event :=
  if bool_decide (length (rowsOf env page) = 100%nat) then []
  else [ConsoleError "Entries are not 100!" [JStr (lit fileName)]].

(** A request of a page. *)
Definition isRequest (e : Event) : bool :=
  match e with Request _ => true | _ => false end.

(** Whether [download] takes a response: the status is 200 and the content
    type is the expected one. *)
Definition isTaken (response : Response) : bool :=
  (statusCode response =? 200)
  && strict_eq_str (contentType response) (lit "text/html; charset=UTF-8").

(** What a computation adds to the trace: events that satisfy [P]. *)
Definition emits {A} (P : Event -> Prop) (c : M A) : Prop :=
  forall w, exists events,
    trace (fst (c w)) = trace w ++ events /\ Forall P events.

(** The event is no request, or it requests the chart of one of the
    dates. *)
Definition requestsOnly (dates : DateTime -> Prop) (e : Event) : Prop :=
  match e with
  | Request url => exists date, dates date /\ url = chartUrl date
  | _ => True
  end.

(** The dates whose charts a run with the arguments [argv] may request: the
    Saturdays of the ISO weeks of the years from the first to the second
    argument, inside 1958 to 2022, from week 31 on in 1958 and without week 52
    of 1961. *)
Definition chartDateOf (argv : list string) (date : DateTime) : Prop :=
  exists yearStart yearEnd year week,
    parseInt (lit (nth 2 argv "")) = Some yearStart
    /\ parseInt (lit (nth 3 argv "")) = Some yearEnd
    /\ yearStart <= year <= yearEnd
    /\ 1958 <= year <= 2022
    /\ firstWeek year <= week <= weeksInWeekYear year
    /\ (year, week) <> (1961, 52)
    /\ isoWeekDate date = (year, week, 6).

(** The condition of the correction of [store], on the items of a record. *)
Definition isCorrected (items : list JsValue) : Prop :=
  items !! 0%nat = Some (JNum 1984)
  /\ items !! 1%nat = Some (JNum 7)
  /\ items !! 4%nat = Some (JStr (lit "Remember The Nights")).

(** A line that is no JSON text, or that is an array to which the
    correction does not apply. *)
Definition uncorrectedLine (line : JsString) : Prop :=
  match JSON_parse line with
  | inl _ => True
  | inr (JArr items) => ~ isCorrected items
  | inr _ => False
  end.

(** A console message. *)
Definition isConsoleEvent (e : Event) : bool :=
  match e with
  | ConsoleInfo _ | ConsoleError _ _ | ConsoleErrorExn _ => true
  | _ => false
  end.

(** Arguments for which the year-range version has a year to work on: two
    years that [parseInt] reads, in order and inside 1958 to 2022. *)
Definition validArguments (argv : list string) : Prop :=
  exists yearStart yearEnd,
    (4 <= length argv)%nat
    /\ parseInt (lit (nth 2 argv "")) = Some yearStart
    /\ parseInt (lit (nth 3 argv "")) = Some yearEnd
    /\ 1958 <= yearStart /\ yearStart <= yearEnd /\ yearEnd <= 2022.

(** The line [[2020,1,1,"Singer","Song"]], and a world whose only file is
    the record file of 2020 with that line. *)
Definition sampleLine : JsString :=
  lit "[2020,1,1," ++ quoted "Singer" ++ lit "," ++ quoted "Song" ++ lit "]".

Definition worldWithSampleLine : World :=
  mkWorld {[ "jsonl/2020.jsonl" := sampleLine ++ [10%N] ]} ∅ emptyDatabase [].

(** The page [ingest] reads for a date: the cached one, or else, when the
    site's response is taken and ends well, what has reached the cache file
    of its body by the time the page is read - nothing, when the stream has
    not opened the file yet. *)
Definition pageFor (env : Environment) (w : World) (date : DateTime)
  : option (list N) :=
  match files w !! htmlName date with
  | Some page => Some page
  | None =>
    match request env (chartUrl date) with
    | inr response =>
      if isTaken response then
        match bodyError response with
        | None =>
          match reached env (htmlName date) (concat (body response)) with
          | Some n => Some (take n (concat (body response)))
          | None => None
          end
        | Some _ => None
        end
      else None
    | inl _ => None
    end
  end.

(** The text of a title or artist element that has one. *)
Definition elementText (q : option Element) : JsString :=
  match textOf q with
  | inr (JStr s) => s
  | _ => []
  end.

(** The row of [raw_chart] for the chart row [row] at the position
    [position] of the page of the week of [date], as the year-range loader
    stores it: every field as text, the position replaced by 87 where the
    correction applies. *)
Definition chartRow (date : DateTime) (position : Z) (row : Row) : SqlRow :=
  [Some (numberToString (weekYear date));
   Some (numberToString (weekNumber date));
   Some (if (weekYear date =? 1984) && (weekNumber date =? 7)
            && bool_decide (elementText (q_title row) = lit "Remember The Nights")
         then lit "87"
         else numberToString position);
   Some (elementText (q_artist row));
   Some (elementText (q_title row))].

(** The rows of [raw_chart] for the chart rows of a page, the first at the
    position [i + 1], the next ones counting up. *)
Fixpoint chartRowsFrom (date : DateTime) (i : Z) (rows : list Row) : list SqlRow :=
  match rows with
  | [] => []
  | row :: rest => chartRow date (i + 1) row :: chartRowsFrom date (i + 1) rest
  end.

(** The rows of [raw_chart] for the page of a date. *)
Definition chartRows (env : Environment) (w : World) (date : DateTime) : list SqlRow :=
  chartRowsFrom date 0 (rowsOf env (default [] (pageFor env w date))).

(** A response that is taken, for examples: a body of two chunks. *)
Definition sampleResponse : Response :=
  mkResponse 200 (JStr (lit "text/html; charset=UTF-8"))
    [lit "<html>"; lit "</html>"] None.

(** An environment for examples: the process is in the zone UTC, the site
    answers every request with that response, and of a page that [download]
    has written the first [n] bytes are in the file when it is read, or the
    file is not there ([None]); every page has the given rows, the server
    takes everything. *)
Definition onlineEnv (n : option nat) (rows : list Row) : Environment :=
  mkEnvironment
    UTC
    (fun _ => inr sampleResponse)
    (fun _ _ => n)
    (fun _ => rows)
    (fun _ _ _ => true) (fun _ _ => true) (fun _ => "1 second").

(** The text of a page, for examples. *)
Definition samplePage : list N := lit "<html></html>".

(** A world whose files are the cached pages of the given dates, each with
    that text. *)
Definition worldWithPages (dates : list DateTime) : World :=
  mkWorld (list_to_map (map (fun date => (htmlName date, samplePage)) dates)) ∅
    emptyDatabase [].

(** A text without white space at its start and at its end. *)
Definition isTrimmed (s : JsString) : Prop :=
  forall c, head s = Some c \/ last s = Some c -> isWhiteSpace c = false.

(** A field as the extractor leaves it: undefined, or a trimmed text. *)
Definition isExtractedField (v : JsValue) : Prop :=
  v = JUndefined \/ exists s, v = JStr s /\ isTrimmed s.

(** What the extractor takes for a field, when reading it does not fail,
    and the error of reading it, when it does. *)
Definition fieldOf (q : option Element) : JsValue :=
  match textOf q with
  | inr v => v
  | inl _ => JUndefined
  end.

Definition readError (q : option Element) : option Exn :=
  match textOf q with
  | inl e => Some e
  | inr _ => None
  end.

(** The error a row ends the extractor with, if it does.  The year-range
    version reads the title, then the artist; the single-year version reads
    the position first. *)
Definition YearRange_rowError (row : Row) : option Exn :=
  match readError (q_title row) with
  | Some e => Some e
  | None => readError (q_artist row)
  end.

Definition SingleYear_rowError (row : Row) : option Exn :=
  match readError (q_position row) with
  | Some e => Some e
  | None => YearRange_rowError row
  end.

(** The rows before the first row that fails, all rows when none does. *)
Fixpoint rowsBeforeError (rowError : Row -> option Exn) (rows : list Row)
  : list Row :=
  match rows with
  | [] => []
  | row :: rest =>
    match rowError row with
    | None => row :: rowsBeforeError rowError rest
    | Some _ => []
    end
  end.

(** The entry of a row that does not fail: in the year-range version of the
    row at the index [k], counted from 0. *)
Definition YearRange_entryOf (k : nat) (row : Row) : Entry :=
  mkEntry (JNum (Z.of_nat k + 1)) (fieldOf (q_artist row)) (fieldOf (q_title row)).

Definition SingleYear_entryOf (row : Row) : Entry :=
  mkEntry (fieldOf (q_position row)) (fieldOf (q_artist row)) (fieldOf (q_title row)).

(** A line of white space only, the empty line included. *)
Definition isBlank (line : JsString) : Prop :=
  Forall (fun c => isJSONWhiteSpace c = true) line.

(** What may follow the digits of a number that [parseInt] reads: nothing,
    or a character that is no digit and does not make a hexadecimal prefix. *)
Definition endsInteger (rest : JsString) : Prop :=
  match rest with
  | [] => True
  | d :: _ => isDigit d = false /\ d <> 120%N /\ d <> 88%N
  end.

(** The dates for which the loop over the weeks of the single-year version
    calls [ingest], in order: the same loop, collecting its dates. *)
Fixpoint everyWeek (zone : Zone) (fuel : nat) (date dateTo : DateTime)
  : list DateTime :=
  match fuel with
  | O => []
  | S fuel' =>
    if ts date <? ts dateTo
    then date :: everyWeek zone fuel' (plus_weeks zone date 1) dateTo
    else []
  end.

(** The week-ending dates of a year in the single-year version, for a
    process in the zone [zone]. *)
Definition SingleYear_weekEndingDates (zone : Zone) (year : Z) : list DateTime :=
  match fromISO_week zone year 1 6, fromISO_week zone (year + 1) 1 6 with
  | Some dateFrom, Some dateTo =>
    everyWeek zone (weekFuel dateFrom dateTo) dateFrom dateTo
  | _, _ => []
  end.

(** What these dates have to be, when the zone is UTC: the two ends of the
    year are valid dates, and there is one date, a Saturday, for each ISO
    week of the year. *)
Definition everyWeekOk (year : Z) : Prop :=
  is_Some (fromISO_week UTC year 1 6)
  /\ is_Some (fromISO_week UTC (year + 1) 1 6)
  /\ map isoWeekDate (SingleYear_weekEndingDates UTC year)
     = map (fun k => (year, k, 6)) (seqZ 1 (weeksInWeekYear year)).

#[global] Instance everyWeekOk_dec (year : Z) : Decision (everyWeekOk year).
Proof. unfold everyWeekOk. apply _. Defined.

(** A step of the program that only adds: every file that was there is
    there with the content it had, and the table has the rows it had, in
    front of those that were added. *)
Definition onlyAdds (before after : World) : Prop :=
  (forall fileName content,
      files before !! fileName = Some content ->
      files after !! fileName = Some content)
  /\ exists rows,
      committed (database after) = committed (database before) ++ rows.

(** A chart row all three of whose elements have a visible text. *)
Definition labelledRow (row : Row) : Prop :=
  wellFormedRow row /\ hasVisibleText (q_position row).

(** The row of [raw_chart] for a chart row of the page of the week of
    [date], as the single-year loader stores it: every field as text, the
    position as its label reads. *)
Definition SingleYear_chartRow (date : DateTime) (row : Row) : SqlRow :=
  [Some (numberToString (weekYear date));
   Some (numberToString (weekNumber date));
   Some (elementText (q_position row));
   Some (elementText (q_artist row));
   Some (elementText (q_title row))].

(** The rows of [raw_chart] for the page of a date, in the single-year
    version. *)
Definition SingleYear_chartRows (env : Environment) (w : World) (date : DateTime)
  : list SqlRow :=
  map (SingleYear_chartRow date) (rowsOf env (default [] (pageFor env w date))).

(** The outcome of a step that, when it fails, leaves the table with the
    rows it had. *)
Definition failsClean {A} (before : World) (after : World * (Exn + A)) : Prop :=
  match snd after with
  | inl _ => committed (database (fst after)) = committed (database before)
  | inr _ => True
  end.

(** ** The extractor *)

Lemma trimStart_visible (s : JsString) :
  Exists (fun c => isWhiteSpace c = false) s ->
  Exists (fun c => isWhiteSpace c = false) (trimStart s).
Proof.
  induction s as [|c s IH]; intros H.
  - inversion H.
  - simpl. destruct (isWhiteSpace c) eqn:Hc.
    + apply IH. inversion H; subst; [congruence | assumption].
    + apply Exists_cons_hd. exact Hc.
Qed.

Lemma trim_visible (s : JsString) :
  Exists (fun c => isWhiteSpace c = false) s -> trim s <> [].
Proof.
  intros H. unfold trim.
  assert (Hv : Exists (fun c => isWhiteSpace c = false)
                 (trimStart (rev (trimStart s)))).
  { apply trimStart_visible. apply Exists_exists.
    apply trimStart_visible in H. apply Exists_exists in H as (c & Hin & Hc).
    exists c. split; [|exact Hc]. apply list_elem_of_In, in_rev.
    rewrite rev_involutive. by apply list_elem_of_In. }
  intros Hnil. apply (f_equal (@rev N)) in Hnil.
  rewrite rev_involutive in Hnil. simpl in Hnil.
  rewrite Hnil in Hv. inversion Hv.
Qed.

Lemma textOf_visible (q : option Element) :
  hasVisibleText q -> exists s, textOf q = inr (JStr s) /\ s <> [].
Proof.
  intros (text & -> & Hvis). exists (trim text). split; [reflexivity|].
  by apply trim_visible.
Qed.

(** The optional chain never evaluates to null. *)
Lemma textOf_not_null (q : option Element) (v : JsValue) :
  textOf q = inr v -> strict_eq_null v = false.
Proof.
  unfold textOf. destruct q as [[[[[text|]]|]]|]; intros H; inversion H; reflexivity.
Qed.

Lemma parseRows_wellFormed (i : Z) (rows : list Row) :
  Forall wellFormedRow rows ->
  let g := YearRange.parseRows i rows in
  thrown g = None /\ logged g = []
  /\ map position (yielded g) = map JNum (seqZ (i + 1) (Z.of_nat (length rows)))
  /\ Forall (fun e => isNonEmptyText (artist e) /\ isNonEmptyText (title e)) (yielded g).
Proof.
  intros Hrows. revert i. induction Hrows as [|row rows [Ht Ha] _ IH]; intros i.
  - repeat split; constructor.
  - destruct (textOf_visible _ Ht) as (t & Et & Nt).
    destruct (textOf_visible _ Ha) as (a & Ea & Na).
    destruct (IH (i + 1)) as (Hthrown & Hlogged & Hpos & Hall).
    cbn [YearRange.parseRows]. rewrite Et, Ea. cbn [strict_eq_null orb].
    unfold yieldThen; cbn [thrown logged yielded map length].
    repeat split; try assumption.
    + rewrite Hpos, Nat2Z.inj_succ, (seqZ_cons (i + 1)) by lia.
      cbn [map]. do 3 f_equal; lia.
    + constructor; [|exact Hall]. cbn [artist title].
      split; eexists; (split; [reflexivity|assumption]).
Qed.

Lemma SingleYear_parseRows_ranked (start : Z) (rows : list Row) :
  rankedFrom start rows ->
  let g := SingleYear.parseRows rows in
  thrown g = None /\ logged g = []
  /\ map position (yielded g)
     = map (fun k => JStr (numberToString k)) (seqZ start (Z.of_nat (length rows)))
  /\ Forall (fun e => isNonEmptyText (artist e) /\ isNonEmptyText (title e)) (yielded g).
Proof.
  revert start. induction rows as [|row rows IH]; intros start Hrows.
  - repeat split; constructor.
  - destruct Hrows as ([Ht Ha] & (label & Hlabel & Hrank) & Hrest).
    destruct (textOf_visible _ Ht) as (t & Et & Nt).
    destruct (textOf_visible _ Ha) as (a & Ea & Na).
    destruct (IH (start + 1) Hrest) as (Hthrown & Hlogged & Hpos & Hall).
    cbn [SingleYear.parseRows]. rewrite Hlabel. cbn [textOf firstChild nodeValue].
    rewrite Et, Ea, Hrank. cbn [strict_eq_null orb].
    unfold yieldThen; cbn [thrown logged yielded map length].
    repeat split; try assumption.
    + rewrite Hpos, Nat2Z.inj_succ, (seqZ_cons start) by lia.
      cbn [map]. do 3 f_equal; lia.
    + constructor; [|exact Hall]. cbn [artist title].
      split; eexists; (split; [reflexivity|assumption]).
Qed.

(** C5.  A well-formed page is extracted to 100 entries with the positions
    1 to 100 in this order and non-empty artists and titles.  In the
    year-range version the page has exactly 100 rows, each with a visible
    title and artist, and the position is the number of the row.  In the
    single-year version the page has, besides, rank labels that read 1, 2,
    ..., 100, and the position is the text of the label. *)
Theorem wellFormed_page_yields_100_entries :
  (forall (env : Environment) (fileName : string) (w : World) (page : list N),
      files w !! fileName = Some page ->
      length (rowsOf env page) = 100%nat ->
      Forall wellFormedRow (rowsOf env page) ->
      exists g w', YearRange.parseHtml env fileName w = (w', inr g)
        /\ thrown g = None
        /\ length (yielded g) = 100%nat
        /\ map position (yielded g) = map JNum (seqZ 1 100)
        /\ Forall (fun e => isNonEmptyText (artist e) /\ isNonEmptyText (title e))
             (yielded g))
  /\ (forall (env : Environment) (fileName : string) (w : World) (page : list N),
        files w !! fileName = Some page ->
        length (rowsOf env page) = 100%nat ->
        rankedFrom 1 (rowsOf env page) ->
        exists g w', SingleYear.parseHtml env fileName w = (w', inr g)
          /\ thrown g = None
          /\ length (yielded g) = 100%nat
          /\ map position (yielded g)
             = map (fun k => JStr (numberToString k)) (seqZ 1 100)
          /\ Forall (fun e => isNonEmptyText (artist e) /\ isNonEmptyText (title e))
               (yielded g)).
Proof.
  split.
  - intros env fileName w page Hfile Hlen Hrows.
    destruct (parseRows_wellFormed 0 _ Hrows) as (Hthrown & _ & Hpos & Hall).
    rewrite Hlen in Hpos.
    eexists _, _. split.
    + unfold YearRange.parseHtml, console_info, emit, bind, ret. cbn [files pending].
      rewrite Hfile. rewrite bool_decide_eq_true_2 by exact Hlen. reflexivity.
    + cbv zeta in *. repeat split; try assumption.
      apply (f_equal (@length JsValue)) in Hpos.
      by rewrite !length_map in Hpos.
  - intros env fileName w page Hfile Hlen Hrows.
    destruct (SingleYear_parseRows_ranked 1 _ Hrows) as (Hthrown & _ & Hpos & Hall).
    rewrite Hlen in Hpos.
    eexists _, _. split.
    + unfold SingleYear.parseHtml, console_info, emit, bind. cbn [files pending].
      rewrite Hfile. reflexivity.
    + cbv zeta in *. repeat split; try assumption.
      apply (f_equal (@length JsValue)) in Hpos.
      by rewrite !length_map in Hpos.
Qed.

Lemma wellFormed_page_yields_100_entries_witness :
  (exists g w',
      YearRange.parseHtml (sampleEnv (replicate 100 goodRow)) "html/2020-01-04.html"
        (worldWithPage "html/2020-01-04.html") = (w', inr g)
      /\ thrown g = None
      /\ length (yielded g) = 100%nat
      /\ map position (yielded g) = map JNum (seqZ 1 100)
      /\ Forall (fun e => isNonEmptyText (artist e) /\ isNonEmptyText (title e))
           (yielded g))
  /\ (exists g w',
        SingleYear.parseHtml (sampleEnv (map rankedRow (seqZ 1 100)))
          "html/2020-01-04.html" (worldWithPage "html/2020-01-04.html") = (w', inr g)
        /\ thrown g = None
        /\ length (yielded g) = 100%nat
        /\ map position (yielded g)
           = map (fun k => JStr (numberToString k)) (seqZ 1 100)
        /\ Forall (fun e => isNonEmptyText (artist e) /\ isNonEmptyText (title e))
             (yielded g)).
Proof.
  assert (Hvisible : forall s, Exists (fun c => isWhiteSpace c = false) (lit s)
                               -> hasVisibleText (textElement s)).
  { intros s Hs. exists (lit s). split; [reflexivity|exact Hs]. }
  assert (Hgood : wellFormedRow goodRow).
  { split; apply Hvisible; apply Exists_cons_tl, Exists_cons_hd; reflexivity. }
  split.
  - apply (proj1 wellFormed_page_yields_100_entries
             (sampleEnv (replicate 100 goodRow)) "html/2020-01-04.html"
             (worldWithPage "html/2020-01-04.html") []).
    + reflexivity.
    + reflexivity.
    + apply Forall_replicate. exact Hgood.
  - apply (proj2 wellFormed_page_yields_100_entries
             (sampleEnv (map rankedRow (seqZ 1 100))) "html/2020-01-04.html"
             (worldWithPage "html/2020-01-04.html") []).
    + reflexivity.
    + reflexivity.
    + change (rowsOf (sampleEnv (map rankedRow (seqZ 1 100))) [])
        with (map rankedRow (seqZ 1 100)).
      let l := eval vm_compute in (seqZ 1 100) in change (seqZ 1 100) with l.
      cbn [map rankedFrom].
      repeat (split; [exact Hgood|split; [eexists; split; [reflexivity|vm_compute; reflexivity]|]]).
      exact I.
Defined.

(** C4.  Both extractors on a page of 100 rows whose 42nd row has no title
    element (and so none that the selector of the artist finds): nothing is
    thrown, all 100 entries are yielded, and the 42nd carries an undefined
    title and an undefined artist. *)
Theorem missing_title_is_not_fatal :
  (exists g w',
      YearRange.parseHtml (sampleEnv pageWithUntitledRow) "html/2020-01-04.html"
        (worldWithPage "html/2020-01-04.html") = (w', inr g)
      /\ thrown g = None
      /\ length (yielded g) = 100%nat
      /\ yielded g !! 41%nat
         = Some (mkEntry (JNum 42) JUndefined JUndefined))
  /\ (exists g w',
        SingleYear.parseHtml (sampleEnv pageWithUntitledRow) "html/2020-01-04.html"
          (worldWithPage "html/2020-01-04.html") = (w', inr g)
        /\ thrown g = None
        /\ length (yielded g) = 100%nat
        /\ yielded g !! 41%nat
           = Some (mkEntry (JStr (lit "42")) JUndefined JUndefined)).
Proof.
  split; (eexists _, _; split; [vm_compute; reflexivity|]);
    repeat split; vm_compute; reflexivity.
Qed.

Lemma YearRange_parseRows_ends (i : Z) (rows : list Row) :
  logged (YearRange.parseRows i rows) = []
  /\ match thrown (YearRange.parseRows i rows) with
     | Some e => isTypeError e = true
     | None => True
     end.
Proof.
  revert i. induction rows as [|row rows IH]; intros i; cbn [YearRange.parseRows].
  - split; [reflexivity|exact I].
  - destruct (textOf (q_title row)) as [e|t] eqn:Et.
    { split; [reflexivity|]. cbn. unfold textOf in Et.
      destruct (q_title row) as [[[[[?|]]|]]|]; inversion Et; reflexivity. }
    destruct (textOf (q_artist row)) as [e|a] eqn:Ea.
    { split; [reflexivity|]. cbn. unfold textOf in Ea.
      destruct (q_artist row) as [[[[[?|]]|]]|]; inversion Ea; reflexivity. }
    rewrite (textOf_not_null _ _ Et), (textOf_not_null _ _ Ea). cbn [orb].
    exact (IH (i + 1)).
Qed.

Lemma SingleYear_parseRows_ends (rows : list Row) :
  logged (SingleYear.parseRows rows) = []
  /\ match thrown (SingleYear.parseRows rows) with
     | Some e => isTypeError e = true
     | None => True
     end.
Proof.
  induction rows as [|row rows IH]; cbn [SingleYear.parseRows].
  - split; [reflexivity|exact I].
  - destruct (textOf (q_position row)) as [e|p] eqn:Ep.
    { split; [reflexivity|]. cbn. unfold textOf in Ep.
      destruct (q_position row) as [[[[[?|]]|]]|]; inversion Ep; reflexivity. }
    destruct (textOf (q_title row)) as [e|t] eqn:Et.
    { split; [reflexivity|]. cbn. unfold textOf in Et.
      destruct (q_title row) as [[[[[?|]]|]]|]; inversion Et; reflexivity. }
    destruct (textOf (q_artist row)) as [e|a] eqn:Ea.
    { split; [reflexivity|]. cbn. unfold textOf in Ea.
      destruct (q_artist row) as [[[[[?|]]|]]|]; inversion Ea; reflexivity. }
    rewrite (textOf_not_null _ _ Ep), (textOf_not_null _ _ Et),
      (textOf_not_null _ _ Ea). cbn [orb].
    exact IH.
Qed.

(** C10.  In both versions the test [=== null] of the extracted fields is
    never true: the optional chain gives undefined, a string or a TypeError,
    never null.  So no run of either generator logs or throws
    'Unexpected HTML': it ends normally or with a TypeError.  A row whose
    title element is missing is yielded with an undefined title - whatever
    the query of the artist gives, and so for the row of a real page, where
    it gives null as well and the artist is undefined too - and a row whose
    title element has no child ends the generator with a TypeError. *)
Theorem null_guard_never_fires :
  (forall q, match textOf q with
             | inr v => strict_eq_null v = false
             | inl e => isTypeError e = true
             end)
  /\ (forall i rows,
        logged (YearRange.parseRows i rows) = []
        /\ match thrown (YearRange.parseRows i rows) with
           | Some e => isTypeError e = true
           | None => True
           end)
  /\ (forall rows,
        logged (SingleYear.parseRows rows) = []
        /\ match thrown (SingleYear.parseRows rows) with
           | Some e => isTypeError e = true
           | None => True
           end)
  /\ (forall i p text rest,
        YearRange.parseRows i
          (mkRow p None (Some (mkElement (Some (mkNode (Some text))))) :: rest)
        = yieldThen (mkEntry (JNum (i + 1)) (JStr (trim text)) JUndefined)
            (YearRange.parseRows (i + 1) rest))
  /\ (forall ptext atext rest,
        SingleYear.parseRows
          (mkRow (Some (mkElement (Some (mkNode (Some ptext))))) None
                 (Some (mkElement (Some (mkNode (Some atext))))) :: rest)
        = yieldThen (mkEntry (JStr (trim ptext)) (JStr (trim atext)) JUndefined)
            (SingleYear.parseRows rest))
  /\ (forall i p a rest, exists msg,
        YearRange.parseRows i (mkRow p (Some (mkElement None)) a :: rest)
        = stopWith [] (TypeError msg))
  /\ (forall ptext a rest, exists msg,
        SingleYear.parseRows
          (mkRow (Some (mkElement (Some (mkNode (Some ptext)))))
                 (Some (mkElement None)) a :: rest)
        = stopWith [] (TypeError msg))
  /\ (forall i p rest,
        YearRange.parseRows i (mkRow p None None :: rest)
        = yieldThen (mkEntry (JNum (i + 1)) JUndefined JUndefined)
            (YearRange.parseRows (i + 1) rest))
  /\ (forall ptext rest,
        SingleYear.parseRows
          (mkRow (Some (mkElement (Some (mkNode (Some ptext))))) None None :: rest)
        = yieldThen (mkEntry (JStr (trim ptext)) JUndefined JUndefined)
            (SingleYear.parseRows rest)).
Proof.
  split; [|split; [|split; [|split; [|split; [|split; [|split; [|split]]]]]]].
  - intros q. destruct (textOf q) as [e|v] eqn:E.
    + unfold textOf in E. destruct q as [[[[[?|]]|]]|]; inversion E; reflexivity.
    + exact (textOf_not_null _ _ E).
  - exact YearRange_parseRows_ends.
  - exact SingleYear_parseRows_ends.
  - reflexivity.
  - reflexivity.
  - intros; eexists; reflexivity.
  - intros; eexists; reflexivity.
  - reflexivity.
  - reflexivity.
Qed.

(** ** The fetcher *)

Lemma strict_eq_str_false (v : JsValue) (s : JsString) :
  v <> JStr s -> strict_eq_str v s = false.
Proof.
  intros Hne. destruct v; try reflexivity. cbn.
  unfold JsString_eqb. apply bool_decide_eq_false_2. congruence.
Qed.

(** C8.  When the response has a status other than 200, or a content type
    that is not exactly [text/html; charset=UTF-8], [download] logs the
    deviation on the error console and returns null: it does not throw, and
    the files are as before, so no cache file exists for the date unless it
    did already. *)
Theorem download_rejects_unexpected_response
  (env : Environment) (date : DateTime) (htmlFileName : string) (w : World)
  (response : Response) :
  request env (chartUrl date) = inr response ->
  statusCode response <> 200
  \/ contentType response <> JStr (lit "text/html; charset=UTF-8") ->
  download env date htmlFileName w
  = (mkWorld (files w) (pending w) (database w)
       (trace w ++ [ConsoleInfo ("Downloading HTML for " +:+ toISODate date +:+ "...");
                    Request (chartUrl date);
                    deviationLog response]),
     inr JNull).
Proof.
  intros Hreq Hdev.
  unfold download, console_info, console_error, emit, bind, liftEither, ret.
  fold (chartUrl date). cbn [files pending database trace]. rewrite Hreq.
  unfold deviationLog.
  destruct (statusCode response =? 200) eqn:Hstatus; cbn [negb].
  - destruct Hdev as [Hdev|Hdev]; [apply Z.eqb_eq in Hstatus; contradiction|].
    rewrite (strict_eq_str_false _ _ Hdev). cbn [negb files pending database trace].
    by rewrite <- !app_assoc.
  - cbn [files pending database trace]. by rewrite <- !app_assoc.
Qed.

Lemma download_rejects_unexpected_response_witness :
  download (sampleEnv []) sampleDate "html/2020-01-04.html"
    (mkWorld ∅ ∅ emptyDatabase [])
  = (mkWorld ∅ ∅ emptyDatabase
       [ConsoleInfo "Downloading HTML for 2020-01-04...";
        Request "https://www.billboard.com/charts/hot-100/2020-01-04/";
        ConsoleError "Status code is not 200!" [JNum 404]],
     inr JNull).
Proof.
  apply (download_rejects_unexpected_response (sampleEnv []) sampleDate
           "html/2020-01-04.html" (mkWorld ∅ ∅ emptyDatabase [])
           (mkResponse 404 (JStr (lit "text/html; charset=UTF-8")) [] None)).
  - reflexivity.
  - left. discriminate.
Defined.

(** ** The week-ending dates *)

Lemma years_1958_2022 : Forall yearDatesOk (seqZ 1958 65).
Proof.
  assert (H : bool_decide (Forall yearDatesOk (seqZ 1958 65)) = true)
    by (vm_compute; reflexivity).
  exact (bool_decide_eq_true_1 _ H).
Qed.

Lemma weekLoop_forEach (env : Environment) (fuel : nat) (date dateTo : DateTime)
  (jsonlFileName : string) (w : World) :
  YearRange.weekLoop env fuel date dateTo jsonlFileName w
  = forEach (weekDates (zone env) fuel date dateTo)
      (fun d => YearRange.ingest env d jsonlFileName) w.
Proof.
  revert date w. induction fuel as [|fuel IH]; intros date w; [reflexivity|].
  cbn [YearRange.weekLoop weekDates].
  destruct (ts date <? ts dateTo); [|reflexivity].
  destruct (bool_decide (toISOWeekDate date = "1961-W52-6")); [apply IH|].
  cbn [forEach]. unfold bind.
  destruct (YearRange.ingest env date jsonlFileName w) as [w' [e|[]]];
    [reflexivity|apply IH].
Qed.

Lemma lookup_map {A B} (f : A -> B) (l : list A) (i : nat) :
  map f l !! i = option_map f (l !! i).
Proof.
  revert i. induction l as [|x l IH]; intros [|i]; try reflexivity. apply IH.
Qed.


(** *** The zone of the process

    The two ends of a year are midnights UTC whatever the zone is; what the
    zone decides is the day they and the dates between them read as. *)

Lemma fromISO_week_zone (zone zone' : Zone) (year week weekday : Z) (date : DateTime) :
  fromISO_week zone year week weekday = Some date ->
  fromISO_week zone' year week weekday = Some (mkDateTime (ts date) (zone' (ts date)))
  /\ ts date mod MS_PER_DAY = 0
  /\ offset date = zone (ts date).
Proof.
  unfold fromISO_week.
  destruct ((1000 <=? year) && (year <=? 9999) && (1 <=? week)
            && (week <=? weeksInWeekYear year) && (1 <=? weekday) && (weekday <=? 7));
    [|discriminate].
  intros [= <-]. cbn [ts offset]. split; [reflexivity|]. split; [|reflexivity].
  apply Z.mod_mul. discriminate.
Qed.

Lemma fromISO_week_None (zone zone' : Zone) (year week weekday : Z) :
  fromISO_week zone year week weekday = None ->
  fromISO_week zone' year week weekday = None.
Proof.
  unfold fromISO_week.
  by destruct ((1000 <=? year) && (year <=? 9999) && (1 <=? week)
               && (week <=? weeksInWeekYear year) && (1 <=? weekday) && (weekday <=? 7)).
Qed.

(** In a zone whose offset never changes a week is seven times 24 hours. *)
Lemma plus_weeks_fixed (zone : Zone) (o : Z) (date : DateTime) (n : Z) :
  (forall t, zone t = o) -> offset date = o ->
  plus_weeks zone date n = mkDateTime (ts date + n * 7 * MS_PER_DAY) o.
Proof.
  intros Hzone Ho. unfold plus_weeks, fixOffset, localTS.
  rewrite Hzone, Ho, Z.eqb_refl. f_equal. lia.
Qed.

(** East of UTC by less than a day, midnight UTC is a time of the same
    day. *)
Lemma dayOf_inZone (o : Z) (date : DateTime) :
  0 <= o < 1440 -> utcMidnight date -> dayOf (inZone o date) = dayOf date.
Proof.
  intros Ho [Hmod Hoff]. unfold dayOf, localTS, inZone. cbn [ts offset].
  rewrite Hoff, Z.add_0_r.
  rewrite (Z.div_mod (ts date) MS_PER_DAY) at 1 by discriminate.
  rewrite Hmod, Z.add_0_r, (Z.mul_comm MS_PER_DAY), Z.add_comm, Z.div_add by discriminate.
  rewrite Z.div_small; [reflexivity|]. unfold MS_PER_MINUTE, MS_PER_DAY. lia.
Qed.

Lemma isoWeekDate_dayOf (a b : DateTime) :
  dayOf a = dayOf b ->
  isoWeekDate a = isoWeekDate b /\ toISOWeekDate a = toISOWeekDate b
  /\ toISODate a = toISODate b.
Proof.
  intros H. unfold isoWeekDate, toISOWeekDate, toISODate, weekYear, weekNumber, weekday.
  by rewrite H.
Qed.

Lemma utcMidnight_plus_weeks (date : DateTime) :
  utcMidnight date ->
  plus_weeks UTC date 1 = mkDateTime (ts date + 1 * 7 * MS_PER_DAY) 0
  /\ utcMidnight (plus_weeks UTC date 1).
Proof.
  intros [Hmod Hoff].
  assert (E : plus_weeks UTC date 1 = mkDateTime (ts date + 1 * 7 * MS_PER_DAY) 0)
    by (by apply plus_weeks_fixed).
  split; [exact E|]. rewrite E. split; [|reflexivity]. cbn [ts].
  rewrite Z.mod_add by discriminate. exact Hmod.
Qed.

(** The loop over the weeks in a zone with a fixed offset east of UTC visits
    the instants it visits in the zone UTC, each a midnight UTC. *)
Lemma weekDates_fixed (zone : Zone) (o : Z) (fuel : nat) (date dateTo dateTo' : DateTime) :
  fixedEastOfUTC zone o -> utcMidnight date -> ts dateTo' = ts dateTo ->
  weekDates zone fuel (inZone o date) dateTo' = map (inZone o) (weekDates UTC fuel date dateTo)
  /\ Forall utcMidnight (weekDates UTC fuel date dateTo).
Proof.
  intros [Hzone Ho] Hdate Hto. revert date Hdate.
  induction fuel as [|fuel IH]; intros date Hdate; [by split|].
  cbn [weekDates]. change (ts (inZone o date)) with (ts date). rewrite Hto.
  destruct (ts date <? ts dateTo); [|by split].
  destruct (isoWeekDate_dayOf _ _ (dayOf_inZone o date Ho Hdate)) as (_ & -> & _).
  destruct (utcMidnight_plus_weeks date Hdate) as [Enext Hnext].
  assert (E : plus_weeks zone (inZone o date) 1 = inZone o (plus_weeks UTC date 1)).
  { rewrite Enext. by apply plus_weeks_fixed. }
  rewrite E. destruct (IH _ Hnext) as [IHdates IHall].
  destruct (bool_decide (toISOWeekDate date = "1961-W52-6")); [by split|].
  cbn [map]. rewrite IHdates. split; [reflexivity|by constructor].
Qed.

Lemma everyWeek_fixed (zone : Zone) (o : Z) (fuel : nat) (date dateTo dateTo' : DateTime) :
  fixedEastOfUTC zone o -> utcMidnight date -> ts dateTo' = ts dateTo ->
  everyWeek zone fuel (inZone o date) dateTo' = map (inZone o) (everyWeek UTC fuel date dateTo)
  /\ Forall utcMidnight (everyWeek UTC fuel date dateTo).
Proof.
  intros [Hzone Ho] Hdate Hto. revert date Hdate.
  induction fuel as [|fuel IH]; intros date Hdate; [by split|].
  cbn [everyWeek]. change (ts (inZone o date)) with (ts date). rewrite Hto.
  destruct (ts date <? ts dateTo); [|by split].
  destruct (utcMidnight_plus_weeks date Hdate) as [Enext Hnext].
  assert (E : plus_weeks zone (inZone o date) 1 = inZone o (plus_weeks UTC date 1)).
  { rewrite Enext. by apply plus_weeks_fixed. }
  rewrite E. destruct (IH _ Hnext) as [IHdates IHall].
  cbn [map]. rewrite IHdates. split; [reflexivity|by constructor].
Qed.

(** The two ends of a year in a zone with a fixed offset, from those in the
    zone UTC. *)
Lemma year_ends_fixed (zone : Zone) (o : Z) (year week : Z) (dateFrom dateTo : DateTime) :
  (forall t, zone t = o) ->
  fromISO_week UTC year week 6 = Some dateFrom ->
  fromISO_week UTC (year + 1) 1 6 = Some dateTo ->
  fromISO_week zone year week 6 = Some (inZone o dateFrom)
  /\ fromISO_week zone (year + 1) 1 6 = Some (inZone o dateTo)
  /\ utcMidnight dateFrom
  /\ weekFuel (inZone o dateFrom) (inZone o dateTo) = weekFuel dateFrom dateTo.
Proof.
  intros Hzone Efrom Eto.
  destruct (fromISO_week_zone UTC zone _ _ _ _ Efrom) as (Efrom' & Hmod & Hoff).
  destruct (fromISO_week_zone UTC zone _ _ _ _ Eto) as (Eto' & _).
  rewrite Hzone in Efrom', Eto'. by repeat split.
Qed.

Lemma weekEndingDates_fixed (zone : Zone) (o : Z) (year : Z) :
  fixedEastOfUTC zone o ->
  weekEndingDates zone year = map (inZone o) (weekEndingDates UTC year)
  /\ Forall utcMidnight (weekEndingDates UTC year).
Proof.
  intros Hfixed. unfold weekEndingDates.
  destruct (fromISO_week UTC year (firstWeek year) 6) as [dateFrom|] eqn:Efrom;
    [|by rewrite (fromISO_week_None UTC zone _ _ _ Efrom)].
  destruct (fromISO_week UTC (year + 1) 1 6) as [dateTo|] eqn:Eto.
  - destruct (year_ends_fixed zone o year _ dateFrom dateTo (proj1 Hfixed) Efrom Eto)
      as (-> & -> & Hfrom & ->).
    by apply weekDates_fixed.
  - rewrite (fromISO_week_None UTC zone _ _ _ Eto).
    by destruct (fromISO_week zone year (firstWeek year) 6).
Qed.

Lemma SingleYear_weekEndingDates_fixed (zone : Zone) (o : Z) (year : Z) :
  fixedEastOfUTC zone o ->
  SingleYear_weekEndingDates zone year
  = map (inZone o) (SingleYear_weekEndingDates UTC year)
  /\ Forall utcMidnight (SingleYear_weekEndingDates UTC year).
Proof.
  intros Hfixed. unfold SingleYear_weekEndingDates.
  destruct (fromISO_week UTC year 1 6) as [dateFrom|] eqn:Efrom;
    [|by rewrite (fromISO_week_None UTC zone _ _ _ Efrom)].
  destruct (fromISO_week UTC (year + 1) 1 6) as [dateTo|] eqn:Eto.
  - destruct (year_ends_fixed zone o year _ dateFrom dateTo (proj1 Hfixed) Efrom Eto)
      as (-> & -> & Hfrom & ->).
    by apply everyWeek_fixed.
  - rewrite (fromISO_week_None UTC zone _ _ _ Eto).
    by destruct (fromISO_week zone year 1 6).
Qed.

(** What depends on the day alone is the same for the dates of both
    zones. *)
Lemma map_inZone {A} (f : DateTime -> A) (o : Z) (dates : list DateTime) :
  (forall date, utcMidnight date -> f (inZone o date) = f date) ->
  Forall utcMidnight dates ->
  map f (map (inZone o) dates) = map f dates.
Proof.
  intros Hf. induction 1 as [|date dates Hdate _ IH]; [reflexivity|].
  cbn [map]. by rewrite Hf, IH.
Qed.

Lemma Forall_inZone (P : DateTime -> Prop) (o : Z) (dates : list DateTime) :
  (forall date, utcMidnight date -> P date -> P (inZone o date)) ->
  Forall utcMidnight dates -> Forall P dates -> Forall P (map (inZone o) dates).
Proof.
  intros HP. induction 1 as [|date dates Hdate _ IH]; intros Hall; [constructor|].
  inversion Hall; subst. cbn [map]. constructor; [by apply HP|by apply IH].
Qed.

(** The two ends of a year are valid dates in every zone. *)
Lemma year_ends_valid (zone : Zone) (year : Z) :
  1958 <= year <= 2022 ->
  exists dateFrom dateTo,
    fromISO_week zone year (firstWeek year) 6 = Some dateFrom
    /\ fromISO_week zone (year + 1) 1 6 = Some dateTo.
Proof.
  intros Hyear.
  assert (Hok : yearDatesOk year).
  { pose proof years_1958_2022 as Hall. rewrite Forall_forall in Hall.
    apply Hall, elem_of_seqZ. lia. }
  unfold yearDatesOk in Hok.
  destruct (fromISO_week UTC year (firstWeek year) 6) as [dateFrom|] eqn:Efrom;
    [|contradiction].
  destruct (fromISO_week UTC (year + 1) 1 6) as [dateTo|] eqn:Eto; [|contradiction].
  eexists _, _. split.
  - apply (fromISO_week_zone UTC zone _ _ _ _ Efrom).
  - apply (fromISO_week_zone UTC zone _ _ _ _ Eto).
Qed.

Lemma year_dates_valid (zone : Zone) (o : Z) (year : Z) :
  fixedEastOfUTC zone o ->
  1958 <= year <= 2022 ->
  exists dateFrom dateTo,
    fromISO_week zone year (firstWeek year) 6 = Some dateFrom
    /\ fromISO_week zone (year + 1) 1 6 = Some dateTo
    /\ weeklyFrom year dateFrom dateTo (weekEndingDates zone year).
Proof.
  intros Hfixed Hyear.
  assert (Hok : yearDatesOk year).
  { pose proof years_1958_2022 as Hall. rewrite Forall_forall in Hall.
    apply Hall, elem_of_seqZ. lia. }
  unfold yearDatesOk in Hok.
  destruct (fromISO_week UTC year (firstWeek year) 6) as [dateFrom|] eqn:Efrom;
    [|contradiction].
  destruct (fromISO_week UTC (year + 1) 1 6) as [dateTo|] eqn:Eto; [|contradiction].
  destruct Hok as (Hhead & Hweeks & Hts & Hbefore & Hgap).
  destruct (year_ends_fixed zone o year _ dateFrom dateTo (proj1 Hfixed) Efrom Eto)
    as (Efrom' & Eto' & _ & _).
  destruct (weekEndingDates_fixed zone o year Hfixed) as [-> Hmidnight].
  assert (Hday : forall date, utcMidnight date -> dayOf (inZone o date) = dayOf date)
    by (intros date; apply dayOf_inZone, Hfixed).
  exists (inZone o dateFrom), (inZone o dateTo).
  split; [exact Efrom'|]. split; [exact Eto'|]. repeat split.
  - destruct (weekEndingDates UTC year); [discriminate|].
    cbn in *. by injection Hhead as ->.
  - rewrite map_inZone; [exact Hweeks| |exact Hmidnight].
    intros date Hdate. by apply isoWeekDate_dayOf, Hday.
  - rewrite length_map, map_inZone; [exact Hts| |exact Hmidnight]. reflexivity.
  - apply Forall_inZone; [|exact Hmidnight|exact Hbefore]. by intros date _ H.
  - apply Forall_inZone; [|exact Hmidnight|exact Hgap].
    intros date Hdate H.
    by rewrite (proj1 (proj2 (isoWeekDate_dayOf _ _ (Hday date Hdate)))).
Qed.

(** Where the offset changes, [plus] keeps the local time and not the
    distance: in a zone with summer time the dates of 2020 are Saturdays, one
    for each of its 53 weeks, but the week in which the clocks go forward is
    an hour short of seven times 24 hours, and the week in which they go back
    an hour long. *)
Lemma summer_time_week_is_an_hour_short :
  map isoWeekDate (weekEndingDates centralEurope2020 2020)
  = map (fun k => (2020, k, 6)) (seqZ 1 53)
  /\ weekEndingDates centralEurope2020 2020 !! 12%nat
     = Some (mkDateTime 1585353600000 60)
  /\ weekEndingDates centralEurope2020 2020 !! 13%nat
     = Some (mkDateTime (1585353600000 + 7 * MS_PER_DAY - 3600000) 120)
  /\ weekEndingDates centralEurope2020 2020 !! 42%nat
     = Some (mkDateTime 1603494000000 120)
  /\ weekEndingDates centralEurope2020 2020 !! 43%nat
     = Some (mkDateTime (1603494000000 + 7 * MS_PER_DAY + 3600000) 60).
Proof. repeat split; vm_compute; reflexivity. Qed.

Lemma firstWeek_date (zone : Zone) (year : Z) :
  (if year =? 1958 then fromISO_week zone year 31 6 else fromISO_week zone year 1 6)
  = fromISO_week zone year (firstWeek year) 6.
Proof. unfold firstWeek. by destruct (year =? 1958). Qed.

(** With the record file of the year missing, the body of the loop over the
    years ingests the dates of the year, in order, and loads the file. *)
Lemma yearBody_without_record_file
  (env : Environment) (year : Z) (w : World) (dateFrom dateTo : DateTime) :
  fromISO_week (zone env) year (firstWeek year) 6 = Some dateFrom ->
  fromISO_week (zone env) (year + 1) 1 6 = Some dateTo ->
  files w !! jsonlName year = None ->
  YearRange.yearBody env year w
  = (forEach (weekEndingDates (zone env) year)
       (fun date => YearRange.ingest env date (jsonlName year)) ;;;
     tryCatch (YearRange.store env (jsonlName year)) (fun err => throw err) ;;;
     console_info ("Time elapsed: " +:+ elapsed env year +:+ ".") ;;;
     ret Continue) w.
Proof.
  intros Efrom Eto Habsent.
  unfold YearRange.yearBody. rewrite firstWeek_date, Efrom, Eto.
  fold (jsonlName year).
  unfold bind at 1. unfold existsSync. rewrite Habsent.
  rewrite bool_decide_eq_false_2 by (intros [? ?]; discriminate).
  cbn [negb]. unfold bind at 1. unfold bind at 3.
  rewrite weekLoop_forEach.
  unfold weekEndingDates. rewrite Efrom, Eto. reflexivity.
Qed.




(** ** The record file: JSON lines written and read back *)

Lemma hexValue_hexDigit (n : N) : (n < 16)%N -> hexValue (hexDigit n) = Some n.
Proof.
  intros Hn. unfold hexValue, hexDigit, isDigit.
  destruct (N.ltb_spec n 10).
  - replace ((48 <=? 48 + n) && (48 + n <=? 57))%N with true
      by (symmetry; apply andb_true_intro; split; apply N.leb_le; lia).
    f_equal. lia.
  - replace ((48 <=? 87 + n) && (87 + n <=? 57))%N with false
      by (symmetry; apply andb_false_intro2, N.leb_gt; lia).
    replace ((97 <=? 87 + n) && (87 + n <=? 102))%N with true
      by (symmetry; apply andb_true_intro; split; apply N.leb_le; lia).
    f_equal. lia.
Qed.

Lemma hex4_unicodeEscape (c : N) :
  (c < 65536)%N ->
  hex4 (hexDigit ((c / 4096) mod 16)) (hexDigit ((c / 256) mod 16))
       (hexDigit ((c / 16) mod 16)) (hexDigit (c mod 16)) = Some c.
Proof.
  intros Hc. unfold hex4.
  rewrite !hexValue_hexDigit by (apply N.mod_lt; discriminate).
  f_equal.
  pose proof (N.div_mod c 16 ltac:(discriminate)) as H1.
  pose proof (N.div_mod (c / 16) 16 ltac:(discriminate)) as H2.
  pose proof (N.div_mod (c / 256) 16 ltac:(discriminate)) as H3.
  rewrite N.Div0.div_div in H2, H3.
  change (16 * 16)%N with 256%N in H2. change (256 * 16)%N with 4096%N in H3.
  assert (H4 : ((c / 4096) mod 16 = c / 4096)%N)
    by (apply N.mod_small, N.Div0.div_lt_upper_bound; lia).
  lia.
Qed.

(** Reading back an escape [\uXXXX] written by [JSON.stringify]. *)
Lemma parseStringBody_unicodeEscape (c : N) (s : JsString) :
  (c < 65536)%N ->
  parseStringBody (unicodeEscape c ++ s)
  = match parseStringBody s with
    | Some (t, rest) => Some (c :: t, rest)
    | None => None
    end.
Proof.
  intros Hc. unfold unicodeEscape. cbn [app parseStringBody].
  cbn [N.eqb Pos.eqb]. rewrite hex4_unicodeEscape by exact Hc. reflexivity.
Qed.

Lemma parseStringBody_plain (c : N) (s : JsString) :
  (32 <= c)%N -> c <> 34%N -> c <> 92%N ->
  parseStringBody (c :: s)
  = match parseStringBody s with
    | Some (t, rest) => Some (c :: t, rest)
    | None => None
    end.
Proof.
  intros H32 H34 H92. cbn [parseStringBody].
  rewrite (proj2 (N.eqb_neq c 34) H34), (proj2 (N.eqb_neq c 92) H92).
  rewrite (proj2 (N.ltb_ge c 32) H32). reflexivity.
Qed.

Ltac surrogate_bounds :=
  unfold isLeadingSurrogate, isTrailingSurrogate in *;
  repeat match goal with
         | H : (_ && _) = true |- _ => apply andb_prop in H as [? ?]
         | H : (_ <=? _)%N = true |- _ => apply N.leb_le in H
         | H : (_ <? _)%N = false |- _ => apply N.ltb_ge in H
         | H : (_ <? _)%N = true |- _ => apply N.ltb_lt in H
         | H : (_ =? _)%N = false |- _ => apply N.eqb_neq in H
         end.

(** A quoted string is read back as written. *)
Lemma parseStringBody_quoteBody (s rest : JsString) :
  parseStringBody (quoteBody s ++ 34%N :: rest) = Some (s, rest).
Proof.
  remember (length s) as n eqn:Hn.
  assert (Hle : (length s <= n)%nat) by lia. clear Hn.
  revert s Hle. induction n as [|n IH]; intros [|c s] Hle;
    try (cbn in Hle; lia); [reflexivity|reflexivity|].
  cbn [length] in Hle.
  assert (IHs : parseStringBody (quoteBody s ++ 34%N :: rest) = Some (s, rest))
    by (apply IH; lia).
  cbn [quoteBody].
  destruct (c =? 8)%N eqn:E8.
  { apply N.eqb_eq in E8; subst c. cbn. by rewrite IHs. }
  destruct (c =? 9)%N eqn:E9.
  { apply N.eqb_eq in E9; subst c. cbn. by rewrite IHs. }
  destruct (c =? 10)%N eqn:E10.
  { apply N.eqb_eq in E10; subst c. cbn. by rewrite IHs. }
  destruct (c =? 12)%N eqn:E12.
  { apply N.eqb_eq in E12; subst c. cbn. by rewrite IHs. }
  destruct (c =? 13)%N eqn:E13.
  { apply N.eqb_eq in E13; subst c. cbn. by rewrite IHs. }
  destruct (c =? 34)%N eqn:E34.
  { apply N.eqb_eq in E34; subst c. cbn. by rewrite IHs. }
  destruct (c =? 92)%N eqn:E92.
  { apply N.eqb_eq in E92; subst c. cbn. by rewrite IHs. }
  destruct (c <? 32)%N eqn:E32.
  { rewrite <- app_assoc, parseStringBody_unicodeEscape, IHs;
      [reflexivity|surrogate_bounds; lia]. }
  destruct (isLeadingSurrogate c) eqn:Elead.
  { destruct s as [|d s'].
    - cbn [app]. rewrite parseStringBody_unicodeEscape;
        [reflexivity|surrogate_bounds; lia].
    - destruct (isTrailingSurrogate d) eqn:Etrail.
      + cbn [app]. cbn [length] in Hle.
        rewrite parseStringBody_plain by (surrogate_bounds; lia).
        rewrite parseStringBody_plain by (surrogate_bounds; lia).
        rewrite IH by lia. reflexivity.
      + rewrite <- app_assoc, parseStringBody_unicodeEscape, IHs;
          [reflexivity|surrogate_bounds; lia]. }
  destruct (isTrailingSurrogate c) eqn:Etrail.
  { rewrite <- app_assoc, parseStringBody_unicodeEscape, IHs;
      [reflexivity|surrogate_bounds; lia]. }
  cbn [app]. rewrite parseStringBody_plain by (surrogate_bounds; lia).
  by rewrite IHs.
Qed.

Lemma scanDigits_uint_chars (u : Decimal.uint) (d : N) (rest : JsString) :
  isDigit d = false ->
  scanDigits (uint_chars u ++ d :: rest) = (u, d :: rest).
Proof.
  intros Hd. induction u; cbn [uint_chars app scanDigits];
    [by rewrite Hd|..]; rewrite IHu; reflexivity.
Qed.

Lemma validIntPart_to_uint (p : positive) : validIntPart (Pos.to_uint p) = true.
Proof.
  pose proof (DecimalPos.Unsigned.to_uint_nonnil p) as Hnil.
  pose proof (DecimalPos.Unsigned.to_uint_nonzero p) as Hzero.
  pose proof (DecimalPos.Unsigned.to_of (Pos.to_uint p)) as Hnorm.
  rewrite DecimalPos.Unsigned.of_to in Hnorm. cbn [N.to_uint] in Hnorm.
  destruct (Pos.to_uint p) as [|u| | | | | | | | |]; try reflexivity; [congruence|].
  destruct u; try reflexivity;
    exfalso; rewrite unorm_D0 in Hnorm;
    match type of Hnorm with
    | Decimal.D0 ?v = _ =>
      pose proof (nb_digits_unorm v ltac:(discriminate)) as Hlen;
      rewrite <- Hnorm in Hlen; cbn in Hlen; lia
    end.
Qed.

Lemma endsElement_not_digit (d : N) : endsElement d -> isDigit d = false.
Proof. by intros [-> | ->]. Qed.

(** A safe integer is read back as written. *)
Lemma parseNumber_numberToString (z : Z) (d : N) (rest : JsString) :
  isSafeInteger z = true -> endsElement d ->
  parseNumber (numberToString z ++ d :: rest) = Some (JNum z, d :: rest).
Proof.
  intros Hsafe Hd.
  pose proof (endsElement_not_digit d Hd) as Hnd.
  assert (Hfrac : scanFraction (d :: rest) = Some (Decimal.Nil, d :: rest))
    by (destruct Hd as [-> | ->]; reflexivity).
  assert (Hexp : scanExponent (d :: rest) = Some (None, d :: rest))
    by (destruct Hd as [-> | ->]; reflexivity).
  assert (Hdigits : forall (negative : bool) (u : Decimal.uint) (s : JsString),
             validIntPart u = true ->
             isSafeInteger (Z.of_int (if negative then Decimal.Neg u else Decimal.Pos u))
             = true ->
             negative && (Z.of_int (if negative then Decimal.Neg u else Decimal.Pos u) =? 0)
             = false ->
             parseDigits negative s (uint_chars u ++ d :: rest)
             = Some (JNum (Z.of_int (if negative then Decimal.Neg u else Decimal.Pos u)),
                     d :: rest)).
  { intros negative u s Hvalid Hs Hz. unfold parseDigits.
    rewrite scanDigits_uint_chars by exact Hnd.
    rewrite Hvalid, Hfrac, Hexp. cbv zeta. rewrite Hs, Hz. reflexivity. }
  unfold numberToString. destruct z as [|p|p]; cbn [Z.to_int].
  - unfold parseNumber. cbn [uint_chars app N.eqb Pos.eqb].
    exact (Hdigits false (Decimal.D0 Decimal.Nil) _ eq_refl eq_refl eq_refl).
  - pose proof (DecimalZ.of_to (Z.pos p)) as Hback. cbn [Z.to_int] in Hback.
    assert (Hsign : exists c tl, uint_chars (Pos.to_uint p) = c :: tl /\ (c =? 45)%N = false).
    { pose proof (DecimalPos.Unsigned.to_uint_nonnil p) as Hnil.
      destruct (Pos.to_uint p); [congruence|..]; eexists _, _; split; reflexivity. }
    destruct Hsign as (c & tl & Echars & Ec).
    unfold parseNumber. rewrite Echars. cbn [app]. rewrite Ec.
    change (c :: tl ++ d :: rest) with ((c :: tl) ++ d :: rest). rewrite <- Echars.
    rewrite (Hdigits false) by (rewrite ?Hback; auto using validIntPart_to_uint).
    by rewrite Hback.
  - pose proof (DecimalZ.of_to (Z.neg p)) as Hback. cbn [Z.to_int] in Hback.
    unfold parseNumber. cbn [app N.eqb Pos.eqb].
    rewrite (Hdigits true) by (rewrite ?Hback; auto using validIntPart_to_uint).
    by rewrite Hback.
Qed.

Lemma numberToString_head (z : Z) :
  exists c tl, numberToString z = c :: tl /\ (c = 45%N \/ isDigit c = true).
Proof.
  unfold numberToString. destruct z as [|p|p]; cbn [Z.to_int].
  - eexists _, _. split; [reflexivity|by right].
  - pose proof (DecimalPos.Unsigned.to_uint_nonnil p) as Hnil.
    destruct (Pos.to_uint p); [congruence|..];
      eexists _, _; (split; [reflexivity|by right]).
  - eexists _, _. split; [reflexivity|by left].
Qed.

(** A field is read back as written, undefined as null. *)
Lemma parseValue_field (fuel : nat) (v : JsValue) (d : N) (rest : JsString) :
  isField v -> endsElement d ->
  parseValue (S fuel) (fieldText v ++ d :: rest) = Some (readBack v, d :: rest).
Proof.
  intros Hv Hd. destruct v as [| |b|z|l|s|items|members]; try contradiction.
  - reflexivity.
  - reflexivity.
  - cbn in Hv. unfold fieldText. cbn [serializeJSONProperty readBack].
    destruct (numberToString_head z) as (c & tl & Ez & Hc).
    pose proof (parseNumber_numberToString z d rest Hv Hd) as Hnum.
    rewrite Ez in *. cbn [app parseValue].
    assert (Hne : forall k, isDigit k = false -> k <> 45%N -> (c =? k)%N = false).
    { intros k Hk Hk'. apply N.eqb_neq. intros ->. destruct Hc; congruence. }
    rewrite !Hne by (reflexivity || discriminate). exact Hnum.
  - unfold fieldText. cbn [serializeJSONProperty readBack]. unfold quoteJSONString.
    cbn [app parseValue N.eqb Pos.eqb]. rewrite <- app_assoc. cbn [app].
    by rewrite parseStringBody_quoteBody.
Qed.

Lemma fieldText_head (v : JsValue) :
  isField v ->
  exists c tl, fieldText v = c :: tl /\ isJSONWhiteSpace c = false /\ (c =? 93)%N = false.
Proof.
  intros Hv. destruct v as [| |b|z|l|s|items|members]; try contradiction.
  - eexists _, _. repeat split.
  - eexists _, _. repeat split.
  - unfold fieldText. cbn [serializeJSONProperty].
    destruct (numberToString_head z) as (c & tl & -> & Hc).
    exists c, tl. split; [reflexivity|].
    destruct Hc as [-> | Hc]; [by split|].
    unfold isDigit in Hc. apply andb_prop in Hc as [H1 H2].
    apply N.leb_le in H1, H2. unfold isJSONWhiteSpace.
    split; [|apply N.eqb_neq; lia].
    repeat (apply orb_false_intro); apply N.eqb_neq; lia.
  - eexists _, _. repeat split.
Qed.

Lemma parseElements_S (fuel : nat) (s : JsString) :
  parseElements (S fuel) s
  = match parseValue fuel s with
    | None => None
    | Some (v, rest) =>
      match skipWhiteSpace rest with
      | d :: r1 =>
        if (d =? 93)%N then Some ([v], r1)
        else if (d =? 44)%N then
          match parseElements fuel (skipWhiteSpace r1) with
          | Some (vs, rest') => Some (v :: vs, rest')
          | None => None
          end
        else None
      | [] => None
      end
    end.
Proof. reflexivity. Qed.

(** The elements of an array of fields are read back as written. *)
Lemma parseElements_fields (items : list JsValue) (fuel : nat) (rest : JsString) :
  items <> [] -> Forall isField items -> (length items < fuel)%nat ->
  parseElements fuel (joinComma (map fieldText items) ++ 93%N :: rest)
  = Some (map readBack items, rest).
Proof.
  intros Hne Hall. revert fuel. induction Hall as [|v items Hv Hall IH]; [done|].
  intros fuel Hfuel. destruct fuel as [|fuel]; [cbn in Hfuel; lia|].
  cbn [length] in Hfuel. destruct fuel as [|fuel]; [lia|].
  rewrite parseElements_S. cbn [map joinComma].
  destruct items as [|v' items].
  - cbn [map concat]. rewrite app_nil_r.
    rewrite parseValue_field by (auto; by right). reflexivity.
  - cbn [map concat]. rewrite <- !app_assoc. cbn [app].
    rewrite parseValue_field by (auto; by left).
    cbn [skipWhiteSpace isJSONWhiteSpace N.eqb Pos.eqb orb].
    specialize (IH ltac:(discriminate) (S fuel) ltac:(cbn [length] in *; lia)).
    cbn [map joinComma] in IH. rewrite <- app_assoc in IH.
    assert (Hhead : isField v') by (by inversion Hall).
    destruct (fieldText_head v' Hhead) as (c & tl & Ec & Hws & _).
    rewrite Ec in *. cbn [app skipWhiteSpace]. rewrite Hws.
    cbn [app] in IH. rewrite IH. reflexivity.
Qed.

(** A non-empty array of fields is read back as written, every undefined
    field as null. *)
Lemma JSON_parse_stringify_fields (items : list JsValue) :
  items <> [] -> Forall isField items ->
  exists line,
    JSON_stringify (JArr items) = Some line
    /\ line = 91%N :: joinComma (map fieldText items) ++ [93%N]
    /\ JSON_parse line = inr (JArr (map readBack items)).
Proof.
  intros Hne Hall. exists (91%N :: joinComma (map fieldText items) ++ [93%N]).
  split; [reflexivity|]. split; [reflexivity|].
  unfold JSON_parse. cbn [skipWhiteSpace].
  change (isJSONWhiteSpace 91) with false. cbn [parseValue N.eqb Pos.eqb].
  destruct items as [|v items]; [done|].
  assert (Hv : isField v) by (by inversion Hall).
  destruct (fieldText_head v Hv) as (c & tl & Ec & Hws & Hclose).
  pose proof (parseElements_fields (v :: items)
                (length (91%N :: joinComma (map fieldText (v :: items)) ++ [93%N])) []
                Hne Hall) as Hparse.
  cbn [map joinComma] in *. rewrite Ec in *. cbn [app skipWhiteSpace] in *.
  rewrite Hws, Hclose. rewrite Hparse; [reflexivity|].
  cbn [length]. rewrite length_app, length_app. cbn [length].
  clear. induction items as [|x items IH]; cbn [map concat length]; [lia|].
  rewrite length_app. cbn [length]. lia.
Qed.

(** *** No line end inside a line *)

Lemma printable_unicodeEscape (c : N) : printable (unicodeEscape c).
Proof.
  assert (Hhex : forall n, (32 <= hexDigit n)%N).
  { intros n. unfold hexDigit. destruct (n <? 10)%N; lia. }
  unfold unicodeEscape. repeat constructor; try apply Hhex; lia.
Qed.

Lemma printable_quoteBody (s : JsString) : printable (quoteBody s).
Proof.
  remember (length s) as n eqn:Hn.
  assert (Hle : (length s <= n)%nat) by lia. clear Hn.
  revert s Hle. induction n as [|n IH]; intros [|c s] Hle;
    try (cbn in Hle; lia); try constructor.
  cbn [length] in Hle.
  assert (IHs : printable (quoteBody s)) by (apply IH; lia).
  assert (Hesc : forall k rest, printable rest -> printable (unicodeEscape k ++ rest)).
  { intros k rest Hrest. apply Forall_app. split; [apply printable_unicodeEscape|exact Hrest]. }
  assert (Hpair : forall a b rest, printable rest -> printable ([a; b] ++ rest) \/ (a < 32 \/ b < 32)%N).
  { intros a b rest Hrest. destruct (N.ltb_spec a 32); [right; lia|].
    destruct (N.ltb_spec b 32); [right; lia|]. left. by repeat constructor. }
  cbn [quoteBody].
  destruct (c =? 8)%N; [destruct (Hpair 92%N 98%N _ IHs) as [?|?]; [assumption|lia]|].
  destruct (c =? 9)%N; [destruct (Hpair 92%N 116%N _ IHs) as [?|?]; [assumption|lia]|].
  destruct (c =? 10)%N; [destruct (Hpair 92%N 110%N _ IHs) as [?|?]; [assumption|lia]|].
  destruct (c =? 12)%N; [destruct (Hpair 92%N 102%N _ IHs) as [?|?]; [assumption|lia]|].
  destruct (c =? 13)%N; [destruct (Hpair 92%N 114%N _ IHs) as [?|?]; [assumption|lia]|].
  destruct (c =? 34)%N; [destruct (Hpair 92%N 34%N _ IHs) as [?|?]; [assumption|lia]|].
  destruct (c =? 92)%N; [destruct (Hpair 92%N 92%N _ IHs) as [?|?]; [assumption|lia]|].
  destruct (c <? 32)%N eqn:E32; [by apply Hesc|].
  destruct (isLeadingSurrogate c) eqn:Elead.
  { destruct s as [|d s']; [apply printable_unicodeEscape|].
    destruct (isTrailingSurrogate d) eqn:Etrail; [|by apply Hesc].
    cbn [length] in Hle. surrogate_bounds.
    constructor; [lia|]. constructor; [lia|]. apply IH. lia. }
  destruct (isTrailingSurrogate c); [by apply Hesc|].
  surrogate_bounds. by constructor.
Qed.

Lemma printable_numberToString (z : Z) : printable (numberToString z).
Proof.
  assert (Hu : forall u, printable (uint_chars u)).
  { induction u; cbn [uint_chars]; constructor; (lia || assumption). }
  unfold numberToString. destruct (Z.to_int z); [apply Hu|].
  constructor; [lia|apply Hu].
Qed.

Lemma printable_fieldText (v : JsValue) : isField v -> printable (fieldText v).
Proof.
  destruct v as [| |b|z|l|s|items|members]; try contradiction; intros _.
  - change (fieldText JUndefined) with [110; 117; 108; 108]%N.
    unfold printable. repeat (apply Forall_cons_2; [lia|]). apply Forall_nil_2.
  - change (fieldText JNull) with [110; 117; 108; 108]%N.
    unfold printable. repeat (apply Forall_cons_2; [lia|]). apply Forall_nil_2.
  - apply printable_numberToString.
  - unfold fieldText, printable. cbn [serializeJSONProperty]. unfold quoteJSONString.
    constructor; [lia|]. apply Forall_app. split; [apply printable_quoteBody|].
    apply Forall_cons_2; [lia|apply Forall_nil_2].
Qed.

Lemma printable_joinComma (parts : list JsString) :
  Forall printable parts -> printable (joinComma parts).
Proof.
  intros Hparts. destruct Hparts as [|p ps Hp Hps]; [constructor|].
  unfold printable. cbn [joinComma]. apply Forall_app. split; [exact Hp|].
  induction Hps as [|q qs Hq Hqs IH]; cbn [map concat]; [constructor|].
  constructor; [lia|]. apply Forall_app. by split.
Qed.

(** readline gives back a printable line that was written with its line
    feed. *)
Lemma splitLines_line (current line : JsString) (rest : list N) :
  printable line ->
  splitLines current (line ++ 10%N :: rest)
  = (rev current ++ line) :: splitLines [] rest.
Proof.
  intros Hline. revert current.
  induction Hline as [|c line Hc Hline IH]; intros current.
  - cbn. by rewrite app_nil_r.
  - cbn [app splitLines].
    rewrite (proj2 (N.eqb_neq c 10)) by lia.
    rewrite (proj2 (N.eqb_neq c 13)) by lia.
    rewrite IH. cbn [rev]. by rewrite <- app_assoc.
Qed.

Lemma readLines_recordFile (lines : list JsString) :
  Forall printable lines -> readLines (recordFile lines) = lines.
Proof.
  unfold readLines, recordFile.
  induction 1 as [|line lines Hline Hlines IH]; [reflexivity|].
  cbn [map concat]. rewrite <- app_assoc. cbn [app].
  rewrite splitLines_line by exact Hline. cbn [rev app]. by rewrite IH.
Qed.

Lemma chartRecord_line (record : JsValue) :
  isChartRecord record ->
  exists line,
    JSON_stringify record = Some line /\ printable line
    /\ JSON_parse line = inr record.
Proof.
  intros (year & week & p & a & t & -> & Hyear & Hweek & Hp).
  assert (Hp' : isField p /\ readBack p = p) by (by destruct p).
  destruct Hp' as [Hfield Hback].
  assert (Hall : Forall isField [JNum year; JNum week; p; JStr a; JStr t])
    by (repeat constructor; assumption).
  assert (Hne : [JNum year; JNum week; p; JStr a; JStr t] <> []) by discriminate.
  destruct (JSON_parse_stringify_fields _ Hne Hall)
    as (line & Hline & Eline & Hparse).
  exists line. split; [exact Hline|]. split.
  - rewrite Eline. unfold printable. apply Forall_cons_2; [lia|].
    apply Forall_app. split; [|apply Forall_cons_2; [lia|apply Forall_nil_2]].
    apply printable_joinComma.
    clear -Hall. induction Hall; cbn [map]; constructor;
      [by apply printable_fieldText|assumption].
  - rewrite Hparse. cbn [map readBack]. by rewrite Hback.
Qed.

(** C7.  Records of chart entries - arrays
    [[weekYear, weekNumber, position, artist, title]] of two integers, a
    position that is an integer or a text, and two texts - survive the record
    file: each has a JSON line; the file made of these lines, each followed
    by a line feed, is split by readline into the same lines; and parsing
    the lines gives back the records, identical and in order. *)
Theorem record_file_round_trip (records : list JsValue) :
  Forall isChartRecord records ->
  exists lines,
    Forall2 (fun record line => JSON_stringify record = Some line) records lines
    /\ readLines (recordFile lines) = lines
    /\ map JSON_parse lines = map inr records.
Proof.
  intros Hrecords.
  assert (Hlines : exists lines,
             Forall2 (fun record line => JSON_stringify record = Some line) records lines
             /\ Forall printable lines
             /\ map JSON_parse lines = map inr records).
  { induction Hrecords as [|record records Hrecord _ IH].
    - exists []. repeat split; constructor.
    - destruct IH as (lines & Hser & Hprint & Hparse).
      destruct (chartRecord_line record Hrecord) as (line & Hline & Hp & Hback).
      exists (line :: lines). repeat split.
      + by constructor.
      + by constructor.
      + cbn [map]. by rewrite Hback, Hparse. }
  destruct Hlines as (lines & Hser & Hprint & Hparse).
  exists lines. repeat split; try assumption.
  by apply readLines_recordFile.
Qed.

Lemma record_file_round_trip_witness :
  exists lines,
    Forall2 (fun record line => JSON_stringify record = Some line)
      [JArr [JNum 1984; JNum 7; JNum 87; JStr (lit "Some Artist");
             JStr (lit "Remember The Nights")]] lines
    /\ readLines (recordFile lines) = lines
    /\ map JSON_parse lines
       = map inr [JArr [JNum 1984; JNum 7; JNum 87; JStr (lit "Some Artist");
                        JStr (lit "Remember The Nights")]].
Proof.
  apply (record_file_round_trip
           [JArr [JNum 1984; JNum 7; JNum 87; JStr (lit "Some Artist");
                  JStr (lit "Remember The Nights")]]).
  constructor; [|constructor].
  exists 1984, 7, (JNum 87), (lit "Some Artist"), (lit "Remember The Nights").
  repeat split.
Defined.

(** ** The loader *)

Section Loading.

Variable env : Environment.
(** The values a line is inserted with, and a loop body that inserts them. *)
Variable valuesOf : JsString -> Exn + JsValue.
Variable body : JsString -> M unit.
Hypothesis body_inserts : forall line w,
  body line w = match valuesOf line with
                | inl e => (w, inl e)
                | inr values => Pg.query_INSERT (accepts env) values w
                end.

Lemma stageLines_rows (committed staged : list SqlRow) (lines : list JsString)
  (rows : list SqlRow) :
  stageLines env valuesOf committed staged lines = inr rows ->
  exists added,
    rows = staged ++ added
    /\ Forall2 (fun line row => rowOf valuesOf line = inr row) lines added.
Proof.
  revert staged. induction lines as [|line lines IH]; intros staged Hstage.
  - cbn in Hstage. injection Hstage as <-. exists []. split; [by rewrite app_nil_r|constructor].
  - cbn [stageLines] in Hstage.
    destruct (rowOf valuesOf line) as [e|row] eqn:Erow; [discriminate|].
    destruct (accepts env committed staged row); [|discriminate].
    destruct (IH _ Hstage) as (added & -> & Hadded).
    exists (row :: added). split; [by rewrite <- app_assoc|by constructor].
Qed.

(** The loop stops in the world at hand: name it and check what it kept. *)
Ltac stopped_here :=
  eexists; split; [|split; [|reflexivity]]; reflexivity.

(** The loop of [store] inside an open transaction: it stages the rows of
    the lines, or stops at the first error; the committed rows and the files
    stay as they are. *)
Lemma forEach_lines_stage (lines : list JsString) (w : World) (staged : list SqlRow) :
  session (database w) = Active staged ->
  exists w',
    files w' = files w
    /\ committed (database w') = committed (database w)
    /\ match stageLines env valuesOf (committed (database w)) staged lines with
       | inr rows =>
         forEach lines body w = (w', inr tt) /\ session (database w') = Active rows
       | inl e => forEach lines body w = (w', inl e)
       end.
Proof.
  revert w staged. induction lines as [|line lines IH]; intros w staged Hsession.
  - exists w. cbn. auto.
  - cbn [forEach stageLines]. unfold bind, rowOf. rewrite body_inserts.
    destruct (valuesOf line) as [e|values]; [exists w; auto|].
    unfold Pg.query_INSERT, bind, emit. cbn [database files pending trace].
    rewrite Hsession.
    destruct (Pg.bindParameters values) as [e|row]; [stopped_here|].
    destruct (accepts env (committed (database w)) staged row); [|stopped_here].
    unfold Pg.setDatabase. cbn [database files pending trace].
    edestruct (IH (mkWorld (files w) (pending w)
                     (mkDatabase (committed (database w)) (Active (staged ++ [row])))
                     (trace w ++ [Query Pg.INSERT (Some values)])) (staged ++ [row]))
      as (w' & Hfiles & Hcommitted & Hrest); [reflexivity|].
    exists w'. cbn [database files pending committed] in *. auto.
Qed.

(** The transaction of [store], from [new PgClient()] on. *)
Lemma transaction_allOrNothing (jsonlFileName : string) (info : string)
  (text : list N) (w : World) :
  files w !! jsonlFileName = Some text ->
  allOrNothing env valuesOf text w
    ((Pg.newClient ;;;
      Pg.query_BEGIN ;;;
      console_info info ;;;
      tryCatch
        (let* text := readFile jsonlFileName in
         forEach (readLines text) body ;;;
         Pg.query_COMMIT (commits env))
        (fun err => Pg.query_ROLLBACK ;;; throw err)) w).
Proof.
  intros Hfile.
  unfold Pg.newClient, Pg.query_BEGIN, console_info, tryCatch, readFile, bind, emit,
    Pg.setDatabase.
  cbn [database files pending trace session committed]. rewrite Hfile.
  set (w1 := mkWorld _ _ _ _).
  destruct (forEach_lines_stage (readLines text) w1 [] eq_refl)
    as (w2 & Hfiles & Hcommitted & Hloop).
  subst w1. cbn [database files pending committed] in *.
  unfold allOrNothing, loadOutcome.
  destruct (stageLines env valuesOf (committed (database w)) [] (readLines text))
    as [e|rows] eqn:Estage.
  - rewrite Hloop. unfold Pg.query_ROLLBACK, throw, bind, emit, Pg.setDatabase.
    cbn [fst snd database files pending trace session committed].
    repeat split; try assumption. right. exists e. rewrite Hcommitted. auto.
  - destruct Hloop as [-> Hsession].
    unfold Pg.query_COMMIT, bind, emit, Pg.setDatabase.
    cbn [database files pending trace]. rewrite Hsession, Hcommitted.
    destruct (commits env (committed (database w)) rows) eqn:Ecommit.
    + cbn [fst snd database files pending trace session committed].
      repeat split; try assumption. left. split; [reflexivity|].
      destruct (stageLines_rows _ _ _ _ Estage) as (added & -> & Hadded).
      exists added. auto.
    + unfold Pg.query_ROLLBACK, throw, bind, emit, Pg.setDatabase.
      cbn [fst snd database files pending trace session committed].
      repeat split; try assumption. right. eexists. auto.
Qed.

End Loading.

Lemma YearRange_storeLine_inserts (env : Environment) (line : JsString) (w : World) :
  YearRange.storeLine env line w
  = match YearRange_valuesOf line with
    | inl e => (w, inl e)
    | inr values => Pg.query_INSERT (accepts env) values w
    end.
Proof.
  unfold YearRange.storeLine, YearRange_valuesOf, bind, liftEither.
  destruct (JSON_parse line) as [e|values]; [reflexivity|].
  by destruct (YearRange.correct values).
Qed.

Lemma SingleYear_storeLine_inserts (env : Environment) (line : JsString) (w : World) :
  SingleYear.storeLine env line w
  = match JSON_parse line with
    | inl e => (w, inl e)
    | inr values => Pg.query_INSERT (accepts env) values w
    end.
Proof.
  unfold SingleYear.storeLine, bind, liftEither.
  by destruct (JSON_parse line).
Qed.

Lemma existsSync_present (fileName : string) (w : World) (text : list N) :
  files w !! fileName = Some text -> existsSync fileName w = (w, inr true).
Proof.
  intros Hfile. unfold existsSync. by rewrite Hfile, bool_decide_eq_true_2.
Qed.

Lemma YearRange_store_atomic
  (env : Environment) (jsonlFileName : string) (w : World) (text : list N) :
  files w !! jsonlFileName = Some text ->
  allOrNothing env YearRange_valuesOf text w (YearRange.store env jsonlFileName w).
Proof.
  intros Hfile. unfold YearRange.store. unfold bind at 1.
  rewrite (existsSync_present _ _ _ Hfile). cbn [negb].
  apply transaction_allOrNothing; [apply YearRange_storeLine_inserts|exact Hfile].
Qed.

Lemma SingleYear_store_atomic
  (env : Environment) (jsonlFileName : string) (w : World) (text : list N) :
  files w !! jsonlFileName = Some text ->
  allOrNothing env JSON_parse text w (SingleYear.store env jsonlFileName w).
Proof.
  intros Hfile. unfold SingleYear.store. unfold bind at 1.
  rewrite (existsSync_present _ _ _ Hfile). cbn [negb].
  apply transaction_allOrNothing; [apply SingleYear_storeLine_inserts|exact Hfile].
Qed.

(** C2.  [store] on a record file that exists, in both versions: either it
    returns and the database holds, behind the rows it had, one row for every
    line of the file, in order; or a line cannot be parsed or inserted (or
    the commit is refused), and then the call throws that first error after
    the rollback and the database holds exactly the rows it had, none of the
    file.  No transaction stays open, so nothing is committed in part. *)
Theorem store_all_or_nothing
  (env : Environment) (jsonlFileName : string) (w : World) (text : list N) :
  files w !! jsonlFileName = Some text ->
  allOrNothing env YearRange_valuesOf text w (YearRange.store env jsonlFileName w)
  /\ allOrNothing env JSON_parse text w (SingleYear.store env jsonlFileName w).
Proof.
  intros Hfile. split.
  - destruct (YearRange_store_atomic env jsonlFileName w text Hfile)
      as (Hfiles & Hsession & Houtcome).
    repeat split; assumption.
  - destruct (SingleYear_store_atomic env jsonlFileName w text Hfile)
      as (Hfiles & Hsession & Houtcome).
    repeat split; assumption.
Qed.

Lemma store_all_or_nothing_witness :
  allOrNothing (sampleEnv []) YearRange_valuesOf (literalLine ++ [10%N])
    worldWithLiteralLine
    (YearRange.store (sampleEnv []) "jsonl/1984.jsonl" worldWithLiteralLine)
  /\ allOrNothing (sampleEnv []) JSON_parse (literalLine ++ [10%N])
       worldWithLiteralLine
       (SingleYear.store (sampleEnv []) "jsonl/1984.jsonl" worldWithLiteralLine).
Proof.
  apply (store_all_or_nothing (sampleEnv []) "jsonl/1984.jsonl"
           worldWithLiteralLine (literalLine ++ [10%N])).
  reflexivity.
Defined.

Lemma correct_guarded (values : JsValue) :
  js_get values 0 = inr (JNum 1984) ->
  js_get values 1 = inr (JNum 7) ->
  js_get values 4 = inr (JStr (lit "Remember The Nights")) ->
  YearRange.correct values = js_set values 2 (JStr (lit "87")).
Proof.
  intros H0 H1 H4. unfold YearRange.correct. rewrite H0, H1, H4. reflexivity.
Qed.

(** The row of a line whose record has year 1984, week 7 and the title
    Remember The Nights carries the position 87. *)
Lemma corrected_row (line : JsString) (values : JsValue) (row : SqlRow) :
  JSON_parse line = inr values ->
  js_get values 0 = inr (JNum 1984) ->
  js_get values 1 = inr (JNum 7) ->
  js_get values 4 = inr (JStr (lit "Remember The Nights")) ->
  rowOf YearRange_valuesOf line = inr row ->
  row !! 2%nat = Some (Some (numberToString 87)).
Proof.
  intros Hparse H0 H1 H4. unfold rowOf, YearRange_valuesOf.
  rewrite Hparse, (correct_guarded _ H0 H1 H4).
  destruct values as [| |b|z|l|s|items|members]; try discriminate.
  - cbn in H0. destruct (s !! 0%nat); discriminate.
  - cbn [js_get] in H4.
    assert (Hlen : (4 < length items)%nat).
    { destruct (items !! 4%nat) eqn:E; [|discriminate].
      eapply lookup_lt_Some; eassumption. }
    cbn [js_set]. rewrite bool_decide_eq_true_2 by lia.
    cbn [Pg.bindParameters]. rewrite length_insert.
    destruct (bool_decide (length items = 5%nat)); [|discriminate].
    intros [= <-]. rewrite lookup_map, list_lookup_insert_eq by lia.
    reflexivity.
Qed.

(** C3.  In the year-range version, whenever [store] returns, the rows it
    added stand for the lines of the file, and the row of every line whose
    record has year 1984, week 7 and title Remember The Nights has the
    position 87, whatever position the line gives.  In particular the line
    [[1984, 7, "99", "Some Artist", "Remember The Nights"]] is stored as the
    row 1984, 7, 87, Some Artist, Remember The Nights.  The single-year
    version stores every record as the line gives it. *)
Theorem correction_stores_position_87 :
  (forall (env : Environment) (jsonlFileName : string) (w : World) (text : list N),
      files w !! jsonlFileName = Some text ->
      snd (YearRange.store env jsonlFileName w) = inr tt ->
      exists rows,
        committed (database (fst (YearRange.store env jsonlFileName w)))
        = committed (database w) ++ rows
        /\ Forall2
             (fun line row =>
                forall values,
                  JSON_parse line = inr values ->
                  js_get values 0 = inr (JNum 1984) ->
                  js_get values 1 = inr (JNum 7) ->
                  js_get values 4 = inr (JStr (lit "Remember The Nights")) ->
                  row !! 2%nat = Some (Some (numberToString 87)))
             (readLines text) rows)
  /\ (JSON_parse literalLine
      = inr (JArr [JNum 1984; JNum 7; JStr (lit "99"); JStr (lit "Some Artist");
                   JStr (lit "Remember The Nights")])
      /\ snd (YearRange.store (sampleEnv []) "jsonl/1984.jsonl" worldWithLiteralLine)
         = inr tt
      /\ committed (database
           (fst (YearRange.store (sampleEnv []) "jsonl/1984.jsonl" worldWithLiteralLine)))
         = [[Some (lit "1984"); Some (lit "7"); Some (lit "87");
             Some (lit "Some Artist"); Some (lit "Remember The Nights")]])
  /\ (forall (env : Environment) (jsonlFileName : string) (w : World) (text : list N),
        files w !! jsonlFileName = Some text ->
        snd (SingleYear.store env jsonlFileName w) = inr tt ->
        exists rows,
          committed (database (fst (SingleYear.store env jsonlFileName w)))
          = committed (database w) ++ rows
          /\ Forall2
               (fun line row =>
                  forall items,
                    JSON_parse line = inr (JArr items) ->
                    row = map Pg.prepareValue items)
               (readLines text) rows).
Proof.
  split; [|split; [repeat split; vm_compute; reflexivity|]].
  - intros env jsonlFileName w text Hfile Hreturns.
    destruct (YearRange_store_atomic env jsonlFileName w text Hfile)
      as (_ & _ & [(_ & rows & Hrows & Hcommitted) | (e & He & _)]).
    + exists rows. split; [exact Hcommitted|].
      eapply Forall2_impl; [exact Hrows|].
      intros line row Hrow values Hparse H0 H1 H4.
      eapply corrected_row; eassumption.
    + rewrite Hreturns in He. discriminate.
  - intros env jsonlFileName w text Hfile Hreturns.
    destruct (SingleYear_store_atomic env jsonlFileName w text Hfile)
      as (_ & _ & [(_ & rows & Hrows & Hcommitted) | (e & He & _)]).
    + exists rows. split; [exact Hcommitted|].
      eapply Forall2_impl; [exact Hrows|].
      intros line row Hrow items Hparse. unfold rowOf in Hrow.
      rewrite Hparse in Hrow. cbn [Pg.bindParameters] in Hrow.
      destruct (bool_decide (length items = 5%nat)); [|discriminate].
      by injection Hrow as <-.
    + rewrite Hreturns in He. discriminate.
Qed.

Lemma correction_stores_position_87_witness :
  exists rows,
    committed (database
      (fst (YearRange.store (sampleEnv []) "jsonl/1984.jsonl" worldWithLiteralLine)))
    = committed (database worldWithLiteralLine) ++ rows
    /\ Forall2
         (fun line row =>
            forall values,
              JSON_parse line = inr values ->
              js_get values 0 = inr (JNum 1984) ->
              js_get values 1 = inr (JNum 7) ->
              js_get values 4 = inr (JStr (lit "Remember The Nights")) ->
              row !! 2%nat = Some (Some (numberToString 87)))
         (readLines (literalLine ++ [10%N])) rows.
Proof.
  apply (proj1 correction_stores_position_87 (sampleEnv []) "jsonl/1984.jsonl"
           worldWithLiteralLine (literalLine ++ [10%N])).
  - reflexivity.
  - vm_compute. reflexivity.
Defined.

(** C3, counterexample.  The single-year version has no correction: its
    [store] puts the line [[1984, 7, "99", "Some Artist", "Remember The
    Nights"]] into the database with the position 99 of the file, not 87. *)
Lemma single_year_store_keeps_position_99 :
  snd (SingleYear.store (sampleEnv []) "jsonl/1984.jsonl" worldWithLiteralLine)
  = inr tt
  /\ committed (database
       (fst (SingleYear.store (sampleEnv []) "jsonl/1984.jsonl" worldWithLiteralLine)))
     = [[Some (lit "1984"); Some (lit "7"); Some (lit "99");
         Some (lit "Some Artist"); Some (lit "Remember The Nights")]]
  /\ Some (lit "99") <> Some (numberToString 87).
Proof.
  split; [vm_compute; reflexivity|]. split; [vm_compute; reflexivity|].
  vm_compute. discriminate.
Qed.

(** ** The orchestrator *)

Lemma quietStep_refl (w : World) : quietStep w w.
Proof. split; [reflexivity|]. exists []. split; [by rewrite app_nil_r|constructor]. Qed.

Lemma quietStep_trans (w1 w2 w3 : World) :
  quietStep w1 w2 -> quietStep w2 w3 -> quietStep w1 w3.
Proof.
  intros (Hf1 & ev1 & Ht1 & Hq1) (Hf2 & ev2 & Ht2 & Hq2).
  split; [congruence|]. exists (ev1 ++ ev2). split.
  - by rewrite Ht2, Ht1, app_assoc.
  - by apply Forall_app.
Qed.

Lemma quiet_ret {A} (a : A) : quiet (ret a).
Proof. intros w. apply quietStep_refl. Qed.

Lemma quiet_throw {A} (e : Exn) : quiet (@throw A e).
Proof. intros w. apply quietStep_refl. Qed.

Lemma quiet_liftEither {A} (r : Exn + A) : quiet (liftEither r).
Proof. intros w. apply quietStep_refl. Qed.

Lemma quiet_bind {A B} (c : M A) (k : A -> M B) :
  quiet c -> (forall a, quiet (k a)) -> quiet (bind c k).
Proof.
  intros Hc Hk w. unfold bind. specialize (Hc w).
  destruct (c w) as [w' [e|a]]; [exact Hc|].
  eapply quietStep_trans; [exact Hc|apply Hk].
Qed.

Lemma quiet_tryCatch {A} (c : M A) (handler : Exn -> M A) :
  quiet c -> (forall e, quiet (handler e)) -> quiet (tryCatch c handler).
Proof.
  intros Hc Hh w. unfold tryCatch. specialize (Hc w).
  destruct (c w) as [w' [e|a]]; [|exact Hc].
  eapply quietStep_trans; [exact Hc|apply Hh].
Qed.

Lemma quiet_emit (e : Event) : isIngestEvent e = false -> quiet (emit e).
Proof.
  intros He w. split; [reflexivity|]. exists [e]. split; [reflexivity|by constructor].
Qed.

Lemma quiet_forEach {A} (items : list A) (body : A -> M unit) :
  (forall x, quiet (body x)) -> quiet (forEach items body).
Proof.
  intros Hbody. induction items as [|x items IH]; cbn [forEach].
  - apply quiet_ret.
  - apply quiet_bind; [apply Hbody|intros _; exact IH].
Qed.

Lemma quiet_existsSync (fileName : string) : quiet (existsSync fileName).
Proof. intros w. apply quietStep_refl. Qed.

Lemma quiet_readFile (fileName : string) : quiet (readFile fileName).
Proof. intros w. unfold readFile. destruct (files w !! fileName); apply quietStep_refl. Qed.

(** A change of the database alone is a quiet step. *)
Lemma quietStep_database (w : World) (d : Database) :
  quietStep w (mkWorld (files w) (pending w) d (trace w)).
Proof. split; [reflexivity|]. exists []. split; [by rewrite app_nil_r|constructor]. Qed.

Lemma quiet_newClient : quiet Pg.newClient.
Proof. intros w. apply quietStep_database. Qed.

Lemma quiet_query_BEGIN : quiet Pg.query_BEGIN.
Proof.
  apply quiet_bind; [by apply quiet_emit|]. intros _ w.
  cbv beta zeta. unfold Pg.setDatabase.
  destruct (session (database w)); cbn [fst];
    first [apply quietStep_refl | apply quietStep_database].
Qed.

Lemma quiet_query_INSERT (accepts : list SqlRow -> list SqlRow -> SqlRow -> bool)
  (values : JsValue) : quiet (Pg.query_INSERT accepts values).
Proof.
  apply quiet_bind; [by apply quiet_emit|]. intros _ w.
  cbv beta zeta. unfold Pg.setDatabase.
  destruct (session (database w)); destruct (Pg.bindParameters values);
    try destruct (accepts _ _ _); cbn [fst];
    first [apply quietStep_refl | apply quietStep_database].
Qed.

Lemma quiet_query_COMMIT (commits : list SqlRow -> list SqlRow -> bool) :
  quiet (Pg.query_COMMIT commits).
Proof.
  apply quiet_bind; [by apply quiet_emit|]. intros _ w.
  cbv beta zeta. unfold Pg.setDatabase.
  destruct (session (database w)); try destruct (commits _ _); cbn [fst];
    first [apply quietStep_refl | apply quietStep_database].
Qed.

Lemma quiet_query_ROLLBACK : quiet Pg.query_ROLLBACK.
Proof.
  apply quiet_bind; [by apply quiet_emit|]. intros _ w. apply quietStep_database.
Qed.

Create HintDb quiet.
#[local] Hint Resolve quiet_ret quiet_throw quiet_liftEither quiet_existsSync
  quiet_readFile quiet_newClient quiet_query_BEGIN quiet_query_INSERT
  quiet_query_COMMIT quiet_query_ROLLBACK : quiet.

Ltac quiet_steps :=
  repeat first
    [ progress auto with quiet
    | apply quiet_bind; [|intros ?]
    | apply quiet_tryCatch; [|intros ?]
    | apply quiet_forEach; intros ?
    | apply quiet_emit; reflexivity
    | match goal with |- quiet (if ?b then _ else _) => destruct b end ].

(** The loader ingests nothing. *)
Lemma quiet_YearRange_store (env : Environment) (jsonlFileName : string) :
  quiet (YearRange.store env jsonlFileName).
Proof.
  unfold YearRange.store, YearRange.storeLine, console_info, console_error.
  quiet_steps.
Qed.

Lemma quiet_SingleYear_store (env : Environment) (jsonlFileName : string) :
  quiet (SingleYear.store env jsonlFileName).
Proof.
  unfold SingleYear.store, SingleYear.storeLine, console_info, console_error.
  quiet_steps.
Qed.

(** With its record file there, a year is only loaded. *)
Lemma yearBody_with_record_file
  (env : Environment) (year : Z) (w : World) (text : list N) :
  files w !! jsonlName year = Some text ->
  YearRange.yearBody env year w
  = match (if year =? 1958 then fromISO_week (zone env) year 31 6
               else fromISO_week (zone env) year 1 6),
          fromISO_week (zone env) (year + 1) 1 6 with
    | Some _, Some _ =>
      (tryCatch (YearRange.store env (jsonlName year)) (fun err => throw err) ;;;
       console_info ("Time elapsed: " +:+ elapsed env year +:+ ".") ;;;
       ret Continue) w
    | _, _ => (console_error "Date parse error!" [JNum year] ;;; ret Return) w
    end.
Proof.
  intros Hfile. unfold YearRange.yearBody. fold (jsonlName year).
  destruct (if year =? 1958 then fromISO_week (zone env) year 31 6
               else fromISO_week (zone env) year 1 6);
    [|reflexivity].
  destruct (fromISO_week (zone env) (year + 1) 1 6); [|reflexivity].
  unfold bind at 1. rewrite (existsSync_present _ _ _ Hfile). reflexivity.
Qed.

Lemma yearBody_quiet (env : Environment) (year : Z) (w : World) (text : list N) :
  files w !! jsonlName year = Some text ->
  quietStep w (fst (YearRange.yearBody env year w)).
Proof.
  intros Hfile. rewrite (yearBody_with_record_file env year w text Hfile).
  clear Hfile. revert w.
  destruct (if year =? 1958 then fromISO_week (zone env) year 31 6
               else fromISO_week (zone env) year 1 6);
    [destruct (fromISO_week (zone env) (year + 1) 1 6)|].
  - change (quiet (tryCatch (YearRange.store env (jsonlName year)) (fun err => throw err) ;;;
                   console_info ("Time elapsed: " +:+ elapsed env year +:+ ".") ;;;
                   ret Continue)).
    pose proof (quiet_YearRange_store env (jsonlName year)).
    unfold console_info. quiet_steps.
  - change (quiet (console_error "Date parse error!" [JNum year] ;;; ret Return)).
    unfold console_error. quiet_steps.
  - change (quiet (console_error "Date parse error!" [JNum year] ;;; ret Return)).
    unfold console_error. quiet_steps.
Qed.

Lemma SingleYear_main_quiet
  (env : Environment) (argv : list string) (year : Z) (w : World) (text : list N) :
  parseInt (lit (nth 2 argv "")) = Some year ->
  files w !! jsonlName year = Some text ->
  quietStep w (fst (SingleYear.main env argv w)).
Proof.
  intros Hyear Hfile. unfold SingleYear.main.
  destruct (length argv <? 3)%nat.
  { clear Hfile. revert w.
    change (quiet (console_error "Missing year!" [] ;;;
                   console_info "Example: node index.js 2020")).
    unfold console_error, console_info. quiet_steps. }
  rewrite Hyear.
  destruct (fromISO_week (zone env) year 1 6); [destruct (fromISO_week (zone env) (year + 1) 1 6)|];
    try (clear Hfile; revert w;
         change (quiet (console_error "Date parse error!" [JNum year]));
         unfold console_error; quiet_steps).
  fold (jsonlName year). unfold bind at 1.
  rewrite (existsSync_present _ _ _ Hfile). cbn [negb].
  clear Hfile. revert w.
  change (quiet (ret tt ;;; SingleYear.store env (jsonlName year))).
  pose proof (quiet_SingleYear_store env (jsonlName year)). quiet_steps.
Qed.

(** C6.  When the record file of a year exists, no ingestion runs for it.
    In the year-range version the body of the loop over the years is then
    the loading alone (or the report of an invalid date): the loop over the
    weeks is not entered, the files stay as they are and what the year adds
    to the trace holds no request and no parsing of a page.  The same holds
    for a run of the single-year version. *)
Theorem existing_record_file_skips_ingestion :
  (forall (env : Environment) (year : Z) (w : World),
      is_Some (files w !! jsonlName year) ->
      YearRange.yearBody env year w
      = match (if year =? 1958 then fromISO_week (zone env) year 31 6
               else fromISO_week (zone env) year 1 6),
              fromISO_week (zone env) (year + 1) 1 6 with
        | Some _, Some _ =>
          (tryCatch (YearRange.store env (jsonlName year)) (fun err => throw err) ;;;
           console_info ("Time elapsed: " +:+ elapsed env year +:+ ".") ;;;
           ret Continue) w
        | _, _ => (console_error "Date parse error!" [JNum year] ;;; ret Return) w
        end
      /\ quietStep w (fst (YearRange.yearBody env year w)))
  /\ (forall (env : Environment) (argv : list string) (year : Z) (w : World),
        parseInt (lit (nth 2 argv "")) = Some year ->
        is_Some (files w !! jsonlName year) ->
        quietStep w (fst (SingleYear.main env argv w))).
Proof.
  split.
  - intros env year w [text Hfile]. split.
    + exact (yearBody_with_record_file env year w text Hfile).
    + exact (yearBody_quiet env year w text Hfile).
  - intros env argv year w Hyear [text Hfile].
    exact (SingleYear_main_quiet env argv year w text Hyear Hfile).
Qed.

Lemma existing_record_file_skips_ingestion_witness :
  quietStep worldWithLiteralLine
    (fst (YearRange.yearBody (sampleEnv []) 1984 worldWithLiteralLine))
  /\ quietStep worldWithLiteralLine
       (fst (SingleYear.main (sampleEnv []) ["node"; "index.js"; "1984"]
               worldWithLiteralLine)).
Proof.
  split.
  - apply (proj1 existing_record_file_skips_ingestion (sampleEnv []) 1984
             worldWithLiteralLine).
    exists (literalLine ++ [10%N]). reflexivity.
  - apply (proj2 existing_record_file_skips_ingestion (sampleEnv [])
             ["node"; "index.js"; "1984"] 1984 worldWithLiteralLine).
    + reflexivity.
    + exists (literalLine ++ [10%N]). reflexivity.
Defined.

(** The loop over the years ingests nothing when every year left has its
    record file. *)
Lemma yearLoop_quiet (env : Environment) (fuel : nat) (year yearEnd : Z) (w : World) :
  (forall y, year <= y <= yearEnd -> is_Some (files w !! jsonlName y)) ->
  quietStep w (fst (YearRange.yearLoop env fuel year yearEnd w)).
Proof.
  revert year w. induction fuel as [|fuel IH]; intros year w Hfiles;
    [apply quietStep_refl|].
  cbn [YearRange.yearLoop].
  destruct (Z.leb_spec year yearEnd) as [Hle|Hgt]; [|apply quietStep_refl].
  destruct (Hfiles year ltac:(lia)) as [text Hfile].
  pose proof (yearBody_quiet env year w text Hfile) as Hbody.
  unfold bind. destruct (YearRange.yearBody env year w) as [w' [e|[|]]];
    cbn [fst] in *; try exact Hbody.
  eapply quietStep_trans; [exact Hbody|]. apply IH.
  intros y Hy. destruct Hbody as [-> _]. apply Hfiles. lia.
Qed.

(** X2.  In the year-range version an error of the loader ends the body of
    the loop over the years with that error: the handler rethrows it, the
    record file stays and nothing is ingested again. *)
Lemma load_error_is_rethrown
  (env : Environment) (year : Z) (w w' : World) (err : Exn) :
  1958 <= year <= 2022 ->
  is_Some (files w !! jsonlName year) ->
  YearRange.store env (jsonlName year) w = (w', inl err) ->
  YearRange.yearBody env year w = (w', inl err)
  /\ files w' = files w
  /\ quietStep w w'.
Proof.
  intros Hyear [text Hfile] Hstore.
  pose proof (yearBody_with_record_file env year w text Hfile) as Hbody.
  destruct (year_ends_valid (zone env) year Hyear) as (dateFrom & dateTo & Efrom & Eto).
  rewrite firstWeek_date, Efrom, Eto in Hbody.
  unfold tryCatch, bind, throw in Hbody. rewrite Hstore in Hbody.
  pose proof (quiet_YearRange_store env (jsonlName year) w) as Hquiet.
  rewrite Hstore in Hquiet. cbn [fst] in Hquiet.
  split; [exact Hbody|]. split; [apply Hquiet|exact Hquiet].
Qed.

Lemma load_error_is_rethrown_witness :
  YearRange.yearBody (sampleEnv []) 2020 worldWithBrokenRecordFile
  = (fst (YearRange.store (sampleEnv []) (jsonlName 2020) worldWithBrokenRecordFile),
     inl SyntaxError)
  /\ files (fst (YearRange.store (sampleEnv []) (jsonlName 2020) worldWithBrokenRecordFile))
     = files worldWithBrokenRecordFile
  /\ quietStep worldWithBrokenRecordFile
       (fst (YearRange.store (sampleEnv []) (jsonlName 2020) worldWithBrokenRecordFile)).
Proof.
  apply (load_error_is_rethrown (sampleEnv []) 2020 worldWithBrokenRecordFile).
  - lia.
  - eexists. reflexivity.
  - vm_compute. reflexivity.
Defined.

(** C9.  The year-range version run for 2020 to 2021 on a record file of
    2020 that has a line that is not JSON: the loader throws, and [main]
    ends with that error at once.  The record file is still there, no page
    was requested or parsed again, and 2021 was not started. *)
Theorem load_failure_halts_the_run :
  YearRange.main (sampleEnv []) ["node"; "index.js"; "2020"; "2021"]
    worldWithBrokenRecordFile
  = (mkWorld (files worldWithBrokenRecordFile) (pending worldWithBrokenRecordFile) emptyDatabase
       [Query "BEGIN" None;
        ConsoleInfo "Inserting data from jsonl/2020.jsonl to database...";
        Query "ROLLBACK" None],
     inl SyntaxError).
Proof. vm_compute. reflexivity. Qed.

(** *** The loops run to their end

    The loops of the orchestrator are written with a bound on the number of
    their steps.  The bound of the loop over the years is never reached, and
    neither is that of the loop over the weeks in a zone whose offset never
    changes, where every step moves the epoch time on by seven days: a
    larger bound gives the same run. *)

Lemma weekFuel_decreases (date next dateTo : DateTime) :
  ts date < ts dateTo -> ts date + MS_PER_DAY <= ts next ->
  (weekFuel next dateTo < weekFuel date dateTo)%nat.
Proof.
  intros Hlt Hnext. unfold weekFuel, MS_PER_DAY in *.
  assert (Hstep : (ts dateTo - ts next) / 86400000
                  <= (ts dateTo - ts date + (-1) * 86400000) / 86400000)
    by (apply Z.div_le_mono; lia).
  rewrite Z.div_add in Hstep by lia.
  assert (0 <= (ts dateTo - ts date) / 86400000) by (apply Z.div_pos; lia).
  lia.
Qed.

Lemma weekFuel_done (date dateTo : DateTime) :
  weekFuel date dateTo = O -> (ts date <? ts dateTo) = false.
Proof.
  unfold weekFuel, MS_PER_DAY. intros Hfuel. apply Z.ltb_ge.
  destruct (Z.lt_ge_cases (ts date) (ts dateTo)) as [Hlt|Hge]; [|lia].
  assert (0 <= (ts dateTo - ts date) / 86400000) by (apply Z.div_pos; lia).
  lia.
Qed.

Lemma weekFuel_fixed (zone : Zone) (o : Z) (date dateTo : DateTime) :
  (forall t, zone t = o) -> offset date = o -> ts date < ts dateTo ->
  offset (plus_weeks zone date 1) = o
  /\ (weekFuel (plus_weeks zone date 1) dateTo < weekFuel date dateTo)%nat.
Proof.
  intros Hzone Ho Hlt. rewrite (plus_weeks_fixed zone o date 1 Hzone Ho).
  split; [reflexivity|].
  apply weekFuel_decreases; [exact Hlt|]. cbn [ts]. unfold MS_PER_DAY. lia.
Qed.

Lemma YearRange_weekLoop_fuel (env : Environment) (o : Z) (fuel : nat)
  (date dateTo : DateTime) (jsonlFileName : string) (w : World) :
  (forall t, zone env t = o) -> offset date = o ->
  (weekFuel date dateTo <= fuel)%nat ->
  YearRange.weekLoop env (S fuel) date dateTo jsonlFileName w
  = YearRange.weekLoop env fuel date dateTo jsonlFileName w.
Proof.
  intros Hzone. revert date w. induction fuel as [|fuel IH]; intros date w Ho Hfuel.
  - cbn [YearRange.weekLoop]. rewrite weekFuel_done by lia. reflexivity.
  - change (YearRange.weekLoop env (S (S fuel)) date dateTo jsonlFileName w)
      with ((if ts date <? ts dateTo then
               if bool_decide (toISOWeekDate date = "1961-W52-6") then
                 YearRange.weekLoop env (S fuel) (plus_weeks (zone env) date 1) dateTo
                   jsonlFileName
               else
                 (YearRange.ingest env date jsonlFileName ;;;
                  YearRange.weekLoop env (S fuel) (plus_weeks (zone env) date 1) dateTo
                    jsonlFileName)
             else ret tt) w).
    cbn [YearRange.weekLoop].
    destruct (Z.ltb_spec (ts date) (ts dateTo)) as [Hlt|Hge]; [|reflexivity].
    destruct (weekFuel_fixed (zone env) o date dateTo Hzone Ho Hlt) as [Ho' Hstep].
    destruct (bool_decide (toISOWeekDate date = "1961-W52-6"));
      [apply IH; [exact Ho'|lia]|].
    unfold bind. destruct (YearRange.ingest env date jsonlFileName w) as [w' [e|[]]];
      [reflexivity|apply IH; [exact Ho'|lia]].
Qed.

Lemma SingleYear_weekLoop_fuel (env : Environment) (o : Z) (fuel : nat)
  (date dateTo : DateTime) (jsonlFileName : string) (w : World) :
  (forall t, zone env t = o) -> offset date = o ->
  (weekFuel date dateTo <= fuel)%nat ->
  SingleYear.weekLoop env (S fuel) date dateTo jsonlFileName w
  = SingleYear.weekLoop env fuel date dateTo jsonlFileName w.
Proof.
  intros Hzone. revert date w. induction fuel as [|fuel IH]; intros date w Ho Hfuel.
  - cbn [SingleYear.weekLoop]. rewrite weekFuel_done by lia. reflexivity.
  - change (SingleYear.weekLoop env (S (S fuel)) date dateTo jsonlFileName w)
      with ((if ts date <? ts dateTo then
               SingleYear.ingest env date jsonlFileName ;;;
               SingleYear.weekLoop env (S fuel) (plus_weeks (zone env) date 1) dateTo
                 jsonlFileName
             else ret tt) w).
    cbn [SingleYear.weekLoop].
    destruct (Z.ltb_spec (ts date) (ts dateTo)) as [Hlt|Hge]; [|reflexivity].
    destruct (weekFuel_fixed (zone env) o date dateTo Hzone Ho Hlt) as [Ho' Hstep].
    unfold bind. destruct (SingleYear.ingest env date jsonlFileName w) as [w' [e|[]]];
      [reflexivity|apply IH; [exact Ho'|lia]].
Qed.

Lemma yearLoop_fuel (env : Environment) (fuel : nat) (year yearEnd : Z) (w : World) :
  (Z.to_nat (yearEnd - year + 1) <= fuel)%nat ->
  YearRange.yearLoop env (S fuel) year yearEnd w
  = YearRange.yearLoop env fuel year yearEnd w.
Proof.
  revert year w. induction fuel as [|fuel IH]; intros year w Hfuel.
  - cbn [YearRange.yearLoop]. destruct (Z.leb_spec year yearEnd); [lia|reflexivity].
  - change (YearRange.yearLoop env (S (S fuel)) year yearEnd w)
      with ((if year <=? yearEnd then
               let* completion := YearRange.yearBody env year in
               match completion with
               | Continue => YearRange.yearLoop env (S fuel) (year + 1) yearEnd
               | Return => ret tt
               end
             else ret tt) w).
    cbn [YearRange.yearLoop].
    destruct (Z.leb_spec year yearEnd); [|reflexivity].
    unfold bind. destruct (YearRange.yearBody env year w) as [w' [e|[|]]];
      [reflexivity|apply IH; lia|reflexivity].
Qed.

(** ** Further properties *)

(** X1.  The year-range extractor rejects a page whose number of rows is not
    100: it logs the error, yields no entry and throws nothing. *)
Theorem wrong_row_count_rejects_page
  (env : Environment) (fileName : string) (w : World) (page : list N) :
  files w !! fileName = Some page ->
  length (rowsOf env page) <> 100%nat ->
  YearRange.parseHtml env fileName w
  = (mkWorld (files w) (pending w) (database w)
       (trace w ++ [ConsoleInfo ("Parsing " +:+ fileName +:+ "...");
                    FromFile fileName;
                    ConsoleError "Entries are not 100!" [JStr (lit fileName)]]),
     inr (mkGenerated [] [] None)).
Proof.
  intros Hfile Hcount.
  unfold YearRange.parseHtml, console_info, console_error, emit, bind, ret.
  cbn [files pending database trace]. rewrite Hfile.
  rewrite bool_decide_eq_false_2 by exact Hcount. cbn [negb files pending database trace].
  by rewrite <- !app_assoc.
Qed.

Lemma wrong_row_count_rejects_page_witness :
  YearRange.parseHtml (sampleEnv (replicate 99 goodRow)) "html/2020-01-04.html"
    (worldWithPage "html/2020-01-04.html")
  = (mkWorld (files (worldWithPage "html/2020-01-04.html"))
       (pending (worldWithPage "html/2020-01-04.html")) emptyDatabase
       [ConsoleInfo "Parsing html/2020-01-04.html...";
        FromFile "html/2020-01-04.html";
        ConsoleError "Entries are not 100!" [JStr (lit "html/2020-01-04.html")]],
     inr (mkGenerated [] [] None)).
Proof.
  apply (wrong_row_count_rejects_page (sampleEnv (replicate 99 goodRow))
           "html/2020-01-04.html" (worldWithPage "html/2020-01-04.html") []).
  - reflexivity.
  - vm_compute. discriminate.
Defined.

(** X3.  A record whose title is undefined is written with null and read
    back with null: the round trip does not give undefined back. *)
Theorem undefined_title_reads_back_null (year week : Z) (p : JsValue) (a : JsString) :
  isSafeInteger year = true -> isSafeInteger week = true -> isPosition p ->
  exists line,
    JSON_stringify (JArr [JNum year; JNum week; p; JStr a; JUndefined]) = Some line
    /\ JSON_parse line = inr (JArr [JNum year; JNum week; p; JStr a; JNull]).
Proof.
  intros Hyear Hweek Hp.
  assert (Hp' : isField p /\ readBack p = p) by (by destruct p).
  destruct Hp' as [Hfield Hback].
  assert (Hall : Forall isField [JNum year; JNum week; p; JStr a; JUndefined])
    by (repeat constructor; assumption).
  assert (Hne : [JNum year; JNum week; p; JStr a; JUndefined] <> []) by discriminate.
  destruct (JSON_parse_stringify_fields _ Hne Hall) as (line & Hline & _ & Hparse).
  exists line. split; [exact Hline|].
  rewrite Hparse. cbn [map readBack]. by rewrite Hback.
Qed.

Lemma undefined_title_reads_back_null_witness :
  exists line,
    JSON_stringify (JArr [JNum 2020; JNum 1; JNum 42; JStr (lit "Singer"); JUndefined])
    = Some line
    /\ JSON_parse line
       = inr (JArr [JNum 2020; JNum 1; JNum 42; JStr (lit "Singer"); JNull]).
Proof.
  apply (undefined_title_reads_back_null 2020 1 (JNum 42) (lit "Singer"));
    reflexivity.
Defined.

(** X4.  A run of the year-range version over years that all have their
    record file ingests nothing: no page is requested, no page is parsed and
    the files stay as they are. *)
Theorem rerun_of_loaded_years_ingests_nothing
  (env : Environment) (argv : list string) (yearStart yearEnd : Z) (w : World) :
  parseInt (lit (nth 2 argv "")) = Some yearStart ->
  parseInt (lit (nth 3 argv "")) = Some yearEnd ->
  (forall y, yearStart <= y <= yearEnd -> is_Some (files w !! jsonlName y)) ->
  quietStep w (fst (YearRange.main env argv w)).
Proof.
  intros Hstart Hend Hfiles. unfold YearRange.main.
  destruct (length argv <? 4)%nat.
  { clear Hfiles. revert w.
    change (quiet (console_error "Missing year start and end!" [] ;;;
                   console_info "Example: node index.js 1998 2020")).
    unfold console_error, console_info. quiet_steps. }
  rewrite Hstart, Hend.
  destruct ((yearStart <? 1958) || (yearEnd >? 2022)).
  { clear Hfiles. revert w.
    change (quiet (console_error "Year outside available range of 1958-2022!"
                     [JNum yearStart; JNum yearEnd])).
    unfold console_error. quiet_steps. }
  by apply yearLoop_quiet.
Qed.

Lemma rerun_of_loaded_years_ingests_nothing_witness :
  quietStep worldWithLiteralLine
    (fst (YearRange.main (sampleEnv []) ["node"; "index.js"; "1984"; "1984"]
            worldWithLiteralLine)).
Proof.
  apply (rerun_of_loaded_years_ingests_nothing (sampleEnv [])
           ["node"; "index.js"; "1984"; "1984"] 1984 1984 worldWithLiteralLine).
  - reflexivity.
  - reflexivity.
  - intros y Hy. assert (y = 1984) as -> by lia.
    exists (literalLine ++ [10%N]). reflexivity.
Defined.

(** X6.  The single-year extractor has no test of the number of rows: a
    page of well-formed rows with rank labels, however many, is extracted to
    one entry for each row. *)
Theorem SingleYear_extractor_takes_any_row_count
  (env : Environment) (fileName : string) (w : World) (page : list N) :
  files w !! fileName = Some page ->
  rankedFrom 1 (rowsOf env page) ->
  exists g w', SingleYear.parseHtml env fileName w = (w', inr g)
    /\ thrown g = None
    /\ length (yielded g) = length (rowsOf env page).
Proof.
  intros Hfile Hrows.
  destruct (SingleYear_parseRows_ranked 1 _ Hrows) as (Hthrown & _ & Hpos & _).
  eexists _, _. split.
  - unfold SingleYear.parseHtml, console_info, emit, bind. cbn [files pending].
    rewrite Hfile. reflexivity.
  - split; [exact Hthrown|].
    apply (f_equal (@length JsValue)) in Hpos.
    rewrite !length_map, length_seqZ in Hpos. lia.
Qed.

Lemma SingleYear_extractor_takes_any_row_count_witness :
  exists g w',
    SingleYear.parseHtml (sampleEnv [rankedRow 1; rankedRow 2]) "html/2020-01-04.html"
      (worldWithPage "html/2020-01-04.html") = (w', inr g)
    /\ thrown g = None
    /\ length (yielded g) = length (rowsOf (sampleEnv [rankedRow 1; rankedRow 2]) []).
Proof.
  assert (Hgood : wellFormedRow goodRow).
  { split; (eexists; split; [reflexivity|]);
      apply Exists_cons_tl, Exists_cons_hd; reflexivity. }
  apply (SingleYear_extractor_takes_any_row_count (sampleEnv [rankedRow 1; rankedRow 2])
           "html/2020-01-04.html" (worldWithPage "html/2020-01-04.html") []).
  - reflexivity.
  - cbn [rowsOf sampleEnv rankedFrom].
    repeat (split; [exact Hgood|split; [eexists; split; [reflexivity|vm_compute; reflexivity]|]]).
    exact I.
Defined.

(** X5.  [store] on a record file that does not exist: it logs the error
    and returns; the database is not touched. *)
Theorem store_without_record_file
  (env : Environment) (jsonlFileName : string) (w : World) :
  files w !! jsonlFileName = None ->
  YearRange.store env jsonlFileName w
  = (mkWorld (files w) (pending w) (database w)
       (trace w ++ [ConsoleError ("JSONL file " +:+ jsonlFileName +:+ " does not exist!") []]),
     inr tt).
Proof.
  intros Hfile. unfold YearRange.store, existsSync, bind. rewrite Hfile.
  rewrite bool_decide_eq_false_2 by (intros [? ?]; discriminate). reflexivity.
Qed.

Lemma store_without_record_file_witness :
  YearRange.store (sampleEnv []) "jsonl/2019.jsonl" worldWithLiteralLine
  = (mkWorld (files worldWithLiteralLine) (pending worldWithLiteralLine)
       (database worldWithLiteralLine)
       (trace worldWithLiteralLine
        ++ [ConsoleError ("JSONL file " +:+ "jsonl/2019.jsonl" +:+ " does not exist!") []]),
     inr tt).
Proof.
  apply (store_without_record_file (sampleEnv []) "jsonl/2019.jsonl" worldWithLiteralLine).
  reflexivity.
Defined.

(** ** Files *)

Lemma world_eta (w : World) : mkWorld (files w) (pending w) (database w) (trace w) = w.
Proof. by destruct w. Qed.

Lemma forEach_emit (events : list Event) (w : World) :
  forEach events emit w
  = (mkWorld (files w) (pending w) (database w) (trace w ++ events), inr tt).
Proof.
  revert w. induction events as [|e events IH]; intros w.
  - cbn [forEach]. by rewrite app_nil_r, world_eta.
  - cbn [forEach]. unfold bind, emit at 1. rewrite IH.
    cbn [files pending database trace]. by rewrite <- app_assoc.
Qed.

Lemma length_append (a b : string) :
  String.length (a +:+ b) = (String.length a + String.length b)%nat.
Proof. induction a as [|c a IH]; simpl; [reflexivity|by rewrite IH]. Qed.

Lemma append_inj_r (a b s : string) : a +:+ s = b +:+ s -> a = b.
Proof.
  revert b. induction a as [|c a IH]; intros [|d b] H; simpl in H.
  - reflexivity.
  - apply (f_equal String.length) in H. rewrite !length_append in H. simpl in H. lia.
  - apply (f_equal String.length) in H. rewrite !length_append in H. simpl in H. lia.
  - injection H as -> H. f_equal. by apply IH.
Qed.

(** Dates with the same cache file have the same chart address. *)
Lemma htmlName_chartUrl (date date' : DateTime) :
  htmlName date' = htmlName date -> chartUrl date' = chartUrl date.
Proof.
  unfold htmlName, chartUrl. intros H.
  apply String.app_inj in H. apply append_inj_r in H. by rewrite H.
Qed.

Lemma bind_run {A B} (c : M A) (k : A -> M B) (w w' : World) (a : A) :
  c w = (w', inr a) -> bind c k w = k a w'.
Proof. intros H. unfold bind. by rewrite H. Qed.

Lemma bind_run_throw {A B} (c : M A) (k : A -> M B) (w w' : World) (e : Exn) :
  c w = (w', inl e) -> bind c k w = (w', inl e).
Proof. intros H. unfold bind. by rewrite H. Qed.

Lemma bind_existsSync {B} (fileName : string) (k : bool -> M B) (w : World) :
  bind (existsSync fileName) k w = k (bool_decide (is_Some (files w !! fileName))) w.
Proof. reflexivity. Qed.

Lemma isTaken_false (response : Response) :
  isTaken response = false <->
  statusCode response <> 200
  \/ contentType response <> JStr (lit "text/html; charset=UTF-8").
Proof.
  unfold isTaken. rewrite andb_false_iff, Z.eqb_neq. split.
  - intros [H|H]; [by left|right]. intros E. rewrite E in H.
    cbn in H. unfold JsString_eqb in H. by rewrite bool_decide_eq_true_2 in H.
  - intros [H|H]; [by left|right]. by apply strict_eq_str_false.
Qed.

(** A response that is not taken: the deviation is logged, null is returned
    and no file is written. *)
Lemma download_rejected (env : Environment) (date : DateTime) (htmlFileName : string)
  (w : World) (response : Response) :
  request env (chartUrl date) = inr response ->
  isTaken response = false ->
  download env date htmlFileName w
  = (mkWorld (files w) (pending w) (database w)
       (trace w ++ [ConsoleInfo ("Downloading HTML for " +:+ toISODate date +:+ "...");
                    Request (chartUrl date);
                    deviationLog response]),
     inr JNull).
Proof.
  intros Hreq Hdev.
  unfold download, console_info, console_error, emit, bind, liftEither, ret.
  fold (chartUrl date). cbn [files pending database trace]. rewrite Hreq.
  unfold deviationLog, isTaken in *.
  destruct (statusCode response =? 200) eqn:Hstatus; cbn [negb andb] in *.
  - rewrite Hdev. cbn [negb files pending database trace]. by rewrite <- !app_assoc.
  - cbn [files pending database trace]. by rewrite <- !app_assoc.
Qed.

(** A response that is taken: the body is left to a stream that nothing
    waits for.  The file holds what has reached it, and will hold the body. *)
Lemma download_taken (env : Environment) (date : DateTime) (htmlFileName : string)
  (w : World) (response : Response) :
  request env (chartUrl date) = inr response ->
  isTaken response = true ->
  download env date htmlFileName w
  = (mkWorld
       (match reached env htmlFileName (concat (body response)) with
        | Some n => <[htmlFileName := take n (concat (body response))]> (files w)
        | None => files w
        end)
       (<[htmlFileName := concat (body response)]> (pending w))
       (database w)
       (trace w ++ [ConsoleInfo ("Downloading HTML for " +:+ toISODate date +:+ "...");
                    Request (chartUrl date)]),
     match bodyError response with
     | Some e => inl e
     | None => inr JUndefined
     end).
Proof.
  intros Hreq Htaken. unfold isTaken in Htaken. apply andb_true_iff in Htaken as [Hs Ht].
  unfold download, console_info, emit, bind, liftEither.
  fold (chartUrl date). cbn [files pending database trace]. rewrite Hreq, Hs, Ht.
  cbn [negb]. unfold writeUnawaited. cbn [files pending database trace].
  rewrite <- app_assoc. by destruct (bodyError response).
Qed.

Lemma download_request_fails (env : Environment) (date : DateTime) (htmlFileName : string)
  (w : World) (err : Exn) :
  request env (chartUrl date) = inl err ->
  download env date htmlFileName w
  = (mkWorld (files w) (pending w) (database w)
       (trace w ++ [ConsoleInfo ("Downloading HTML for " +:+ toISODate date +:+ "...");
                    Request (chartUrl date)]),
     inl err).
Proof.
  intros Hreq. unfold download, console_info, emit, bind, liftEither.
  fold (chartUrl date). cbn [files pending database trace]. rewrite Hreq.
  by rewrite <- app_assoc.
Qed.

(** ** The fetcher: a response that is taken *)

(** A file that a stream has been left to write holds, once the streams
    have finished, what was written to it. *)
Lemma settle_written (fileName : string) (content : list N) (w : World)
  (now : gmap string (list N)) :
  now = files w \/ (exists seen, now = <[fileName := seen]> (files w)) ->
  <[fileName := content]> (pending w) ∪ now
  = <[fileName := content]> (files (settle w)).
Proof.
  intros Hnow. cbn [settle files]. rewrite insert_union_l.
  destruct Hnow as [->|[seen ->]]; [reflexivity|].
  apply map_eq. intros name. rewrite !lookup_union.
  destruct (decide (name = fileName)) as [->|Hne].
  - rewrite !lookup_insert_eq. by destruct (files w !! fileName).
  - by rewrite (lookup_insert_ne (files w)) by done.
Qed.

(** X7.  When the status is 200 and the content type the expected one,
    [download] hands the body to a write stream of the cache file and
    returns undefined without waiting for the stream - or, when the body
    breaks off, throws the error of the body, with what was received handed
    to the stream.  Once the stream has finished, the cache file holds the
    chunks received, in order, in place of what it may have held, and no
    other file has changed.  When [download] returns, the file holds only
    what has reached it: the first bytes of the body, or the stream has not
    opened the file yet and it is as it was, missing if it was missing. *)
Theorem download_caches_the_body
  (env : Environment) (date : DateTime) (htmlFileName : string) (w : World)
  (response : Response) :
  request env (chartUrl date) = inr response ->
  statusCode response = 200 ->
  contentType response = JStr (lit "text/html; charset=UTF-8") ->
  exists w',
    download env date htmlFileName w
    = (w', match bodyError response with
           | Some e => inl e
           | None => inr JUndefined
           end)
    /\ trace w'
       = trace w ++ [ConsoleInfo ("Downloading HTML for " +:+ toISODate date +:+ "...");
                     Request (chartUrl date)]
    /\ database w' = database w
    /\ files (settle w')
       = <[htmlFileName := concat (body response)]> (files (settle w))
    /\ files w'
       = match reached env htmlFileName (concat (body response)) with
         | Some n => <[htmlFileName := take n (concat (body response))]> (files w)
         | None => files w
         end.
Proof.
  intros Hreq Hstatus Htype.
  assert (Htaken : isTaken response = true).
  { unfold isTaken. rewrite Hstatus, Htype. cbn.
    apply bool_decide_eq_true_2. reflexivity. }
  rewrite (download_taken env date htmlFileName w response Hreq Htaken).
  eexists. split; [reflexivity|]. cbn [files pending database trace].
  split; [reflexivity|]. split; [reflexivity|]. split; [|reflexivity].
  change (files (settle (mkWorld ?f ?p ?d ?t))) with (p ∪ f).
  apply settle_written.
  destruct (reached env htmlFileName (concat (body response))); [right; by eexists|by left].
Qed.

Lemma download_caches_the_body_witness :
  exists w',
    download (onlineEnv (Some 3%nat) []) sampleDate "html/2020-01-04.html"
      (mkWorld ∅ ∅ emptyDatabase [])
    = (w', match bodyError sampleResponse with
           | Some e => inl e
           | None => inr JUndefined
           end)
    /\ trace w'
       = trace (mkWorld ∅ ∅ emptyDatabase [])
         ++ [ConsoleInfo ("Downloading HTML for " +:+ toISODate sampleDate +:+ "...");
             Request (chartUrl sampleDate)]
    /\ database w' = database (mkWorld ∅ ∅ emptyDatabase [])
    /\ files (settle w')
       = <["html/2020-01-04.html" := concat (body sampleResponse)]>
           (files (settle (mkWorld ∅ ∅ emptyDatabase [])))
    /\ files w'
       = match reached (onlineEnv (Some 3%nat) []) "html/2020-01-04.html"
                 (concat (body sampleResponse)) with
         | Some n =>
           <["html/2020-01-04.html" := take n (concat (body sampleResponse))]>
             (files (mkWorld ∅ ∅ emptyDatabase []))
         | None => files (mkWorld ∅ ∅ emptyDatabase [])
         end.
Proof.
  apply (download_caches_the_body (onlineEnv (Some 3%nat) []) sampleDate
           "html/2020-01-04.html" (mkWorld ∅ ∅ emptyDatabase []) sampleResponse);
    reflexivity.
Defined.

(** ** The ingestion of a week *)

Lemma recordLine_stringify (date : DateTime) (entry : Entry) :
  JSON_stringify (recordOf date entry) = Some (recordLine date entry).
Proof. reflexivity. Qed.

Lemma jsonlName_not_htmlName (year : Z) (date : DateTime) :
  jsonlName year <> htmlName date.
Proof. unfold jsonlName, htmlName. cbn. discriminate. Qed.

Section Ingesting.

Variable env : Environment.
(** The extractor of a version, what it makes of a cached page and what it
    logs before it yields, and the ingestion that calls it. *)
Variable parseHtml : string -> M Generated.
Variable extract : list N -> Generated.
Variable parseLog : string -> list N -> list Event.
Variable ingest : DateTime -> string -> M unit.

Hypothesis parseHtml_cached : forall fileName w page,
  files w !! fileName = Some page ->
  parseHtml fileName w
  = (mkWorld (files w) (pending w) (database w)
       (trace w ++ [ConsoleInfo ("Parsing " +:+ fileName +:+ "..."); FromFile fileName]
          ++ parseLog fileName page),
     inr (extract page)).

Hypothesis parseHtml_missing : forall fileName w,
  files w !! fileName = None ->
  parseHtml fileName w
  = (mkWorld (files w) (pending w) (database w)
       (trace w ++ [ConsoleInfo ("Parsing " +:+ fileName +:+ "..."); FromFile fileName]),
     inr (stopWith [] (SystemError "ENOENT"))).

Hypothesis ingest_unfold : forall date jsonlFileName,
  ingest date jsonlFileName
  = (let htmlFileName := "html/" +:+ toISODate date +:+ ".html" in
     let* cached := existsSync htmlFileName in
     (if negb cached then download env date htmlFileName ;;; ret tt else ret tt) ;;;
     createAppendStream jsonlFileName ;;;
     console_info ("Writing parsed HTML to " +:+ jsonlFileName +:+ "...") ;;;
     let* generated := parseHtml htmlFileName in
     forEach (yielded generated) (fun entry =>
       match JSON_stringify (JArr [JNum (weekYear date); JNum (weekNumber date);
                                   position entry; artist entry; title entry]) with
       | Some line => write jsonlFileName line ;;; write jsonlFileName [10%N]
       | None => throw (TypeError "The chunk argument must be of type string")
       end) ;;;
     forEach (logged generated) emit ;;;
     match thrown generated with
     | Some e => throw e
     | None => console_info ("Process done for " +:+ toISODate date +:+ ".")
     end).

(** The loop of [ingest] over the entries: their lines go behind what the
    record file has. *)
Lemma forEach_entries_write (date : DateTime) (jsonlFileName : string)
  (entries : list Entry) (w : World) (content : list N) :
  files w !! jsonlFileName = Some content ->
  forEach entries (fun entry =>
    match JSON_stringify (JArr [JNum (weekYear date); JNum (weekNumber date);
                                position entry; artist entry; title entry]) with
    | Some line => write jsonlFileName line ;;; write jsonlFileName [10%N]
    | None => throw (TypeError "The chunk argument must be of type string")
    end) w
  = (mkWorld (<[jsonlFileName := content ++ recordFile (map (recordLine date) entries)]>
                (files w)) (pending w) (database w) (trace w),
     inr tt).
Proof.
  revert w content. induction entries as [|entry entries IH]; intros w content Hfile.
  - cbn [forEach map recordFile concat]. unfold recordFile. cbn [map concat].
    rewrite app_nil_r, insert_id by exact Hfile. by rewrite world_eta.
  - cbn [forEach]. fold (recordOf date entry). rewrite recordLine_stringify.
    unfold bind at 1. unfold bind at 1. unfold write at 1. rewrite Hfile.
    unfold write at 1. cbn [files pending database trace default].
    rewrite lookup_insert_eq. cbn [default].
    rewrite (IH _ ((content ++ recordLine date entry) ++ [10%N]))
      by (cbn [files pending]; apply lookup_insert_eq).
    cbn [files pending database trace]. rewrite !insert_insert_eq.
    unfold recordFile. cbn [map concat]. by rewrite <- !app_assoc.
Qed.

(** What is left of [ingest] once the page is in the cache. *)
Lemma ingest_from_cache (date : DateTime) (jsonlFileName : string) (w : World)
  (page : list N) :
  files w !! htmlName date = Some page ->
  jsonlFileName <> htmlName date ->
  ingest date jsonlFileName w
  = (mkWorld
       (<[jsonlFileName := default [] (files w !! jsonlFileName)
                           ++ recordFile (map (recordLine date) (yielded (extract page)))]>
          (files w)) (pending w)
       (database w)
       (trace w
        ++ [ConsoleInfo ("Writing parsed HTML to " +:+ jsonlFileName +:+ "...");
            ConsoleInfo ("Parsing " +:+ htmlName date +:+ "...");
            FromFile (htmlName date)]
        ++ parseLog (htmlName date) page
        ++ logged (extract page)
        ++ match thrown (extract page) with
           | Some _ => []
           | None => [ConsoleInfo ("Process done for " +:+ toISODate date +:+ ".")]
           end),
     match thrown (extract page) with
     | Some e => inl e
     | None => inr tt
     end).
Proof.
  intros Hpage Hne. rewrite ingest_unfold. cbv zeta. fold (htmlName date).
  unfold bind at 1. rewrite (existsSync_present _ _ _ Hpage). cbn [negb].
  unfold bind at 1. unfold ret at 1.
  unfold bind at 1. unfold createAppendStream at 1.
  unfold bind at 1. unfold console_info at 1, emit at 1. cbn [files pending database trace].
  unfold bind at 1.
  rewrite (parseHtml_cached _ _ page)
    by (cbn [files pending]; rewrite lookup_insert_ne by exact Hne; exact Hpage).
  cbn [files pending database trace].
  unfold bind at 1.
  rewrite (forEach_entries_write _ _ _ _ (default [] (files w !! jsonlFileName)))
    by (cbn [files pending]; apply lookup_insert_eq).
  cbn [files pending database trace]. rewrite insert_insert_eq.
  unfold bind at 1. rewrite forEach_emit. cbn [files pending database trace].
  destruct (thrown (extract page)) as [e|].
  - unfold throw. rewrite app_nil_r. by rewrite <- !app_assoc.
  - unfold console_info, emit. cbn [files pending database trace]. by rewrite <- !app_assoc.
Qed.


(** When the download is taken, its body ends well and the cache file is
    there by the time the page is read, [ingest] goes on as if what has
    reached the file had been in the cache. *)
Lemma ingest_after_download (date : DateTime) (jsonlFileName : string) (w : World)
  (response : Response) (n : nat) :
  files w !! htmlName date = None ->
  request env (chartUrl date) = inr response ->
  isTaken response = true ->
  bodyError response = None ->
  reached env (htmlName date) (concat (body response)) = Some n ->
  ingest date jsonlFileName w
  = ingest date jsonlFileName
      (mkWorld (<[htmlName date := take n (concat (body response))]> (files w))
         (<[htmlName date := concat (body response)]> (pending w))
         (database w)
         (trace w ++ [ConsoleInfo ("Downloading HTML for " +:+ toISODate date +:+ "...");
                      Request (chartUrl date)])).
Proof.
  intros Hpage Hreq Htaken Hbody Hreached.
  pose proof (download_taken env date (htmlName date) w response Hreq Htaken) as Hdl.
  rewrite Hbody, Hreached in Hdl.
  rewrite ingest_unfold. cbv zeta. fold (htmlName date).
  rewrite !bind_existsSync. cbn [files pending]. rewrite Hpage, lookup_insert_eq.
  rewrite bool_decide_eq_false_2 by (intros [? ?]; discriminate).
  rewrite bool_decide_eq_true_2 by (eexists; reflexivity).
  cbn [negb].
  match goal with
  | |- bind _ ?k _ = bind _ _ ?w1 => transitivity (k tt w1)
  end.
  - refine (bind_run _ _ _ _ tt _). unfold bind. by rewrite Hdl.
  - reflexivity.
Qed.

(** When the download is taken but the stream has not opened the cache file
    by the time the page is read, the parsing fails as on a page that was
    never sent; the body reaches the file later. *)
Lemma ingest_download_unreached (date : DateTime) (jsonlFileName : string) (w : World)
  (response : Response) :
  files w !! htmlName date = None ->
  jsonlFileName <> htmlName date ->
  request env (chartUrl date) = inr response ->
  isTaken response = true ->
  bodyError response = None ->
  reached env (htmlName date) (concat (body response)) = None ->
  ingest date jsonlFileName w
  = (mkWorld (<[jsonlFileName := default [] (files w !! jsonlFileName)]> (files w))
       (<[htmlName date := concat (body response)]> (pending w))
       (database w)
       (trace w ++ [ConsoleInfo ("Downloading HTML for " +:+ toISODate date +:+ "...");
                    Request (chartUrl date);
                    ConsoleInfo ("Writing parsed HTML to " +:+ jsonlFileName +:+ "...");
                    ConsoleInfo ("Parsing " +:+ htmlName date +:+ "...");
                    FromFile (htmlName date)]),
     inl (SystemError "ENOENT")).
Proof.
  intros Hpage Hne Hreq Htaken Hbody Hreached.
  pose proof (download_taken env date (htmlName date) w response Hreq Htaken) as Hdl.
  rewrite Hbody, Hreached in Hdl.
  rewrite ingest_unfold. cbv zeta. fold (htmlName date).
  rewrite bind_existsSync, Hpage.
  rewrite bool_decide_eq_false_2 by (intros [? ?]; discriminate). cbn [negb].
  erewrite bind_run; [|unfold bind; rewrite Hdl; reflexivity].
  unfold bind at 1. unfold createAppendStream at 1. cbn [files pending database trace].
  unfold bind at 1. unfold console_info at 1, emit at 1. cbn [files pending database trace].
  unfold bind at 1.
  rewrite parseHtml_missing
    by (cbn [files pending]; rewrite lookup_insert_ne by exact Hne; exact Hpage).
  cbn [files pending database trace stopWith yielded logged thrown forEach].
  unfold bind, ret, throw. cbn [files pending database trace].
  by rewrite <- !app_assoc.
Qed.

(** When the download is not taken, [ingest] goes on all the same, and the
    parsing of the page that is not there fails. *)
Lemma ingest_download_rejected (date : DateTime) (jsonlFileName : string) (w : World)
  (response : Response) :
  files w !! htmlName date = None ->
  jsonlFileName <> htmlName date ->
  request env (chartUrl date) = inr response ->
  isTaken response = false ->
  ingest date jsonlFileName w
  = (mkWorld (<[jsonlFileName := default [] (files w !! jsonlFileName)]> (files w)) (pending w)
       (database w)
       (trace w ++ [ConsoleInfo ("Downloading HTML for " +:+ toISODate date +:+ "...");
                    Request (chartUrl date);
                    deviationLog response;
                    ConsoleInfo ("Writing parsed HTML to " +:+ jsonlFileName +:+ "...");
                    ConsoleInfo ("Parsing " +:+ htmlName date +:+ "...");
                    FromFile (htmlName date)]),
     inl (SystemError "ENOENT")).
Proof.
  intros Hpage Hne Hreq Hdev.
  pose proof (download_rejected env date (htmlName date) w response Hreq Hdev) as Hdl.
  rewrite ingest_unfold. cbv zeta. fold (htmlName date).
  rewrite bind_existsSync, Hpage.
  rewrite bool_decide_eq_false_2 by (intros [? ?]; discriminate). cbn [negb].
  erewrite bind_run; [|unfold bind; rewrite Hdl; reflexivity].
  unfold bind at 1. unfold createAppendStream at 1. cbn [files pending database trace].
  unfold bind at 1. unfold console_info at 1, emit at 1. cbn [files pending database trace].
  unfold bind at 1.
  rewrite parseHtml_missing
    by (cbn [files pending]; rewrite lookup_insert_ne by exact Hne; exact Hpage).
  cbn [files pending database trace stopWith yielded logged thrown forEach].
  unfold bind, ret, throw. cbn [files pending database trace].
  by rewrite <- !app_assoc.
Qed.

(** When the request itself fails, [ingest] fails with its error before it
    touches a file. *)
Lemma ingest_request_fails (date : DateTime) (jsonlFileName : string) (w : World)
  (err : Exn) :
  files w !! htmlName date = None ->
  request env (chartUrl date) = inl err ->
  ingest date jsonlFileName w
  = (mkWorld (files w) (pending w) (database w)
       (trace w ++ [ConsoleInfo ("Downloading HTML for " +:+ toISODate date +:+ "...");
                    Request (chartUrl date)]),
     inl err).
Proof.
  intros Hpage Hreq.
  pose proof (download_request_fails env date (htmlName date) w err Hreq) as Hdl.
  rewrite ingest_unfold. cbv zeta. fold (htmlName date).
  rewrite bind_existsSync, Hpage.
  rewrite bool_decide_eq_false_2 by (intros [? ?]; discriminate). cbn [negb].
  refine (bind_run_throw _ _ _ _ _ _). unfold bind. by rewrite Hdl.
Qed.

(** When the body of a response that is taken breaks off, [ingest] fails
    with its error; what was received is left to the stream of the cache
    file. *)
Lemma ingest_body_error (date : DateTime) (jsonlFileName : string) (w : World)
  (response : Response) (err : Exn) :
  files w !! htmlName date = None ->
  request env (chartUrl date) = inr response ->
  isTaken response = true ->
  bodyError response = Some err ->
  ingest date jsonlFileName w
  = (mkWorld
       (match reached env (htmlName date) (concat (body response)) with
        | Some n => <[htmlName date := take n (concat (body response))]> (files w)
        | None => files w
        end)
       (<[htmlName date := concat (body response)]> (pending w))
       (database w)
       (trace w ++ [ConsoleInfo ("Downloading HTML for " +:+ toISODate date +:+ "...");
                    Request (chartUrl date)]),
     inl err).
Proof.
  intros Hpage Hreq Htaken Hbody.
  pose proof (download_taken env date (htmlName date) w response Hreq Htaken) as Hdl.
  rewrite Hbody in Hdl.
  rewrite ingest_unfold. cbv zeta. fold (htmlName date).
  rewrite bind_existsSync, Hpage.
  rewrite bool_decide_eq_false_2 by (intros [? ?]; discriminate). cbn [negb].
  refine (bind_run_throw _ _ _ _ _ _). unfold bind. by rewrite Hdl.
Qed.

Hypothesis extract_requests_nothing : forall fileName page,
  Forall (fun e => isRequest e = false) (parseLog fileName page ++ logged (extract page)).

Lemma not_request_requestsOnly (dates : DateTime -> Prop) (events : list Event) :
  Forall (fun e => isRequest e = false) events -> Forall (requestsOnly dates) events.
Proof.
  intros Hall. eapply Forall_impl; [exact Hall|].
  intros [] H; try exact I. discriminate.
Qed.

(** The one page [ingest] may request is the chart of its date. *)
Lemma ingest_requests (date : DateTime) (jsonlFileName : string) :
  jsonlFileName <> htmlName date ->
  emits (requestsOnly (fun d => d = date)) (ingest date jsonlFileName).
Proof.
  intros Hne w.
  assert (Hcached : forall w1 page, files w1 !! htmlName date = Some page ->
            exists events,
              trace (fst (ingest date jsonlFileName w1)) = trace w1 ++ events
              /\ Forall (requestsOnly (fun d => d = date)) events).
  { intros w1 page Hpage.
    rewrite (ingest_from_cache date jsonlFileName w1 page Hpage Hne).
    cbn [fst trace]. eexists. split; [reflexivity|].
    pose proof (extract_requests_nothing (htmlName date) page) as Hlog.
    apply (not_request_requestsOnly (fun d => d = date)) in Hlog.
    repeat (apply Forall_cons_2; [exact I|]). rewrite app_assoc.
    apply Forall_app. split; [exact Hlog|].
    destruct (thrown (extract page)); repeat constructor. }
  assert (Hdownload : Forall (requestsOnly (fun d => d = date))
            [ConsoleInfo ("Downloading HTML for " +:+ toISODate date +:+ "...");
             Request (chartUrl date)]).
  { repeat (apply Forall_cons_2; [first [exact I | by exists date]|]).
    apply Forall_nil_2. }
  destruct (files w !! htmlName date) as [page|] eqn:Hpage; [by eapply Hcached|].
  destruct (request env (chartUrl date)) as [err|response] eqn:Hreq.
  { rewrite (ingest_request_fails date jsonlFileName w err Hpage Hreq).
    cbn [fst trace]. eexists. split; [reflexivity|exact Hdownload]. }
  destruct (isTaken response) eqn:Htaken.
  - destruct (bodyError response) as [err|] eqn:Hbody.
    + rewrite (ingest_body_error date jsonlFileName w response err Hpage Hreq Htaken Hbody).
      cbn [fst trace]. eexists. split; [reflexivity|exact Hdownload].
    + destruct (reached env (htmlName date) (concat (body response))) as [n|]
        eqn:Hreached.
      * rewrite (ingest_after_download date jsonlFileName w response n
                   Hpage Hreq Htaken Hbody Hreached).
        edestruct (Hcached
                     (mkWorld (<[htmlName date := take n (concat (body response))]> (files w))
                        (<[htmlName date := concat (body response)]> (pending w))
                        (database w)
                        (trace w ++ [ConsoleInfo ("Downloading HTML for "
                                                  +:+ toISODate date +:+ "...");
                                     Request (chartUrl date)])))
          as (events & Htrace & Hevents); [cbn [files pending]; apply lookup_insert_eq|].
        rewrite Htrace. cbn [trace]. eexists. split; [by rewrite <- app_assoc|].
        apply Forall_app. by split.
      * rewrite (ingest_download_unreached date jsonlFileName w response
                   Hpage Hne Hreq Htaken Hbody Hreached).
        cbn [fst trace]. eexists. split; [reflexivity|].
        repeat (apply Forall_cons_2; [first [exact I | by exists date]|]).
        apply Forall_nil_2.
  - rewrite (ingest_download_rejected date jsonlFileName w response Hpage Hne Hreq Htaken).
    cbn [fst trace]. eexists. split; [reflexivity|].
    unfold deviationLog. destruct (negb (statusCode response =? 200));
      repeat (apply Forall_cons_2; [first [exact I | by exists date]|]);
      apply Forall_nil_2.
Qed.

(** One week ingested from the page [ingest] works on: the lines of its
    entries are behind what the record file had, and the pages of all weeks
    are what they were. *)
Lemma ingest_page (date : DateTime) (jsonlFileName : string) (w : World)
  (page : list N) :
  (forall d, jsonlFileName <> htmlName d) ->
  pageFor env w date = Some page ->
  exists w',
    ingest date jsonlFileName w
    = (w', match thrown (extract page) with Some e => inl e | None => inr tt end)
    /\ database w' = database w
    /\ files w' !! jsonlFileName
       = Some (default [] (files w !! jsonlFileName)
               ++ recordFile (map (recordLine date) (yielded (extract page))))
    /\ (forall d, pageFor env w' d = pageFor env w d)
    /\ (forall f, f <> jsonlFileName -> (forall d, f <> htmlName d) ->
                  files w' !! f = files w !! f).
Proof.
  intros Hne Hpage. unfold pageFor in Hpage.
  destruct (files w !! htmlName date) as [cached|] eqn:Hcached.
  - injection Hpage as ->.
    rewrite (ingest_from_cache date jsonlFileName w page Hcached (Hne date)).
    eexists. split; [reflexivity|]. cbn [files pending database].
    split; [reflexivity|]. split; [apply lookup_insert_eq|]. split.
    + intros d. unfold pageFor. cbn [files pending].
      by rewrite lookup_insert_ne by apply Hne.
    + intros f Hf _. by apply lookup_insert_ne.
  - destruct (request env (chartUrl date)) as [err|response] eqn:Hreq; [discriminate|].
    destruct (isTaken response) eqn:Htaken; [|discriminate].
    destruct (bodyError response) as [err|] eqn:Hbody; [discriminate|].
    destruct (reached env (htmlName date) (concat (body response))) as [n|]
      eqn:Hreached; [|discriminate].
    injection Hpage as <-.
    rewrite (ingest_after_download date jsonlFileName w response n
               Hcached Hreq Htaken Hbody Hreached).
    rewrite (ingest_from_cache date jsonlFileName _ (take n (concat (body response))))
      by (first [cbn [files pending]; apply lookup_insert_eq | apply Hne]).
    eexists. split; [reflexivity|]. cbn [files pending database].
    rewrite (lookup_insert_ne _ (htmlName date) jsonlFileName)
      by (intros E; by apply (Hne date)).
    split; [reflexivity|]. split; [apply lookup_insert_eq|]. split.
    + intros d. unfold pageFor. cbn [files pending].
      rewrite lookup_insert_ne by apply Hne.
      destruct (decide (htmlName d = htmlName date)) as [E|E].
      * rewrite E, lookup_insert_eq, Hcached. rewrite (htmlName_chartUrl _ _ E).
        by rewrite Hreq, Htaken, Hbody, Hreached.
      * rewrite lookup_insert_ne by (intros E'; by apply E). reflexivity.
    + intros f Hf Hhtml. rewrite lookup_insert_ne by done.
      apply lookup_insert_ne. intros E. by apply (Hhtml date).
Qed.

(** The weeks of a year ingested one after the other, each from a page
    whose extraction ends well. *)
Lemma weeks_ingested (jsonlFileName : string) (dates : list DateTime) (w : World)
  (content : list N) :
  (forall d, jsonlFileName <> htmlName d) ->
  files w !! jsonlFileName = Some content ->
  (forall date, date ∈ dates ->
     exists page, pageFor env w date = Some page /\ thrown (extract page) = None) ->
  exists w',
    forEach dates (fun date => ingest date jsonlFileName) w = (w', inr tt)
    /\ database w' = database w
    /\ files w' !! jsonlFileName
       = Some (content
               ++ recordFile
                    (concat (map (fun date =>
                                    map (recordLine date)
                                      (yielded (extract (default [] (pageFor env w date)))))
                               dates)))
    /\ (forall d, pageFor env w' d = pageFor env w d)
    /\ (forall f, f <> jsonlFileName -> (forall d, f <> htmlName d) ->
                  files w' !! f = files w !! f).
Proof.
  intros Hne. revert w content. induction dates as [|date dates IH];
    intros w content Hfile Hpages.
  - exists w. cbn [forEach map concat]. unfold recordFile. cbn [map concat].
    rewrite app_nil_r. by repeat split.
  - destruct (Hpages date ltac:(left)) as (page & Hpage & Hthrown).
    destruct (ingest_page date jsonlFileName w page Hne Hpage)
      as (w1 & Hingest & Hdb1 & Hfile1 & Hpages1 & Hframe1).
    rewrite Hthrown in Hingest. rewrite Hfile in Hfile1. cbn [default] in Hfile1.
    destruct (IH w1 _ Hfile1) as (w2 & Hloop & Hdb2 & Hfile2 & Hpages2 & Hframe2).
    { intros d Hd. rewrite Hpages1. apply Hpages. by right. }
    exists w2. cbn [forEach]. unfold bind. rewrite Hingest.
    split; [exact Hloop|]. split; [congruence|]. split; [|split].
    + rewrite Hfile2. cbn [map concat]. rewrite Hpage. cbn [default].
      rewrite (map_ext_in _ _ dates
                 (fun d _ => f_equal (fun p => map (recordLine d)
                                                 (yielded (extract (default [] p))))
                               (Hpages1 d))).
      unfold recordFile. by rewrite map_app, concat_app, app_assoc.
    + intros d. by rewrite Hpages2, Hpages1.
    + intros f Hf Hhtml. by rewrite Hframe2, Hframe1.
Qed.

(** The same from a record file that is not there yet. *)
Lemma weeks_ingested_new (jsonlFileName : string) (dates : list DateTime) (w : World) :
  (forall d, jsonlFileName <> htmlName d) ->
  files w !! jsonlFileName = None ->
  dates <> [] ->
  (forall date, date ∈ dates ->
     exists page, pageFor env w date = Some page /\ thrown (extract page) = None) ->
  exists w',
    forEach dates (fun date => ingest date jsonlFileName) w = (w', inr tt)
    /\ database w' = database w
    /\ files w' !! jsonlFileName
       = Some (recordFile
                 (concat (map (fun date =>
                                 map (recordLine date)
                                   (yielded (extract (default [] (pageFor env w date)))))
                            dates)))
    /\ (forall d, pageFor env w' d = pageFor env w d)
    /\ (forall f, f <> jsonlFileName -> (forall d, f <> htmlName d) ->
                  files w' !! f = files w !! f).
Proof.
  intros Hne Hfile Hdates Hpages. destruct dates as [|date dates]; [done|].
  destruct (Hpages date ltac:(left)) as (page & Hpage & Hthrown).
  destruct (ingest_page date jsonlFileName w page Hne Hpage)
    as (w1 & Hingest & Hdb1 & Hfile1 & Hpages1 & Hframe1).
  rewrite Hthrown in Hingest. rewrite Hfile in Hfile1. cbn [default app] in Hfile1.
  destruct (weeks_ingested jsonlFileName dates w1 _ Hne Hfile1)
    as (w2 & Hloop & Hdb2 & Hfile2 & Hpages2 & Hframe2).
  { intros d Hd. rewrite Hpages1. apply Hpages. by right. }
  exists w2. cbn [forEach]. unfold bind. rewrite Hingest.
  split; [exact Hloop|]. split; [congruence|]. split; [|split].
  - rewrite Hfile2. cbn [map concat]. rewrite Hpage. cbn [default].
    rewrite (map_ext_in _ _ dates
               (fun d _ => f_equal (fun p => map (recordLine d)
                                               (yielded (extract (default [] p))))
                             (Hpages1 d))).
    unfold recordFile. by rewrite map_app, concat_app.
  - intros d. by rewrite Hpages2, Hpages1.
  - intros f Hf Hhtml. by rewrite Hframe2, Hframe1.
Qed.

(** [ingest] writes to the record file and to a cache file that was
    missing, and to nothing else; it does not touch the database. *)
Lemma ingest_keeps (base : gmap string (list N)) (date : DateTime)
  (jsonlFileName : string) (w : World) :
  jsonlFileName <> htmlName date ->
  base !! jsonlFileName = None ->
  base ⊆ files w ->
  base ⊆ files (fst (ingest date jsonlFileName w))
  /\ database (fst (ingest date jsonlFileName w)) = database w.
Proof.
  intros Hne Hbase Hsub.
  destruct (files w !! htmlName date) as [page|] eqn:Hpage.
  { rewrite (ingest_from_cache date jsonlFileName w page Hpage Hne).
    cbn [fst files pending database]. split; [by apply insert_subseteq_r|reflexivity]. }
  pose proof (lookup_weaken_None _ _ _ Hpage Hsub) as Hbase'.
  destruct (request env (chartUrl date)) as [err|response] eqn:Hreq.
  { by rewrite (ingest_request_fails date jsonlFileName w err Hpage Hreq). }
  destruct (isTaken response) eqn:Htaken.
  - destruct (bodyError response) as [err|] eqn:Hbody.
    + rewrite (ingest_body_error date jsonlFileName w response err Hpage Hreq Htaken Hbody).
      cbn [fst files pending database]. split; [|reflexivity].
      destruct (reached env (htmlName date) (concat (body response)));
        [by apply insert_subseteq_r|exact Hsub].
    + destruct (reached env (htmlName date) (concat (body response))) as [n|]
        eqn:Hreached.
      * rewrite (ingest_after_download date jsonlFileName w response n
                   Hpage Hreq Htaken Hbody Hreached).
        rewrite (ingest_from_cache date jsonlFileName _ (take n (concat (body response))))
          by (first [cbn [files pending]; apply lookup_insert_eq | exact Hne]).
        cbn [fst files pending database].
        split; [|reflexivity].
        apply insert_subseteq_r; [exact Hbase|]. by apply insert_subseteq_r.
      * rewrite (ingest_download_unreached date jsonlFileName w response
                   Hpage Hne Hreq Htaken Hbody Hreached).
        cbn [fst files pending database]. split; [by apply insert_subseteq_r|reflexivity].
  - rewrite (ingest_download_rejected date jsonlFileName w response Hpage Hne Hreq Htaken).
    cbn [fst files pending database]. split; [by apply insert_subseteq_r|reflexivity].
Qed.

(** So does a sequence of ingestions into the same record file. *)
Lemma weeks_keep (base : gmap string (list N)) (jsonlFileName : string)
  (dates : list DateTime) (w : World) :
  (forall d, jsonlFileName <> htmlName d) ->
  base !! jsonlFileName = None ->
  base ⊆ files w ->
  base ⊆ files (fst (forEach dates (fun date => ingest date jsonlFileName) w))
  /\ database (fst (forEach dates (fun date => ingest date jsonlFileName) w))
     = database w.
Proof.
  intros Hne Hbase. revert w. induction dates as [|date dates IH]; intros w Hsub.
  - by split.
  - cbn [forEach]. unfold bind.
    destruct (ingest_keeps base date jsonlFileName w (Hne date) Hbase Hsub)
      as [Hsub1 Hdb1].
    destruct (ingest date jsonlFileName w) as [w1 [e|[]]]; cbn [fst] in *;
      [by split|].
    destruct (IH w1 Hsub1) as [Hsub2 Hdb2]. split; [exact Hsub2|congruence].
Qed.
End Ingesting.

Lemma YearRange_parseHtml_cached (env : Environment) (fileName : string) (w : World)
  (page : list N) :
  files w !! fileName = Some page ->
  YearRange.parseHtml env fileName w
  = (mkWorld (files w) (pending w) (database w)
       (trace w ++ [ConsoleInfo ("Parsing " +:+ fileName +:+ "..."); FromFile fileName]
          ++ YearRange_parseLog env fileName page),
     inr (YearRange_extract env page)).
Proof.
  intros Hfile.
  unfold YearRange.parseHtml, YearRange_parseLog, YearRange_extract,
    console_info, console_error, emit, bind, ret.
  cbn [files pending database trace]. rewrite Hfile.
  destruct (bool_decide (length (rowsOf env page) = 100%nat));
    cbn [negb files pending database trace]; by rewrite <- !app_assoc.
Qed.

Lemma YearRange_parseHtml_missing (env : Environment) (fileName : string) (w : World) :
  files w !! fileName = None ->
  YearRange.parseHtml env fileName w
  = (mkWorld (files w) (pending w) (database w)
       (trace w ++ [ConsoleInfo ("Parsing " +:+ fileName +:+ "..."); FromFile fileName]),
     inr (stopWith [] (SystemError "ENOENT"))).
Proof.
  intros Hfile. unfold YearRange.parseHtml, console_info, emit, bind.
  cbn [files pending database trace]. rewrite Hfile. by rewrite <- !app_assoc.
Qed.

Lemma SingleYear_parseHtml_cached (env : Environment) (fileName : string) (w : World)
  (page : list N) :
  files w !! fileName = Some page ->
  SingleYear.parseHtml env fileName w
  = (mkWorld (files w) (pending w) (database w)
       (trace w ++ [ConsoleInfo ("Parsing " +:+ fileName +:+ "..."); FromFile fileName]
          ++ []),
     inr (SingleYear_extract env page)).
Proof.
  intros Hfile. unfold SingleYear.parseHtml, SingleYear_extract, console_info, emit, bind.
  cbn [files pending database trace]. rewrite Hfile. by rewrite app_nil_r, <- !app_assoc.
Qed.

Lemma SingleYear_parseHtml_missing (env : Environment) (fileName : string) (w : World) :
  files w !! fileName = None ->
  SingleYear.parseHtml env fileName w
  = (mkWorld (files w) (pending w) (database w)
       (trace w ++ [ConsoleInfo ("Parsing " +:+ fileName +:+ "..."); FromFile fileName]),
     inr (stopWith [] (SystemError "ENOENT"))).
Proof.
  intros Hfile. unfold SingleYear.parseHtml, console_info, emit, bind.
  cbn [files pending database trace]. rewrite Hfile. by rewrite <- !app_assoc.
Qed.

Lemma YearRange_ingest_from_cache (env : Environment) (date : DateTime)
  (jsonlFileName : string) (w : World) (page : list N) :
  files w !! htmlName date = Some page ->
  jsonlFileName <> htmlName date ->
  YearRange.ingest env date jsonlFileName w
  = (mkWorld
       (<[jsonlFileName := default [] (files w !! jsonlFileName)
                           ++ recordFile (map (recordLine date)
                                            (yielded (YearRange_extract env page)))]>
          (files w)) (pending w)
       (database w)
       (trace w
        ++ [ConsoleInfo ("Writing parsed HTML to " +:+ jsonlFileName +:+ "...");
            ConsoleInfo ("Parsing " +:+ htmlName date +:+ "...");
            FromFile (htmlName date)]
        ++ YearRange_parseLog env (htmlName date) page
        ++ logged (YearRange_extract env page)
        ++ match thrown (YearRange_extract env page) with
           | Some _ => []
           | None => [ConsoleInfo ("Process done for " +:+ toISODate date +:+ ".")]
           end),
     match thrown (YearRange_extract env page) with
     | Some e => inl e
     | None => inr tt
     end).
Proof.
  apply (ingest_from_cache env (YearRange.parseHtml env) (YearRange_extract env)
           (YearRange_parseLog env) (YearRange.ingest env)).
  - apply YearRange_parseHtml_cached.
  - reflexivity.
Qed.

Lemma SingleYear_ingest_from_cache (env : Environment) (date : DateTime)
  (jsonlFileName : string) (w : World) (page : list N) :
  files w !! htmlName date = Some page ->
  jsonlFileName <> htmlName date ->
  SingleYear.ingest env date jsonlFileName w
  = (mkWorld
       (<[jsonlFileName := default [] (files w !! jsonlFileName)
                           ++ recordFile (map (recordLine date)
                                            (yielded (SingleYear_extract env page)))]>
          (files w)) (pending w)
       (database w)
       (trace w
        ++ [ConsoleInfo ("Writing parsed HTML to " +:+ jsonlFileName +:+ "...");
            ConsoleInfo ("Parsing " +:+ htmlName date +:+ "...");
            FromFile (htmlName date)]
        ++ []
        ++ logged (SingleYear_extract env page)
        ++ match thrown (SingleYear_extract env page) with
           | Some _ => []
           | None => [ConsoleInfo ("Process done for " +:+ toISODate date +:+ ".")]
           end),
     match thrown (SingleYear_extract env page) with
     | Some e => inl e
     | None => inr tt
     end).
Proof.
  apply (ingest_from_cache env (SingleYear.parseHtml env) (SingleYear_extract env)
           (fun _ _ => []) (SingleYear.ingest env)).
  - apply SingleYear_parseHtml_cached.
  - reflexivity.
Qed.

Lemma YearRange_extract_logged (env : Environment) (page : list N) :
  logged (YearRange_extract env page) = [].
Proof.
  unfold YearRange_extract. destruct (bool_decide _); [|reflexivity].
  apply YearRange_parseRows_ends.
Qed.

Lemma SingleYear_extract_logged (env : Environment) (page : list N) :
  logged (SingleYear_extract env page) = [].
Proof. apply SingleYear_parseRows_ends. Qed.

(** X8.  A page that is in the cache is not requested again: [ingest] adds
    no request to the trace and leaves the cached page as it is. *)
Theorem cached_page_is_not_requested
  (env : Environment) (date : DateTime) (jsonlFileName : string) (w : World) :
  is_Some (files w !! htmlName date) ->
  jsonlFileName <> htmlName date ->
  (files (fst (YearRange.ingest env date jsonlFileName w)) !! htmlName date
   = files w !! htmlName date
   /\ exists events,
       trace (fst (YearRange.ingest env date jsonlFileName w)) = trace w ++ events
       /\ Forall (fun e => isRequest e = false) events)
  /\ (files (fst (SingleYear.ingest env date jsonlFileName w)) !! htmlName date
      = files w !! htmlName date
      /\ exists events,
          trace (fst (SingleYear.ingest env date jsonlFileName w)) = trace w ++ events
          /\ Forall (fun e => isRequest e = false) events).
Proof.
  intros [page Hpage] Hne. split.
  - rewrite (YearRange_ingest_from_cache env date jsonlFileName w page Hpage Hne).
    cbn [fst files pending trace]. split; [by apply lookup_insert_ne|].
    eexists. split; [reflexivity|].
    rewrite YearRange_extract_logged. unfold YearRange_parseLog.
    destruct (bool_decide _); destruct (thrown _); repeat constructor.
  - rewrite (SingleYear_ingest_from_cache env date jsonlFileName w page Hpage Hne).
    cbn [fst files pending trace]. split; [by apply lookup_insert_ne|].
    eexists. split; [reflexivity|].
    rewrite SingleYear_extract_logged.
    destruct (thrown _); repeat constructor.
Qed.

Lemma cached_page_is_not_requested_witness :
  (files (fst (YearRange.ingest (sampleEnv []) sampleDate "jsonl/2020.jsonl"
                 (worldWithPage "html/2020-01-04.html"))) !! htmlName sampleDate
   = files (worldWithPage "html/2020-01-04.html") !! htmlName sampleDate
   /\ exists events,
       trace (fst (YearRange.ingest (sampleEnv []) sampleDate "jsonl/2020.jsonl"
                     (worldWithPage "html/2020-01-04.html")))
       = trace (worldWithPage "html/2020-01-04.html") ++ events
       /\ Forall (fun e => isRequest e = false) events)
  /\ (files (fst (SingleYear.ingest (sampleEnv []) sampleDate "jsonl/2020.jsonl"
                    (worldWithPage "html/2020-01-04.html"))) !! htmlName sampleDate
      = files (worldWithPage "html/2020-01-04.html") !! htmlName sampleDate
      /\ exists events,
          trace (fst (SingleYear.ingest (sampleEnv []) sampleDate "jsonl/2020.jsonl"
                        (worldWithPage "html/2020-01-04.html")))
          = trace (worldWithPage "html/2020-01-04.html") ++ events
          /\ Forall (fun e => isRequest e = false) events).
Proof.
  apply (cached_page_is_not_requested (sampleEnv []) sampleDate "jsonl/2020.jsonl"
           (worldWithPage "html/2020-01-04.html")).
  - exists []. reflexivity.
  - discriminate.
Defined.

(** X9.  [ingest] on a cached page appends to the record file: the file
    keeps what it had and gets, behind it, one JSON line with its line feed
    for every entry the extractor yielded, in order - also when the
    extractor fails after them, and then [ingest] fails with its error.  No
    other file and no row of the database changes. *)
Theorem ingest_appends_the_entries
  (env : Environment) (date : DateTime) (jsonlFileName : string) (w : World)
  (page : list N) :
  files w !! htmlName date = Some page ->
  jsonlFileName <> htmlName date ->
  (files (fst (YearRange.ingest env date jsonlFileName w))
   = <[jsonlFileName := default [] (files w !! jsonlFileName)
                        ++ recordFile (map (recordLine date)
                                         (yielded (YearRange_extract env page)))]>
       (files w)
   /\ database (fst (YearRange.ingest env date jsonlFileName w)) = database w
   /\ snd (YearRange.ingest env date jsonlFileName w)
      = match thrown (YearRange_extract env page) with
        | Some e => inl e
        | None => inr tt
        end)
  /\ (files (fst (SingleYear.ingest env date jsonlFileName w))
      = <[jsonlFileName := default [] (files w !! jsonlFileName)
                           ++ recordFile (map (recordLine date)
                                            (yielded (SingleYear_extract env page)))]>
          (files w)
      /\ database (fst (SingleYear.ingest env date jsonlFileName w)) = database w
      /\ snd (SingleYear.ingest env date jsonlFileName w)
         = match thrown (SingleYear_extract env page) with
           | Some e => inl e
           | None => inr tt
           end)
  /\ (forall entry,
        JSON_stringify (JArr [JNum (weekYear date); JNum (weekNumber date);
                              position entry; artist entry; title entry])
        = Some (recordLine date entry)).
Proof.
  intros Hpage Hne. split; [|split].
  - by rewrite (YearRange_ingest_from_cache env date jsonlFileName w page Hpage Hne).
  - by rewrite (SingleYear_ingest_from_cache env date jsonlFileName w page Hpage Hne).
  - reflexivity.
Qed.

Lemma ingest_appends_the_entries_witness :
  (files (fst (YearRange.ingest (sampleEnv [goodRow]) sampleDate "jsonl/2020.jsonl"
                 (worldWithPage "html/2020-01-04.html")))
   = <["jsonl/2020.jsonl" :=
         default [] (files (worldWithPage "html/2020-01-04.html") !! "jsonl/2020.jsonl")
         ++ recordFile (map (recordLine sampleDate)
                          (yielded (YearRange_extract (sampleEnv [goodRow]) [])))]>
       (files (worldWithPage "html/2020-01-04.html"))
   /\ database (fst (YearRange.ingest (sampleEnv [goodRow]) sampleDate "jsonl/2020.jsonl"
                       (worldWithPage "html/2020-01-04.html")))
      = database (worldWithPage "html/2020-01-04.html")
   /\ snd (YearRange.ingest (sampleEnv [goodRow]) sampleDate "jsonl/2020.jsonl"
             (worldWithPage "html/2020-01-04.html"))
      = match thrown (YearRange_extract (sampleEnv [goodRow]) []) with
        | Some e => inl e
        | None => inr tt
        end)
  /\ (files (fst (SingleYear.ingest (sampleEnv [goodRow]) sampleDate "jsonl/2020.jsonl"
                    (worldWithPage "html/2020-01-04.html")))
      = <["jsonl/2020.jsonl" :=
            default [] (files (worldWithPage "html/2020-01-04.html") !! "jsonl/2020.jsonl")
            ++ recordFile (map (recordLine sampleDate)
                             (yielded (SingleYear_extract (sampleEnv [goodRow]) [])))]>
          (files (worldWithPage "html/2020-01-04.html"))
      /\ database (fst (SingleYear.ingest (sampleEnv [goodRow]) sampleDate "jsonl/2020.jsonl"
                          (worldWithPage "html/2020-01-04.html")))
         = database (worldWithPage "html/2020-01-04.html")
      /\ snd (SingleYear.ingest (sampleEnv [goodRow]) sampleDate "jsonl/2020.jsonl"
                (worldWithPage "html/2020-01-04.html"))
         = match thrown (SingleYear_extract (sampleEnv [goodRow]) []) with
           | Some e => inl e
           | None => inr tt
           end)
  /\ (forall entry,
        JSON_stringify (JArr [JNum (weekYear sampleDate); JNum (weekNumber sampleDate);
                              position entry; artist entry; title entry])
        = Some (recordLine sampleDate entry)).
Proof.
  apply (ingest_appends_the_entries (sampleEnv [goodRow]) sampleDate "jsonl/2020.jsonl"
           (worldWithPage "html/2020-01-04.html") []).
  - reflexivity.
  - discriminate.
Defined.

(** X10.  When the page is not in the cache and the response is not taken,
    [ingest] does not stop at the null that [download] returns: it goes on to
    parse the page that is not there and fails with the error of the missing
    file.  By then the record file has been created, empty when it was not
    there; the page is still missing and the database is unchanged. *)
Theorem rejected_download_fails_the_ingestion
  (env : Environment) (date : DateTime) (jsonlFileName : string) (w : World)
  (response : Response) :
  files w !! htmlName date = None ->
  jsonlFileName <> htmlName date ->
  request env (chartUrl date) = inr response ->
  statusCode response <> 200
  \/ contentType response <> JStr (lit "text/html; charset=UTF-8") ->
  (exists w',
      YearRange.ingest env date jsonlFileName w = (w', inl (SystemError "ENOENT"))
      /\ files w' = <[jsonlFileName := default [] (files w !! jsonlFileName)]> (files w)
      /\ database w' = database w)
  /\ (exists w',
        SingleYear.ingest env date jsonlFileName w = (w', inl (SystemError "ENOENT"))
        /\ files w' = <[jsonlFileName := default [] (files w !! jsonlFileName)]> (files w)
        /\ database w' = database w).
Proof.
  intros Hpage Hne Hreq Hdev. apply isTaken_false in Hdev. split.
  - eexists. split.
    + apply (ingest_download_rejected env (YearRange.parseHtml env) (YearRange.ingest env)
               (YearRange_parseHtml_missing env) (fun _ _ => eq_refl)
               date jsonlFileName w response Hpage Hne Hreq Hdev).
    + split; reflexivity.
  - eexists. split.
    + apply (ingest_download_rejected env (SingleYear.parseHtml env) (SingleYear.ingest env)
               (SingleYear_parseHtml_missing env) (fun _ _ => eq_refl)
               date jsonlFileName w response Hpage Hne Hreq Hdev).
    + split; reflexivity.
Qed.

Lemma rejected_download_fails_the_ingestion_witness :
  (exists w',
      YearRange.ingest (sampleEnv []) sampleDate "jsonl/2020.jsonl"
        (mkWorld ∅ ∅ emptyDatabase [])
      = (w', inl (SystemError "ENOENT"))
      /\ files w'
         = <["jsonl/2020.jsonl" :=
               default [] (files (mkWorld ∅ ∅ emptyDatabase []) !! "jsonl/2020.jsonl")]>
             (files (mkWorld ∅ ∅ emptyDatabase []))
      /\ database w' = emptyDatabase)
  /\ (exists w',
        SingleYear.ingest (sampleEnv []) sampleDate "jsonl/2020.jsonl"
          (mkWorld ∅ ∅ emptyDatabase [])
        = (w', inl (SystemError "ENOENT"))
        /\ files w'
         = <["jsonl/2020.jsonl" :=
               default [] (files (mkWorld ∅ ∅ emptyDatabase []) !! "jsonl/2020.jsonl")]>
             (files (mkWorld ∅ ∅ emptyDatabase []))
        /\ database w' = emptyDatabase).
Proof.
  apply (rejected_download_fails_the_ingestion (sampleEnv []) sampleDate
           "jsonl/2020.jsonl" (mkWorld ∅ ∅ emptyDatabase [])
           (mkResponse 404 (JStr (lit "text/html; charset=UTF-8")) [] None)).
  - reflexivity.
  - discriminate.
  - reflexivity.
  - left. discriminate.
Defined.

(** X26.  [ingest] reads the page it has just downloaded without waiting
    for the stream that writes it.  When the response is taken and its body
    ends well, but the stream has not opened the cache file by the time the
    page is read, [ingest] fails with the error of the missing file, as on a
    page that was never sent: the record file has been created, empty when
    it was not there, and the database is unchanged.  The body still reaches
    the cache file: once the stream has finished, the file holds it. *)
Theorem page_read_before_it_is_written
  (env : Environment) (date : DateTime) (jsonlFileName : string) (w : World)
  (response : Response) :
  files w !! htmlName date = None ->
  jsonlFileName <> htmlName date ->
  request env (chartUrl date) = inr response ->
  statusCode response = 200 ->
  contentType response = JStr (lit "text/html; charset=UTF-8") ->
  bodyError response = None ->
  reached env (htmlName date) (concat (body response)) = None ->
  (exists w',
      YearRange.ingest env date jsonlFileName w = (w', inl (SystemError "ENOENT"))
      /\ files w' = <[jsonlFileName := default [] (files w !! jsonlFileName)]> (files w)
      /\ database w' = database w
      /\ files (settle w') !! htmlName date = Some (concat (body response)))
  /\ (exists w',
        SingleYear.ingest env date jsonlFileName w = (w', inl (SystemError "ENOENT"))
        /\ files w' = <[jsonlFileName := default [] (files w !! jsonlFileName)]> (files w)
        /\ database w' = database w
        /\ files (settle w') !! htmlName date = Some (concat (body response))).
Proof.
  intros Hpage Hne Hreq Hstatus Htype Hbody Hreached.
  assert (Htaken : isTaken response = true).
  { unfold isTaken. rewrite Hstatus, Htype. cbn.
    apply bool_decide_eq_true_2. reflexivity. }
  split.
  - eexists. split.
    + apply (ingest_download_unreached env (YearRange.parseHtml env) (YearRange.ingest env)
               (YearRange_parseHtml_missing env) (fun _ _ => eq_refl)
               date jsonlFileName w response Hpage Hne Hreq Htaken Hbody Hreached).
    + split; [reflexivity|]. split; [reflexivity|].
      cbn [settle files pending]. apply lookup_union_Some_l, lookup_insert_eq.
  - eexists. split.
    + apply (ingest_download_unreached env (SingleYear.parseHtml env) (SingleYear.ingest env)
               (SingleYear_parseHtml_missing env) (fun _ _ => eq_refl)
               date jsonlFileName w response Hpage Hne Hreq Htaken Hbody Hreached).
    + split; [reflexivity|]. split; [reflexivity|].
      cbn [settle files pending]. apply lookup_union_Some_l, lookup_insert_eq.
Qed.

Lemma page_read_before_it_is_written_witness :
  (exists w',
      YearRange.ingest (onlineEnv None []) sampleDate "jsonl/2020.jsonl"
        (mkWorld ∅ ∅ emptyDatabase [])
      = (w', inl (SystemError "ENOENT"))
      /\ files w'
         = <["jsonl/2020.jsonl" :=
               default [] (files (mkWorld ∅ ∅ emptyDatabase []) !! "jsonl/2020.jsonl")]>
             (files (mkWorld ∅ ∅ emptyDatabase []))
      /\ database w' = emptyDatabase
      /\ files (settle w') !! htmlName sampleDate = Some (concat (body sampleResponse)))
  /\ (exists w',
        SingleYear.ingest (onlineEnv None []) sampleDate "jsonl/2020.jsonl"
          (mkWorld ∅ ∅ emptyDatabase [])
        = (w', inl (SystemError "ENOENT"))
        /\ files w'
           = <["jsonl/2020.jsonl" :=
                 default [] (files (mkWorld ∅ ∅ emptyDatabase []) !! "jsonl/2020.jsonl")]>
               (files (mkWorld ∅ ∅ emptyDatabase []))
        /\ database w' = emptyDatabase
        /\ files (settle w') !! htmlName sampleDate
           = Some (concat (body sampleResponse))).
Proof.
  apply (page_read_before_it_is_written (onlineEnv None []) sampleDate
           "jsonl/2020.jsonl" (mkWorld ∅ ∅ emptyDatabase []) sampleResponse).
  - reflexivity.
  - discriminate.
  - reflexivity.
  - reflexivity.
  - reflexivity.
  - reflexivity.
  - reflexivity.
Defined.

(** ** What the program requests *)

Lemma emits_mono {A} (P Q : Event -> Prop) (c : M A) :
  (forall e, P e -> Q e) -> emits P c -> emits Q c.
Proof.
  intros HPQ Hc w. destruct (Hc w) as (events & Htrace & Hall).
  exists events. split; [exact Htrace|]. eapply Forall_impl; [exact Hall|exact HPQ].
Qed.

Lemma emits_silent {A} (P : Event -> Prop) (c : M A) :
  (forall w, trace (fst (c w)) = trace w) -> emits P c.
Proof.
  intros Hc w. exists []. split; [by rewrite app_nil_r|constructor].
Qed.

Lemma emits_emit (P : Event -> Prop) (e : Event) : P e -> emits P (emit e).
Proof. intros He w. exists [e]. split; [reflexivity|by constructor]. Qed.

Lemma emits_bind {A B} (P : Event -> Prop) (c : M A) (k : A -> M B) :
  emits P c -> (forall a, emits P (k a)) -> emits P (bind c k).
Proof.
  intros Hc Hk w. unfold bind. destruct (Hc w) as (ev1 & Ht1 & Hall1).
  destruct (c w) as [w' [e|a]]; cbn [fst] in *; [by exists ev1|].
  destruct (Hk a w') as (ev2 & Ht2 & Hall2).
  exists (ev1 ++ ev2). split; [by rewrite Ht2, Ht1, app_assoc|by apply Forall_app].
Qed.

Lemma emits_tryCatch {A} (P : Event -> Prop) (c : M A) (handler : Exn -> M A) :
  emits P c -> (forall e, emits P (handler e)) -> emits P (tryCatch c handler).
Proof.
  intros Hc Hh w. unfold tryCatch. destruct (Hc w) as (ev1 & Ht1 & Hall1).
  destruct (c w) as [w' [e|a]]; cbn [fst] in *; [|by exists ev1].
  destruct (Hh e w') as (ev2 & Ht2 & Hall2).
  exists (ev1 ++ ev2). split; [by rewrite Ht2, Ht1, app_assoc|by apply Forall_app].
Qed.

Lemma emits_forEach {A} (P : Event -> Prop) (items : list A) (body : A -> M unit) :
  (forall x, x ∈ items -> emits P (body x)) -> emits P (forEach items body).
Proof.
  induction items as [|x items IH]; intros Hbody; cbn [forEach].
  - by apply emits_silent.
  - apply emits_bind; [apply Hbody; left|intros _; apply IH].
    intros y Hy. apply Hbody. by right.
Qed.

Lemma emits_quiet {A} (dates : DateTime -> Prop) (c : M A) :
  quiet c -> emits (requestsOnly dates) c.
Proof.
  intros Hc w. destruct (Hc w) as (_ & events & Htrace & Hall).
  exists events. split; [exact Htrace|]. eapply Forall_impl; [exact Hall|].
  intros [] H; try exact I. discriminate.
Qed.

Lemma YearRange_ingest_requests (env : Environment) (date : DateTime) (year : Z) :
  emits (requestsOnly (fun d => d = date)) (YearRange.ingest env date (jsonlName year)).
Proof.
  apply (ingest_requests env (YearRange.parseHtml env) (YearRange_extract env)
           (YearRange_parseLog env) (YearRange.ingest env)).
  - apply YearRange_parseHtml_cached.
  - apply YearRange_parseHtml_missing.
  - reflexivity.
  - intros fileName page. rewrite YearRange_extract_logged, app_nil_r.
    unfold YearRange_parseLog. destruct (bool_decide _); repeat constructor.
  - apply jsonlName_not_htmlName.
Qed.

(** The pages a year asks for are those of its week-ending dates. *)
Lemma yearBody_requests (env : Environment) (year : Z) :
  emits (requestsOnly (fun d => d ∈ weekEndingDates (zone env) year))
    (YearRange.yearBody env year).
Proof.
  unfold YearRange.yearBody. rewrite firstWeek_date. fold (jsonlName year).
  destruct (fromISO_week (zone env) year (firstWeek year) 6) as [dateFrom|] eqn:Efrom;
    [destruct (fromISO_week (zone env) (year + 1) 1 6) as [dateTo|] eqn:Eto|];
    try (apply emits_bind; [by apply emits_emit|intros _; by apply emits_silent]).
  apply emits_bind; [by apply emits_silent|]. intros present.
  apply emits_bind.
  { destruct (negb present); [|by apply emits_silent].
    intros w. rewrite weekLoop_forEach. revert w.
    replace (weekDates (zone env) (weekFuel dateFrom dateTo) dateFrom dateTo)
      with (weekEndingDates (zone env) year)
      by (unfold weekEndingDates; by rewrite Efrom, Eto).
    apply emits_forEach. intros date Hdate.
    eapply emits_mono; [|apply YearRange_ingest_requests].
    intros [] H; try exact I. destruct H as (d & -> & ->). by exists date. }
  intros _. apply emits_bind.
  { apply emits_quiet. apply quiet_tryCatch; [apply quiet_YearRange_store|].
    intros e. apply quiet_throw. }
  intros _. apply emits_bind; [by apply emits_emit|intros _; by apply emits_silent].
Qed.

Lemma yearLoop_requests (env : Environment) (fuel : nat) (year yearEnd : Z) :
  emits (requestsOnly
           (fun d => exists y, year <= y <= yearEnd /\ d ∈ weekEndingDates (zone env) y))
    (YearRange.yearLoop env fuel year yearEnd).
Proof.
  revert year. induction fuel as [|fuel IH]; intros year; cbn [YearRange.yearLoop].
  - by apply emits_silent.
  - destruct (Z.leb_spec year yearEnd) as [Hle|Hgt]; [|by apply emits_silent].
    apply emits_bind.
    + eapply emits_mono; [|apply yearBody_requests].
      intros [] H; try exact I. destruct H as (d & Hd & ->).
      exists d. split; [|reflexivity]. exists year. split; [lia|exact Hd].
    + intros [|]; [|by apply emits_silent].
      eapply emits_mono; [|apply IH].
      intros [] H; try exact I. destruct H as (d & (y & Hy & Hd) & ->).
      exists d. split; [|reflexivity]. exists y. split; [lia|exact Hd].
Qed.

(** In a zone with a fixed offset east of UTC, a date of the week-ending
    dates of a year is the Saturday of one of the weeks of the year, and not
    of week 52 of 1961. *)
Lemma weekEndingDates_weeks (zone : Zone) (o : Z) (year : Z) (date : DateTime) :
  fixedEastOfUTC zone o ->
  1958 <= year <= 2022 ->
  date ∈ weekEndingDates zone year ->
  exists week,
    firstWeek year <= week <= weeksInWeekYear year
    /\ (year, week) <> (1961, 52)
    /\ isoWeekDate date = (year, week, 6).
Proof.
  intros Hfixed Hyear Hdate.
  destruct (year_dates_valid zone o year Hfixed Hyear)
    as (dateFrom & dateTo & _ & _ & _ & Hweeks & _).
  assert (Hin : isoWeekDate date ∈ map isoWeekDate (weekEndingDates zone year))
    by (apply list_elem_of_fmap; by exists date).
  rewrite Hweeks in Hin. apply list_elem_of_fmap in Hin as (week & Eweek & Hweek).
  apply list_elem_of_filter in Hweek as [Hgap Hweek]. apply elem_of_seqZ in Hweek.
  exists week. split; [lia|]. split; [exact Hgap|exact Eweek].
Qed.

(** X11.  When the zone of the process has a fixed offset and is UTC or
    east of it, then whatever its arguments and whatever the site and the
    files hold, a run of the year-range version requests nothing but charts
    of week-ending dates: every request it makes is the chart address of the
    Saturday of an ISO week of a year between its two arguments and inside
    1958 to 2022 - from week 31 on in 1958, never week 52 of 1961. *)
Theorem requests_are_charts_of_week_ending_dates
  (env : Environment) (o : Z) (argv : list string) (w : World) :
  fixedEastOfUTC (zone env) o ->
  exists events,
    trace (fst (YearRange.main env argv w)) = trace w ++ events
    /\ Forall (requestsOnly (chartDateOf argv)) events.
Proof.
  intros Hfixed.
  revert w. change (emits (requestsOnly (chartDateOf argv)) (YearRange.main env argv)).
  unfold YearRange.main.
  destruct (length argv <? 4)%nat.
  { apply emits_bind; [by apply emits_emit|intros _; by apply emits_emit]. }
  destruct (parseInt (lit (nth 2 argv ""))) as [yearStart|] eqn:Estart;
    [destruct (parseInt (lit (nth 3 argv ""))) as [yearEnd|] eqn:Eend|];
    try by apply emits_emit.
  destruct ((yearStart <? 1958) || (yearEnd >? 2022)) eqn:Hrange;
    [by apply emits_emit|].
  apply orb_false_iff in Hrange as [Hlow Hhigh].
  apply Z.ltb_ge in Hlow. rewrite Z.gtb_ltb in Hhigh. apply Z.ltb_ge in Hhigh.
  eapply emits_mono; [|apply yearLoop_requests].
  intros [] H; try exact I. destruct H as (date & (year & Hyear & Hdate) & ->).
  exists date. split; [|reflexivity].
  destruct (weekEndingDates_weeks (zone env) o year date Hfixed ltac:(lia) Hdate)
    as (week & Hweek & Hgap & Eweek).
  exists yearStart, yearEnd, year, week. repeat split; try assumption; lia.
Qed.

Lemma requests_are_charts_of_week_ending_dates_witness :
  exists events,
    trace (fst (YearRange.main (envInZone 540 []) ["node"; "index.js"; "1961"; "1961"]
                  (mkWorld ∅ ∅ emptyDatabase [])))
    = trace (mkWorld ∅ ∅ emptyDatabase []) ++ events
    /\ Forall (requestsOnly (chartDateOf ["node"; "index.js"; "1961"; "1961"])) events.
Proof.
  apply (requests_are_charts_of_week_ending_dates (envInZone 540 []) 540
           ["node"; "index.js"; "1961"; "1961"] (mkWorld ∅ ∅ emptyDatabase [])).
  split; [reflexivity|lia].
Defined.

(** ** The two loaders compared *)

Lemma forEach_ext {A} (items : list A) (f g : A -> M unit) (w : World) :
  (forall x w', x ∈ items -> f x w' = g x w') ->
  forEach items f w = forEach items g w.
Proof.
  revert w. induction items as [|x items IH]; intros w Hfg; [reflexivity|].
  cbn [forEach]. unfold bind. rewrite Hfg by left.
  destruct (g x w) as [w' [e|[]]]; [reflexivity|].
  apply IH. intros y w'' Hy. apply Hfg. by right.
Qed.

Lemma correct_uncorrected (items : list JsValue) :
  ~ isCorrected items -> YearRange.correct (JArr items) = inr (JArr items).
Proof.
  intros Hnot. unfold YearRange.correct. cbn [js_get].
  destruct (items !! 0%nat) as [[| |?|y|?|?|?|?]|] eqn:E0; try reflexivity.
  cbn [from_option id strict_eq_num].
  destruct (Z.eqb_spec y 1984) as [->|]; [|reflexivity].
  destruct (items !! 1%nat) as [[| |?|k|?|?|?|?]|] eqn:E1; try reflexivity.
  cbn [from_option id strict_eq_num].
  destruct (Z.eqb_spec k 7) as [->|]; [|reflexivity].
  destruct (items !! 4%nat) as [[| |?|?|?|t|?|?]|] eqn:E4; try reflexivity.
  cbn [from_option id strict_eq_str]. unfold JsString_eqb.
  destruct (bool_decide_reflect (t = lit "Remember The Nights")) as [->|];
    [|reflexivity].
  exfalso. apply Hnot. by repeat split.
Qed.

Lemma storeLine_uncorrected (env : Environment) (line : JsString) (w : World) :
  uncorrectedLine line ->
  YearRange.storeLine env line w = SingleYear.storeLine env line w.
Proof.
  intros Hline. rewrite YearRange_storeLine_inserts, SingleYear_storeLine_inserts.
  unfold YearRange_valuesOf, uncorrectedLine in *.
  destruct (JSON_parse line) as [e|[| |?|?|?|?|items|?]]; try contradiction;
    [reflexivity|].
  by rewrite correct_uncorrected.
Qed.

(** Numbers are compared by value: a record whose year is written 1984.0
    is corrected like one whose year is written 1984. *)
Lemma year_with_a_fraction_is_corrected :
  JSON_parse fractionLine
  = inr (JArr [JNum 1984; JNum 7; JStr (lit "99"); JStr (lit "Some Artist");
               JStr (lit "Remember The Nights")])
  /\ ~ uncorrectedLine fractionLine
  /\ YearRange_valuesOf fractionLine
     = inr (JArr [JNum 1984; JNum 7; JStr (lit "87"); JStr (lit "Some Artist");
                  JStr (lit "Remember The Nights")]).
Proof.
  assert (Eparse : JSON_parse fractionLine
                   = inr (JArr [JNum 1984; JNum 7; JStr (lit "99");
                                JStr (lit "Some Artist");
                                JStr (lit "Remember The Nights")]))
    by (vm_compute; reflexivity).
  split; [exact Eparse|]. split.
  - unfold uncorrectedLine. rewrite Eparse. intros H. apply H. by repeat split.
  - unfold YearRange_valuesOf. rewrite Eparse. vm_compute. reflexivity.
Qed.

(** X12.  On a record file each of whose lines is no JSON text, or an array
    that is no record of year 1984, week 7 and title "Remember The Nights",
    the loader of the year-range version does exactly what the loader of the
    single-year version does: the same queries, the same rows, the same
    outcome. *)
Theorem loaders_agree_without_correction
  (env : Environment) (jsonlFileName : string) (w : World) (text : list N) :
  files w !! jsonlFileName = Some text ->
  Forall uncorrectedLine (readLines text) ->
  YearRange.store env jsonlFileName w = SingleYear.store env jsonlFileName w.
Proof.
  intros Hfile Hlines.
  unfold YearRange.store, SingleYear.store.
  rewrite !bind_existsSync.
  destruct (negb (bool_decide (is_Some (files w !! jsonlFileName)))); [reflexivity|].
  unfold Pg.newClient, Pg.query_BEGIN, console_info, tryCatch, readFile, bind, emit,
    Pg.setDatabase.
  cbn [database files pending trace session committed]. rewrite Hfile.
  rewrite (forEach_ext (readLines text) (YearRange.storeLine env)
             (SingleYear.storeLine env)); [reflexivity|].
  intros line w' Hin. apply storeLine_uncorrected.
  rewrite Forall_forall in Hlines. by apply Hlines.
Qed.

Lemma loaders_agree_without_correction_witness :
  YearRange.store (sampleEnv []) "jsonl/2020.jsonl" worldWithSampleLine
  = SingleYear.store (sampleEnv []) "jsonl/2020.jsonl" worldWithSampleLine.
Proof.
  apply (loaders_agree_without_correction (sampleEnv []) "jsonl/2020.jsonl"
           worldWithSampleLine (sampleLine ++ [10%N])).
  - reflexivity.
  - assert (Elines : readLines (sampleLine ++ [10%N]) = [sampleLine])
      by (vm_compute; reflexivity).
    assert (Eparse : JSON_parse sampleLine
                     = inr (JArr [JNum 2020; JNum 1; JNum 1; JStr (lit "Singer");
                                  JStr (lit "Song")]))
      by (vm_compute; reflexivity).
    rewrite Elines. constructor; [|constructor].
    unfold uncorrectedLine. rewrite Eparse. intros (H & _). discriminate H.
Defined.

Lemma rows_of_lines_unique (valuesOf : JsString -> Exn + JsValue)
  (lines : list JsString) (rows rows' : list SqlRow) :
  Forall2 (fun line row => rowOf valuesOf line = inr row) lines rows ->
  Forall2 (fun line row => rowOf valuesOf line = inr row) lines rows' ->
  rows = rows'.
Proof.
  intros H. revert rows'. induction H as [|line row lines rows Hrow _ IH];
    intros rows' H'; inversion H' as [|? row' ? rows'' Hrow' Hrest]; subst;
    [reflexivity|].
  rewrite Hrow in Hrow'. injection Hrow' as <-. f_equal. by apply IH.
Qed.

Lemma load_twice (env : Environment) (valuesOf : JsString -> Exn + JsValue)
  (text : list N) (w w1 w2 : World) :
  allOrNothing env valuesOf text w (w1, inr tt) ->
  allOrNothing env valuesOf text w1 (w2, inr tt) ->
  exists rows,
    Forall2 (fun line row => rowOf valuesOf line = inr row) (readLines text) rows
    /\ committed (database w2) = committed (database w) ++ rows ++ rows.
Proof.
  intros (_ & _ & Hfirst) (_ & _ & Hsecond). cbn [fst snd] in *.
  destruct Hfirst as [(_ & rows & Hrows & Hc1)|(e & He & _)]; [|discriminate].
  destruct Hsecond as [(_ & rows' & Hrows' & Hc2)|(e & He & _)]; [|discriminate].
  rewrite (rows_of_lines_unique _ _ _ _ Hrows' Hrows) in Hc2.
  exists rows. split; [exact Hrows|]. by rewrite Hc2, Hc1, app_assoc.
Qed.

(** X13.  The loader does not look at what the table holds: loading the
    same record file a second time stores every row of it a second time. *)
Theorem second_load_stores_the_rows_again
  (env : Environment) (jsonlFileName : string) (text : list N) (w w1 w2 : World) :
  files w !! jsonlFileName = Some text ->
  YearRange.store env jsonlFileName w = (w1, inr tt) ->
  YearRange.store env jsonlFileName w1 = (w2, inr tt) ->
  exists rows,
    Forall2 (fun line row => rowOf YearRange_valuesOf line = inr row)
      (readLines text) rows
    /\ committed (database w2) = committed (database w) ++ rows ++ rows.
Proof.
  intros Hfile H1 H2.
  pose proof (YearRange_store_atomic env jsonlFileName w text Hfile) as A1.
  rewrite H1 in A1.
  assert (Hfile1 : files w1 !! jsonlFileName = Some text)
    by (destruct A1 as (Hf & _); cbn [fst] in Hf; by rewrite Hf).
  pose proof (YearRange_store_atomic env jsonlFileName w1 text Hfile1) as A2.
  rewrite H2 in A2. exact (load_twice _ _ _ _ _ _ A1 A2).
Qed.

Lemma second_load_stores_the_rows_again_witness :
  exists rows,
    Forall2 (fun line row => rowOf YearRange_valuesOf line = inr row)
      (readLines (sampleLine ++ [10%N])) rows
    /\ committed (database
         (fst (YearRange.store (sampleEnv []) "jsonl/2020.jsonl"
                 (fst (YearRange.store (sampleEnv []) "jsonl/2020.jsonl"
                         worldWithSampleLine)))))
       = committed (database worldWithSampleLine) ++ rows ++ rows.
Proof.
  apply (second_load_stores_the_rows_again (sampleEnv []) "jsonl/2020.jsonl"
           (sampleLine ++ [10%N]) worldWithSampleLine
           (fst (YearRange.store (sampleEnv []) "jsonl/2020.jsonl" worldWithSampleLine))).
  - reflexivity.
  - vm_compute. reflexivity.
  - vm_compute. reflexivity.
Defined.

(** ** A blank line in the record file *)

Lemma JSON_parse_blank (line : JsString) :
  isBlank line -> JSON_parse line = inl SyntaxError.
Proof.
  intros Hblank. unfold JSON_parse.
  assert (Hskip : skipWhiteSpace line = []).
  { induction Hblank as [|c line Hc _ IH]; [reflexivity|].
    cbn [skipWhiteSpace]. by rewrite Hc. }
  rewrite Hskip. reflexivity.
Qed.

Lemma Forall2_Exists_l {A B} (R : A -> B -> Prop) (P : A -> Prop)
  (l : list A) (k : list B) :
  Forall2 R l k -> Exists P l -> exists x y, P x /\ R x y.
Proof.
  induction 1 as [|x y l k Hxy _ IH]; intros Hex; inversion Hex; subst.
  - by exists x, y.
  - by apply IH.
Qed.

Lemma blank_line_outcome (env : Environment) (valuesOf : JsString -> Exn + JsValue)
  (text : list N) (w : World) (after : World * (Exn + unit)) :
  (forall line, isBlank line -> valuesOf line = inl SyntaxError) ->
  Exists isBlank (readLines text) ->
  allOrNothing env valuesOf text w after ->
  (exists e, snd after = inl e)
  /\ committed (database (fst after)) = committed (database w).
Proof.
  intros Hvalues Hblank (_ & _ & [(_ & rows & Hrows & _)|(e & He & _ & Hkept)]).
  - destruct (Forall2_Exists_l _ _ _ _ Hrows Hblank) as (line & row & Hline & Hrow).
    unfold rowOf in Hrow. by rewrite (Hvalues line Hline) in Hrow.
  - split; [by exists e|exact Hkept].
Qed.

(** X14.  A record file with a blank line - an empty line, or one of
    white space only - is not loaded: in both versions [store] throws and the
    table keeps exactly the rows it had, whatever the other lines are. *)
Theorem blank_line_fails_the_load
  (env : Environment) (jsonlFileName : string) (w : World) (text : list N) :
  files w !! jsonlFileName = Some text ->
  Exists isBlank (readLines text) ->
  ((exists e, snd (YearRange.store env jsonlFileName w) = inl e)
   /\ committed (database (fst (YearRange.store env jsonlFileName w)))
      = committed (database w))
  /\ ((exists e, snd (SingleYear.store env jsonlFileName w) = inl e)
      /\ committed (database (fst (SingleYear.store env jsonlFileName w)))
         = committed (database w)).
Proof.
  intros Hfile Hblank. split.
  - apply (blank_line_outcome env YearRange_valuesOf text); [|exact Hblank|].
    + intros line Hline. unfold YearRange_valuesOf. by rewrite JSON_parse_blank.
    + by apply YearRange_store_atomic.
  - apply (blank_line_outcome env JSON_parse text); [|exact Hblank|].
    + apply JSON_parse_blank.
    + by apply SingleYear_store_atomic.
Qed.

Lemma blank_line_fails_the_load_witness :
  ((exists e, snd (YearRange.store (sampleEnv []) "jsonl/2020.jsonl"
                     (mkWorld {[ "jsonl/2020.jsonl" := sampleLine ++ [10; 10]%N ]} ∅
                        emptyDatabase [])) = inl e)
   /\ committed (database (fst (YearRange.store (sampleEnv []) "jsonl/2020.jsonl"
                                  (mkWorld {[ "jsonl/2020.jsonl" := sampleLine ++ [10; 10]%N ]} ∅
                                     emptyDatabase []))))
      = committed (database (mkWorld {[ "jsonl/2020.jsonl" := sampleLine ++ [10; 10]%N ]} ∅
                               emptyDatabase [])))
  /\ ((exists e, snd (SingleYear.store (sampleEnv []) "jsonl/2020.jsonl"
                        (mkWorld {[ "jsonl/2020.jsonl" := sampleLine ++ [10; 10]%N ]} ∅
                           emptyDatabase [])) = inl e)
      /\ committed (database (fst (SingleYear.store (sampleEnv []) "jsonl/2020.jsonl"
                                     (mkWorld {[ "jsonl/2020.jsonl" := sampleLine ++ [10; 10]%N ]} ∅
                                        emptyDatabase []))))
         = committed (database (mkWorld {[ "jsonl/2020.jsonl" := sampleLine ++ [10; 10]%N ]} ∅
                                  emptyDatabase []))).
Proof.
  apply (blank_line_fails_the_load (sampleEnv []) "jsonl/2020.jsonl"
           (mkWorld {[ "jsonl/2020.jsonl" := sampleLine ++ [10; 10]%N ]} ∅ emptyDatabase [])
           (sampleLine ++ [10; 10]%N)).
  - reflexivity.
  - assert (Elines : readLines (sampleLine ++ [10; 10]%N) = [sampleLine; []])
      by (vm_compute; reflexivity).
    rewrite Elines. apply Exists_cons_tl, Exists_cons_hd. constructor.
Defined.

(** ** The orchestrator: arguments, and a year that failed *)

(** X15.  Unless its arguments are two years that [parseInt] reads, in
    order and inside 1958 to 2022, a run of the year-range version does
    nothing but write to the console: [main] returns normally, no file, no
    row and no session of the database changes, nothing is requested - and
    the run ends, like a run that worked, with the line Done!. *)
Theorem invalid_arguments_do_nothing
  (env : Environment) (argv : list string) (w : World) :
  ~ validArguments argv ->
  exists events,
    YearRange.main env argv w
    = (mkWorld (files w) (pending w) (database w) (trace w ++ events), inr tt)
    /\ Forall (fun e => isConsoleEvent e = true) events
    /\ YearRange.program env argv w
       = mkWorld (files w) (pending w) (database w) (trace w ++ events ++ [ConsoleInfo "Done!"]).
Proof.
  intros Hinvalid.
  assert (Hmain : exists events,
             YearRange.main env argv w
             = (mkWorld (files w) (pending w) (database w) (trace w ++ events), inr tt)
             /\ Forall (fun e => isConsoleEvent e = true) events).
  { unfold YearRange.main.
    destruct (Nat.ltb_spec (length argv) 4) as [Hshort|Hlong].
    { eexists. split.
      - unfold console_error, console_info, emit, bind. cbn [files pending database trace].
        by rewrite <- app_assoc.
      - by repeat constructor. }
    destruct (parseInt (lit (nth 2 argv ""))) as [yearStart|] eqn:Estart;
      [destruct (parseInt (lit (nth 3 argv ""))) as [yearEnd|] eqn:Eend|];
      try (eexists; split; [reflexivity|by repeat constructor]).
    destruct ((yearStart <? 1958) || (yearEnd >? 2022)) eqn:Hrange;
      [eexists; split; [reflexivity|by repeat constructor]|].
    apply orb_false_iff in Hrange as [Hlow Hhigh].
    apply Z.ltb_ge in Hlow. rewrite Z.gtb_ltb in Hhigh. apply Z.ltb_ge in Hhigh.
    assert (Hreversed : yearEnd < yearStart).
    { destruct (Z.lt_ge_cases yearEnd yearStart) as [?|Hle]; [assumption|].
      exfalso. apply Hinvalid. exists yearStart, yearEnd.
      repeat split; try assumption; lia. }
    replace (Z.to_nat (yearEnd - yearStart + 1)) with O by lia.
    exists []. split; [|constructor].
    cbn [YearRange.yearLoop]. unfold ret. by rewrite app_nil_r, world_eta. }
  destruct Hmain as (events & Hmain & Hconsole).
  exists events. split; [exact Hmain|]. split; [exact Hconsole|].
  unfold YearRange.program. rewrite Hmain.
  unfold console_info, emit. cbn [fst files pending database trace]. by rewrite <- app_assoc.
Qed.

Lemma invalid_arguments_do_nothing_witness :
  exists events,
    YearRange.main (sampleEnv []) ["node"; "index.js"; "2020"; "2019"]
      worldWithSampleLine
    = (mkWorld (files worldWithSampleLine) (pending worldWithSampleLine)
         (database worldWithSampleLine)
         (trace worldWithSampleLine ++ events), inr tt)
    /\ Forall (fun e => isConsoleEvent e = true) events
    /\ YearRange.program (sampleEnv []) ["node"; "index.js"; "2020"; "2019"]
         worldWithSampleLine
       = mkWorld (files worldWithSampleLine) (pending worldWithSampleLine)
           (database worldWithSampleLine)
           (trace worldWithSampleLine ++ events ++ [ConsoleInfo "Done!"]).
Proof.
  apply (invalid_arguments_do_nothing (sampleEnv [])
           ["node"; "index.js"; "2020"; "2019"] worldWithSampleLine).
  intros (yearStart & yearEnd & _ & Hstart & Hend & _ & Hle & _).
  vm_compute in Hstart, Hend. injection Hstart as <-. injection Hend as <-. lia.
Defined.

(** A record file without a line is loaded as nothing. *)
Lemma yearBody_empty_record_file (env : Environment) (year : Z) (w : World) :
  files w !! jsonlName year = Some [] ->
  committed (database (fst (YearRange.yearBody env year w))) = committed (database w).
Proof.
  intros Hfile. rewrite (yearBody_with_record_file env year w [] Hfile).
  destruct (if year =? 1958 then fromISO_week (zone env) year 31 6
               else fromISO_week (zone env) year 1 6);
    [destruct (fromISO_week (zone env) (year + 1) 1 6)|]; try reflexivity.
  pose proof (YearRange_store_atomic env (jsonlName year) w [] Hfile)
    as (_ & _ & Houtcome).
  assert (Hkept : committed (database (fst (YearRange.store env (jsonlName year) w)))
                  = committed (database w)).
  { destruct Houtcome as [(_ & rows & Hrows & ->)|(e & _ & _ & ->)]; [|reflexivity].
    inversion Hrows. by rewrite app_nil_r. }
  unfold tryCatch, bind, throw, console_info, emit, ret.
  destruct (YearRange.store env (jsonlName year) w) as [w' [e|[]]];
    cbn [fst database] in *; exact Hkept.
Qed.

(** X16.  When the page of the first week of a year is not in the cache and
    the site's answer is not taken, the year fails with the error of the
    missing page - after the record file of the year was created.  The file
    is empty, and every later run over the year, whatever the site answers
    then, finds it, requests and parses nothing and loads no row: the year
    stays empty until the file is removed by hand. *)
Theorem rejected_first_download_leaves_the_year_empty
  (env : Environment) (year : Z) (w : World) (date : DateTime) (response : Response) :
  1958 <= year <= 2022 ->
  files w !! jsonlName year = None ->
  head (weekEndingDates (zone env) year) = Some date ->
  files w !! htmlName date = None ->
  request env (chartUrl date) = inr response ->
  statusCode response <> 200
  \/ contentType response <> JStr (lit "text/html; charset=UTF-8") ->
  exists w',
    YearRange.yearBody env year w = (w', inl (SystemError "ENOENT"))
    /\ files w' = <[jsonlName year := []]> (files w)
    /\ database w' = database w
    /\ forall env' later,
         files later = files w' ->
         quietStep later (fst (YearRange.yearBody env' year later))
         /\ committed (database (fst (YearRange.yearBody env' year later)))
            = committed (database later).
Proof.
  intros Hyear Habsent Hhead Hpage Hreq Hdev. apply isTaken_false in Hdev.
  destruct (year_ends_valid (zone env) year Hyear) as (dateFrom & dateTo & Efrom & Eto).
  rewrite (yearBody_without_record_file env year w dateFrom dateTo Efrom Eto Habsent).
  destruct (weekEndingDates (zone env) year) as [|first rest]; [discriminate|].
  injection Hhead as ->.
  pose proof (ingest_download_rejected env (YearRange.parseHtml env) (YearRange.ingest env)
                (YearRange_parseHtml_missing env) (fun _ _ => eq_refl)
                date (jsonlName year) w response Hpage
                (jsonlName_not_htmlName year date) Hreq Hdev) as Hingest.
  rewrite Habsent in Hingest. cbn [default] in Hingest.
  eexists. split.
  { cbn [forEach]. unfold bind at 1. unfold bind at 1. rewrite Hingest. reflexivity. }
  cbn [files pending database]. split; [reflexivity|]. split; [reflexivity|].
  intros env' later Hfiles.
  assert (Hfile : files later !! jsonlName year = Some [])
    by (rewrite Hfiles; apply lookup_insert_eq).
  split; [by apply (yearBody_quiet env' year later [])|].
  by apply yearBody_empty_record_file.
Qed.

Lemma rejected_first_download_leaves_the_year_empty_witness :
  exists w',
    YearRange.yearBody (sampleEnv []) 2020 (mkWorld ∅ ∅ emptyDatabase [])
    = (w', inl (SystemError "ENOENT"))
    /\ files w' = <[jsonlName 2020 := []]> (files (mkWorld ∅ ∅ emptyDatabase []))
    /\ database w' = database (mkWorld ∅ ∅ emptyDatabase [])
    /\ forall env' later,
         files later = files w' ->
         quietStep later (fst (YearRange.yearBody env' 2020 later))
         /\ committed (database (fst (YearRange.yearBody env' 2020 later)))
            = committed (database later).
Proof.
  apply (rejected_first_download_leaves_the_year_empty (sampleEnv []) 2020
           (mkWorld ∅ ∅ emptyDatabase []) sampleDate
           (mkResponse 404 (JStr (lit "text/html; charset=UTF-8")) [] None)).
  - lia.
  - apply lookup_empty.
  - vm_compute. reflexivity.
  - apply lookup_empty.
  - reflexivity.
  - left. discriminate.
Defined.

Lemma bind_not_return {A} (c : M A) (k : A -> M Completion) (w : World) :
  (forall a w', snd (k a w') <> inr Return) -> snd (bind c k w) <> inr Return.
Proof.
  intros Hk. unfold bind. destruct (c w) as [w' [e|a]]; [discriminate|apply Hk].
Qed.

(** X17.  The test of the two dates of a year, lines 132 to 135, never
    fails in the year-range version: for every year that passes the test of
    the range both dates are valid, so the body of the loop over the years
    never ends by the return of that test - it ends with an error, or the
    loop goes on to the next year. *)
Theorem date_check_never_fails (env : Environment) (year : Z) (w : World) :
  1958 <= year <= 2022 ->
  is_Some (if year =? 1958 then fromISO_week (zone env) year 31 6
               else fromISO_week (zone env) year 1 6)
  /\ is_Some (fromISO_week (zone env) (year + 1) 1 6)
  /\ snd (YearRange.yearBody env year w) <> inr Return.
Proof.
  intros Hyear.
  destruct (year_ends_valid (zone env) year Hyear) as (dateFrom & dateTo & Efrom & Eto).
  unfold YearRange.yearBody. rewrite firstWeek_date, Efrom, Eto.
  split; [by eexists|]. split; [by eexists|].
  repeat (apply bind_not_return; intros ? ?). discriminate.
Qed.

Lemma date_check_never_fails_witness :
  is_Some (if 1958 =? 1958 then fromISO_week (zone (sampleEnv [])) 1958 31 6
           else fromISO_week (zone (sampleEnv [])) 1958 1 6)
  /\ is_Some (fromISO_week (zone (sampleEnv [])) (1958 + 1) 1 6)
  /\ snd (YearRange.yearBody (sampleEnv []) 1958 (mkWorld ∅ ∅ emptyDatabase []))
     <> inr Return.
Proof.
  apply (date_check_never_fails (sampleEnv []) 1958 (mkWorld ∅ ∅ emptyDatabase [])). lia.
Defined.

(** ** From the pages of a year to the rows of the table *)

Lemma isSafeInteger_small (z : Z) : -1000000 <= z <= 1000000 -> isSafeInteger z = true.
Proof.
  intros Hz. unfold isSafeInteger, MAX_SAFE_INTEGER.
  apply andb_true_iff. split; apply Z.leb_le; lia.
Qed.

(** The correction on a record. *)
Lemma correct_record (year week : Z) (p : JsValue) (a t : JsString) :
  YearRange.correct (JArr [JNum year; JNum week; p; JStr a; JStr t])
  = inr (JArr [JNum year; JNum week;
               if (year =? 1984) && (week =? 7)
                  && bool_decide (t = lit "Remember The Nights")
               then JStr (lit "87") else p;
               JStr a; JStr t]).
Proof.
  unfold YearRange.correct. cbn [js_get lookup list_lookup from_option id strict_eq_num].
  destruct (year =? 1984); [|reflexivity].
  destruct (week =? 7); [|reflexivity].
  cbn [strict_eq_str andb]. unfold JsString_eqb.
  destruct (bool_decide (t = lit "Remember The Nights")); reflexivity.
Qed.

(** The line of a well-formed entry: it has no line end in it, and the
    loader makes of it the row of the entry. *)
Lemma recordLine_row (date : DateTime) (p : Z) (row : Row) :
  isSafeInteger (weekYear date) = true ->
  isSafeInteger (weekNumber date) = true ->
  isSafeInteger p = true ->
  wellFormedRow row ->
  exists a t,
    textOf (q_artist row) = inr (JStr a) /\ textOf (q_title row) = inr (JStr t)
    /\ printable (recordLine date (mkEntry (JNum p) (JStr a) (JStr t)))
    /\ rowOf YearRange_valuesOf (recordLine date (mkEntry (JNum p) (JStr a) (JStr t)))
       = inr (chartRow date p row).
Proof.
  intros Hyear Hweek Hp [Htitle Hartist].
  destruct (textOf_visible _ Htitle) as (t & Et & _).
  destruct (textOf_visible _ Hartist) as (a & Ea & _).
  exists a, t. split; [exact Ea|]. split; [exact Et|].
  destruct (chartRecord_line (recordOf date (mkEntry (JNum p) (JStr a) (JStr t))))
    as (line & Hline & Hprintable & Hparse).
  { exists (weekYear date), (weekNumber date), (JNum p), a, t. by repeat split. }
  rewrite recordLine_stringify in Hline. injection Hline as <-.
  split; [exact Hprintable|].
  unfold rowOf, YearRange_valuesOf. rewrite Hparse.
  unfold recordOf. cbn [position artist title]. rewrite correct_record.
  unfold chartRow, elementText. rewrite Et, Ea.
  cbn [Pg.bindParameters length]. rewrite bool_decide_eq_true_2 by reflexivity.
  cbn [map Pg.prepareValue Pg.scalarText].
  by destruct ((weekYear date =? 1984) && (weekNumber date =? 7)
               && bool_decide (t = lit "Remember The Nights")).
Qed.

(** The entries of a page of well-formed rows, line by line. *)
Lemma page_rows (date : DateTime) (i : Z) (rows : list Row) :
  isSafeInteger (weekYear date) = true ->
  isSafeInteger (weekNumber date) = true ->
  0 <= i -> i + Z.of_nat (length rows) <= 1000000 ->
  Forall wellFormedRow rows ->
  thrown (YearRange.parseRows i rows) = None
  /\ Forall printable (map (recordLine date) (yielded (YearRange.parseRows i rows)))
  /\ Forall2 (fun line row => rowOf YearRange_valuesOf line = inr row)
       (map (recordLine date) (yielded (YearRange.parseRows i rows)))
       (chartRowsFrom date i rows).
Proof.
  intros Hyear Hweek Hi Hlen Hrows. revert i Hi Hlen.
  induction Hrows as [|row rows Hrow _ IH]; intros i Hi Hlen.
  - repeat split; constructor.
  - cbn [length] in Hlen.
    destruct (recordLine_row date (i + 1) row Hyear Hweek
                ltac:(apply isSafeInteger_small; lia) Hrow)
      as (a & t & Ea & Et & Hprintable & Hline).
    destruct (IH (i + 1) ltac:(lia) ltac:(lia)) as (Hthrown & Hlines & Hall).
    cbn [YearRange.parseRows chartRowsFrom]. rewrite Et, Ea. cbn [strict_eq_null orb].
    unfold yieldThen. cbn [thrown yielded map].
    split; [exact Hthrown|]. split; by constructor.
Qed.

(** Rows that the server takes are staged one behind the other. *)
Lemma stageLines_all (env : Environment) (valuesOf : JsString -> Exn + JsValue)
  (committed staged : list SqlRow) (lines : list JsString) (rows : list SqlRow) :
  (forall c s r, accepts env c s r = true) ->
  Forall2 (fun line row => rowOf valuesOf line = inr row) lines rows ->
  stageLines env valuesOf committed staged lines = inr (staged ++ rows).
Proof.
  intros Haccepts Hrows. revert staged.
  induction Hrows as [|line row lines rows Hrow _ IH]; intros staged.
  - cbn. by rewrite app_nil_r.
  - cbn [stageLines]. rewrite Hrow, Haccepts, IH. by rewrite <- app_assoc.
Qed.

Lemma Forall2_concat_map {A B C} (R : B -> C -> Prop) (f : A -> list B)
  (g : A -> list C) (items : list A) :
  (forall x, x ∈ items -> Forall2 R (f x) (g x)) ->
  Forall2 R (concat (map f items)) (concat (map g items)).
Proof.
  induction items as [|x items IH]; intros H; cbn [map concat]; [constructor|].
  apply Forall2_app; [apply H; left|apply IH]. intros y Hy. apply H. by right.
Qed.

(** A year from its pages to the table.  Besides the rows, the pages of
    all weeks and the record files of the other years are what they were. *)
Lemma year_loaded (env : Environment) (o : Z) (year : Z) (w : World) :
  fixedEastOfUTC (zone env) o ->
  1958 <= year <= 2022 ->
  files w !! jsonlName year = None ->
  (forall date, date ∈ weekEndingDates (zone env) year ->
     exists page,
       pageFor env w date = Some page
       /\ length (rowsOf env page) = 100%nat
       /\ Forall wellFormedRow (rowsOf env page)) ->
  (forall rows staged row, accepts env rows staged row = true) ->
  (forall rows staged, commits env rows staged = true) ->
  exists w',
    YearRange.yearBody env year w = (w', inr Continue)
    /\ committed (database w')
       = committed (database w)
         ++ concat (map (chartRows env w) (weekEndingDates (zone env) year))
    /\ session (database w') = Idle
    /\ (forall d, pageFor env w' d = pageFor env w d)
    /\ (forall y, y <> year -> files w' !! jsonlName y = files w !! jsonlName y).
Proof.
  intros Hfixed Hyear Habsent Hpages Haccepts Hcommits.
  destruct (year_dates_valid (zone env) o year Hfixed Hyear)
    as (dateFrom & dateTo & Efrom & Eto & Hhead & _).
  rewrite (yearBody_without_record_file env year w dateFrom dateTo Efrom Eto Habsent).
  (* what every week gives *)
  assert (Hweek : forall date, date ∈ weekEndingDates (zone env) year ->
            thrown (YearRange_extract env (default [] (pageFor env w date))) = None
            /\ Forall printable
                 (map (recordLine date)
                    (yielded (YearRange_extract env (default [] (pageFor env w date)))))
            /\ Forall2 (fun line row => rowOf YearRange_valuesOf line = inr row)
                 (map (recordLine date)
                    (yielded (YearRange_extract env (default [] (pageFor env w date)))))
                 (chartRows env w date)).
  { intros date Hdate.
    destruct (Hpages date Hdate) as (page & Hpage & Hlen & Hrows).
    destruct (weekEndingDates_weeks (zone env) o year date Hfixed Hyear Hdate)
      as (week & Hweek & _ & Eweek).
    injection Eweek as Ey Ew _.
    assert (weeksInWeekYear year <= 53)
      by (unfold weeksInWeekYear; destruct (_ || _); lia).
    assert (1 <= firstWeek year) by (unfold firstWeek; destruct (year =? 1958); lia).
    unfold chartRows, YearRange_extract. rewrite Hpage. cbn [from_option id].
    rewrite bool_decide_eq_true_2 by exact Hlen.
    apply page_rows;
      [apply isSafeInteger_small; lia | apply isSafeInteger_small; lia
      | lia | rewrite Hlen; lia | exact Hrows]. }
  (* the weeks are ingested *)
  destruct (weeks_ingested_new env (YearRange.parseHtml env) (YearRange_extract env)
              (YearRange_parseLog env) (YearRange.ingest env)
              (YearRange_parseHtml_cached env) (fun _ _ => eq_refl)
              (jsonlName year) (weekEndingDates (zone env) year) w)
    as (w1 & Hloop & Hdb1 & Hfile1 & Hpages1 & Hframe1).
  { apply jsonlName_not_htmlName. }
  { exact Habsent. }
  { intros E. by rewrite E in Hhead. }
  { intros date Hdate. destruct (Hpages date Hdate) as (page & Hpage & _).
    exists page. split; [exact Hpage|].
    destruct (Hweek date Hdate) as (Hthrown & _). by rewrite Hpage in Hthrown. }
  (* the record file is loaded *)
  set (lines := concat (map (fun date =>
                               map (recordLine date)
                                 (yielded (YearRange_extract env
                                             (default [] (pageFor env w date)))))
                          (weekEndingDates (zone env) year))) in *.
  assert (Hprintable : Forall printable lines).
  { apply Forall_concat, Forall_forall. intros l Hl.
    apply list_elem_of_fmap in Hl as (date & -> & Hdate). by apply Hweek. }
  assert (Hrows : Forall2 (fun line row => rowOf YearRange_valuesOf line = inr row)
                    lines
                    (concat (map (chartRows env w) (weekEndingDates (zone env) year)))).
  { apply Forall2_concat_map. intros date Hdate. by apply Hweek. }
  pose proof (YearRange_store_atomic env (jsonlName year) w1 _ Hfile1)
    as (Hfiles2 & Hsession & Houtcome).
  rewrite (readLines_recordFile lines Hprintable) in Houtcome.
  destruct Houtcome as [(Hresult & rows & Hrows' & Hcommitted)|(e & _ & Hfail & _)].
  - rewrite (rows_of_lines_unique _ _ _ _ Hrows' Hrows) in Hcommitted.
    unfold bind at 1. rewrite Hloop.
    unfold tryCatch, bind, console_info, emit, ret.
    destruct (YearRange.store env (jsonlName year) w1) as [w2 [e|[]]];
      cbn [fst snd] in *; [discriminate|].
    eexists. split; [reflexivity|]. cbn [database files pending]. rewrite Hcommitted, Hdb1.
    split; [reflexivity|]. split; [exact Hsession|]. split.
    + intros d. rewrite <- Hpages1. unfold pageFor. cbn [files pending]. by rewrite Hfiles2.
    + intros y Hy. rewrite Hfiles2. apply Hframe1.
      * unfold jsonlName. intros E. apply String.app_inj, append_inj_r in E.
        by apply pretty_Z_inj in E.
      * apply jsonlName_not_htmlName.
  - unfold loadOutcome in Hfail.
    rewrite (stageLines_all env _ _ [] lines _ Haccepts Hrows), Hcommits in Hfail.
    discriminate.
Qed.

(** X18.  A year from its pages to the table, in the year-range version,
    for a process in a zone with a fixed offset that is UTC or east of it.
    When the record file of a year (1958 to 2022) is not there, the page of
    every week of the year as [ingest] reads it - the cached page, or what
    has reached the cache file of the body of a response that is taken - has
    exactly 100 well-formed rows, and the server takes every row and the
    commit, then the year ends normally and the table holds, behind the rows
    it had, the rows of the year's weeks in the order of the weeks, 100 for
    each week in the order of the page: year, week, position 1 to 100, artist
    and title as texts, the position replaced by 87 where the correction
    applies. *)
Theorem year_is_ingested_and_loaded
  (env : Environment) (o : Z) (year : Z) (w : World) :
  fixedEastOfUTC (zone env) o ->
  1958 <= year <= 2022 ->
  files w !! jsonlName year = None ->
  (forall date, date ∈ weekEndingDates (zone env) year ->
     exists page,
       pageFor env w date = Some page
       /\ length (rowsOf env page) = 100%nat
       /\ Forall wellFormedRow (rowsOf env page)) ->
  (forall rows staged row, accepts env rows staged row = true) ->
  (forall rows staged, commits env rows staged = true) ->
  exists w',
    YearRange.yearBody env year w = (w', inr Continue)
    /\ committed (database w')
       = committed (database w)
         ++ concat (map (chartRows env w) (weekEndingDates (zone env) year))
    /\ session (database w') = Idle.
Proof.
  intros Hfixed Hyear Habsent Hpages Haccepts Hcommits.
  destruct (year_loaded env o year w Hfixed Hyear Habsent Hpages Haccepts Hcommits)
    as (w' & Hbody & Hrows & Hsession & _).
  by exists w'.
Qed.

Lemma year_is_ingested_and_loaded_witness :
  exists w',
    YearRange.yearBody (sampleEnv (replicate 100 goodRow)) 2020
      (worldWithPages (weekEndingDates UTC 2020))
    = (w', inr Continue)
    /\ committed (database w')
       = committed (database (worldWithPages (weekEndingDates UTC 2020)))
         ++ concat (map (chartRows (sampleEnv (replicate 100 goodRow))
                           (worldWithPages (weekEndingDates UTC 2020)))
                      (weekEndingDates (zone (sampleEnv (replicate 100 goodRow))) 2020))
    /\ session (database w') = Idle.
Proof.
  assert (Hgood : wellFormedRow goodRow).
  { split; (eexists; split; [reflexivity|]);
      apply Exists_cons_tl, Exists_cons_hd; reflexivity. }
  assert (Hcached : Forall (fun date =>
                              pageFor (sampleEnv (replicate 100 goodRow))
                                (worldWithPages (weekEndingDates UTC 2020)) date
                              = Some samplePage)
                      (weekEndingDates UTC 2020)).
  { assert (H : bool_decide
                  (Forall (fun date =>
                             pageFor (sampleEnv (replicate 100 goodRow))
                               (worldWithPages (weekEndingDates UTC 2020)) date
                             = Some samplePage)
                     (weekEndingDates UTC 2020)) = true)
      by (vm_compute; reflexivity).
    exact (bool_decide_eq_true_1 _ H). }
  apply (year_is_ingested_and_loaded (sampleEnv (replicate 100 goodRow)) 0 2020
           (worldWithPages (weekEndingDates UTC 2020))).
  - split; [reflexivity|lia].
  - lia.
  - vm_compute. reflexivity.
  - intros date Hdate. exists samplePage. split; [|split].
    + rewrite Forall_forall in Hcached. by apply Hcached.
    + reflexivity.
    + apply Forall_replicate. exact Hgood.
  - reflexivity.
  - reflexivity.
Defined.

(** The years of a range, one after the other. *)
Lemma years_loaded (env : Environment) (o : Z) (fuel : nat) (year yearEnd : Z)
  (w : World) :
  fixedEastOfUTC (zone env) o ->
  (Z.to_nat (yearEnd - year + 1) <= fuel)%nat ->
  1958 <= year -> yearEnd <= 2022 ->
  (forall y, year <= y <= yearEnd -> files w !! jsonlName y = None) ->
  (forall y date, year <= y <= yearEnd -> date ∈ weekEndingDates (zone env) y ->
     exists page,
       pageFor env w date = Some page
       /\ length (rowsOf env page) = 100%nat
       /\ Forall wellFormedRow (rowsOf env page)) ->
  (forall rows staged row, accepts env rows staged row = true) ->
  (forall rows staged, commits env rows staged = true) ->
  exists w',
    YearRange.yearLoop env fuel year yearEnd w = (w', inr tt)
    /\ committed (database w')
       = committed (database w)
         ++ concat (map (fun y => concat (map (chartRows env w) (weekEndingDates (zone env) y)))
                      (seqZ year (yearEnd - year + 1))).
Proof.
  intros Hfixed Hfuel Hlow Hhigh Habsent Hpages Haccepts Hcommits.
  revert year w Hfuel Hlow Habsent Hpages.
  induction fuel as [|fuel IH]; intros year w Hfuel Hlow Habsent Hpages.
  - exists w. rewrite seqZ_nil by lia. cbn. by rewrite app_nil_r.
  - cbn [YearRange.yearLoop].
    destruct (Z.leb_spec year yearEnd) as [Hle|Hgt];
      [|exists w; rewrite seqZ_nil by lia; cbn; by rewrite app_nil_r].
    destruct (year_loaded env o year w Hfixed ltac:(lia) (Habsent year ltac:(lia))
                (fun date => Hpages year date ltac:(lia)) Haccepts Hcommits)
      as (w1 & Hbody & Hrows1 & _ & Hpages1 & Hframe1).
    destruct (IH (year + 1) w1) as (w2 & Hloop & Hrows2).
    + lia.
    + lia.
    + intros y Hy. rewrite Hframe1 by lia. apply Habsent. lia.
    + intros y date Hy Hdate. rewrite Hpages1. apply (Hpages y); [lia|exact Hdate].
    + exists w2. unfold bind. rewrite Hbody. split; [exact Hloop|].
      rewrite Hrows2, Hrows1, (seqZ_cons year) by lia. cbn [map concat].
      replace (Z.succ year) with (year + 1) by lia.
      replace (Z.pred (yearEnd - year + 1)) with (yearEnd - (year + 1) + 1) by lia.
      rewrite <- !app_assoc. do 2 f_equal.
      f_equal. apply map_ext. intros y. f_equal. apply map_ext_in. intros date _.
      unfold chartRows. by rewrite Hpages1.
Qed.

(** X23.  A run of the year-range version from the pages to the table,
    for a process in a zone with a fixed offset that is UTC or east of it.
    When the arguments are two years inside 1958 to 2022, none of the years
    of the range has a record file, the page of every week of every year as
    [ingest] reads it - the cached page, or what has reached the cache file
    of the body of a response that is taken - has exactly 100 well-formed
    rows, and the server takes every row and every commit, then [main]
    returns normally and the table holds, behind the rows it had, the rows
    of the years in order, each year week by week and each week in the order
    of its page. *)
Theorem run_loads_every_year
  (env : Environment) (o : Z) (argv : list string) (yearStart yearEnd : Z) (w : World) :
  fixedEastOfUTC (zone env) o ->
  (4 <= length argv)%nat ->
  parseInt (lit (nth 2 argv "")) = Some yearStart ->
  parseInt (lit (nth 3 argv "")) = Some yearEnd ->
  1958 <= yearStart -> yearEnd <= 2022 ->
  (forall y, yearStart <= y <= yearEnd -> files w !! jsonlName y = None) ->
  (forall y date, yearStart <= y <= yearEnd -> date ∈ weekEndingDates (zone env) y ->
     exists page,
       pageFor env w date = Some page
       /\ length (rowsOf env page) = 100%nat
       /\ Forall wellFormedRow (rowsOf env page)) ->
  (forall rows staged row, accepts env rows staged row = true) ->
  (forall rows staged, commits env rows staged = true) ->
  exists w',
    YearRange.main env argv w = (w', inr tt)
    /\ committed (database w')
       = committed (database w)
         ++ concat (map (fun y =>
                           concat (map (chartRows env w) (weekEndingDates (zone env) y)))
                      (seqZ yearStart (yearEnd - yearStart + 1))).
Proof.
  intros Hfixed Hargs Hstart Hend Hlow Hhigh Habsent Hpages Haccepts Hcommits.
  unfold YearRange.main.
  rewrite (proj2 (Nat.ltb_ge (length argv) 4)) by lia.
  rewrite Hstart, Hend.
  rewrite (proj2 (Z.ltb_ge yearStart 1958)) by lia.
  rewrite Z.gtb_ltb, (proj2 (Z.ltb_ge 2022 yearEnd)) by lia.
  cbn [orb]. by apply (years_loaded env o).
Qed.

Lemma run_loads_every_year_witness :
  exists w',
    YearRange.main (sampleEnv (replicate 100 goodRow)) ["node"; "index.js"; "2020"; "2021"]
      (worldWithPages (weekEndingDates UTC 2020 ++ weekEndingDates UTC 2021))
    = (w', inr tt)
    /\ committed (database w')
       = committed (database
           (worldWithPages (weekEndingDates UTC 2020 ++ weekEndingDates UTC 2021)))
         ++ concat (map (fun y =>
                           concat (map (chartRows (sampleEnv (replicate 100 goodRow))
                                          (worldWithPages
                                             (weekEndingDates UTC 2020
                                              ++ weekEndingDates UTC 2021)))
                                     (weekEndingDates
                                        (zone (sampleEnv (replicate 100 goodRow))) y)))
                      (seqZ 2020 (2021 - 2020 + 1))).
Proof.
  assert (Hgood : wellFormedRow goodRow).
  { split; (eexists; split; [reflexivity|]);
      apply Exists_cons_tl, Exists_cons_hd; reflexivity. }
  assert (Hcached : Forall (fun date =>
                              pageFor (sampleEnv (replicate 100 goodRow))
                                (worldWithPages (weekEndingDates UTC 2020
                                                 ++ weekEndingDates UTC 2021)) date
                              = Some samplePage)
                      (weekEndingDates UTC 2020 ++ weekEndingDates UTC 2021)).
  { assert (H : bool_decide
                  (Forall (fun date =>
                             pageFor (sampleEnv (replicate 100 goodRow))
                               (worldWithPages (weekEndingDates UTC 2020
                                                ++ weekEndingDates UTC 2021)) date
                             = Some samplePage)
                     (weekEndingDates UTC 2020 ++ weekEndingDates UTC 2021)) = true)
      by (vm_compute; reflexivity).
    exact (bool_decide_eq_true_1 _ H). }
  apply (run_loads_every_year (sampleEnv (replicate 100 goodRow)) 0
           ["node"; "index.js"; "2020"; "2021"] 2020 2021
           (worldWithPages (weekEndingDates UTC 2020 ++ weekEndingDates UTC 2021))).
  - split; [reflexivity|lia].
  - cbn. lia.
  - reflexivity.
  - reflexivity.
  - lia.
  - lia.
  - intros y Hy. assert (y = 2020 \/ y = 2021) as [-> | ->] by lia;
      vm_compute; reflexivity.
  - intros y date Hy Hdate. exists samplePage. split; [|split].
    + rewrite Forall_forall in Hcached. apply Hcached.
      assert (y = 2020 \/ y = 2021) as [-> | ->] by lia;
        apply elem_of_app; [by left|by right].
    + reflexivity.
    + apply Forall_replicate. exact Hgood.
  - reflexivity.
  - reflexivity.
Defined.

(** ** The entries of any page *)

Lemma trimStart_head (s : JsString) (c : N) :
  head (trimStart s) = Some c -> isWhiteSpace c = false.
Proof.
  induction s as [|d s IH]; cbn [trimStart]; [discriminate|].
  destruct (isWhiteSpace d) eqn:Hd; [exact IH|].
  cbn. intros H. by injection H as <-.
Qed.

Lemma trimStart_last (s : JsString) :
  trimStart s <> [] -> last (trimStart s) = last s.
Proof.
  induction s as [|d s IH]; cbn [trimStart]; [done|].
  destruct (isWhiteSpace d); [|done].
  intros Hne. rewrite last_cons, <- (IH Hne).
  destruct (last (trimStart s)) eqn:E; [reflexivity|].
  by apply last_None in E.
Qed.

Lemma head_rev {A} (l : list A) : head (rev l) = last l.
Proof.
  induction l as [|x l IH]; [reflexivity|]. cbn [rev].
  rewrite last_cons, <- IH. by destruct (rev l).
Qed.

Lemma last_rev {A} (l : list A) : last (rev l) = head l.
Proof. rewrite <- (rev_involutive l) at 2. by rewrite head_rev. Qed.

Lemma trim_isTrimmed (s : JsString) : isTrimmed (trim s).
Proof.
  unfold isTrimmed, trim. intros c. rewrite head_rev, last_rev.
  intros [Hc|Hc]; [|by apply trimStart_head in Hc].
  destruct (trimStart (rev (trimStart s))) as [|x b] eqn:Eb; [discriminate|].
  rewrite <- Eb, trimStart_last, last_rev in Hc by (rewrite Eb; discriminate).
  by apply trimStart_head in Hc.
Qed.

Lemma textOf_extracted (q : option Element) (v : JsValue) :
  textOf q = inr v -> isExtractedField v.
Proof.
  unfold textOf. destruct q as [[[[[text|]]|]]|]; intros H; inversion H.
  - right. eexists. split; [reflexivity|apply trim_isTrimmed].
  - by left.
Qed.

Lemma YearRange_parseRows_invariants (i : Z) (rows : list Row) :
  (length (yielded (YearRange.parseRows i rows)) <= length rows)%nat
  /\ (thrown (YearRange.parseRows i rows) = None ->
      length (yielded (YearRange.parseRows i rows)) = length rows)
  /\ map position (yielded (YearRange.parseRows i rows))
     = map JNum (seqZ (i + 1)
                   (Z.of_nat (length (yielded (YearRange.parseRows i rows)))))
  /\ Forall (fun e => isExtractedField (artist e) /\ isExtractedField (title e))
       (yielded (YearRange.parseRows i rows)).
Proof.
  revert i. induction rows as [|row rows IH]; intros i; cbn [YearRange.parseRows].
  - repeat split; constructor.
  - destruct (textOf (q_title row)) as [e|t] eqn:Et;
      [cbn; repeat split; (lia || discriminate || constructor)|].
    destruct (textOf (q_artist row)) as [e|a] eqn:Ea;
      [cbn; repeat split; (lia || discriminate || constructor)|].
    rewrite (textOf_not_null _ _ Et), (textOf_not_null _ _ Ea). cbn [orb].
    destruct (IH (i + 1)) as (Hle & Hall & Hpos & Hfields).
    unfold yieldThen. cbn [yielded thrown length map].
    split; [lia|]. split; [intros H; by rewrite Hall|]. split.
    + rewrite Hpos, Nat2Z.inj_succ, (seqZ_cons (i + 1)) by lia.
      cbn [map]. do 3 f_equal; lia.
    + constructor; [|exact Hfields]. cbn [artist title].
      split; eapply textOf_extracted; eassumption.
Qed.

Lemma SingleYear_parseRows_invariants (rows : list Row) :
  (length (yielded (SingleYear.parseRows rows)) <= length rows)%nat
  /\ (thrown (SingleYear.parseRows rows) = None ->
      length (yielded (SingleYear.parseRows rows)) = length rows)
  /\ Forall (fun e => isExtractedField (position e) /\ isExtractedField (artist e)
                      /\ isExtractedField (title e))
       (yielded (SingleYear.parseRows rows)).
Proof.
  induction rows as [|row rows IH]; cbn [SingleYear.parseRows].
  - repeat split; constructor.
  - destruct (textOf (q_position row)) as [e|p] eqn:Ep;
      [cbn; repeat split; (lia || discriminate || constructor)|].
    destruct (textOf (q_title row)) as [e|t] eqn:Et;
      [cbn; repeat split; (lia || discriminate || constructor)|].
    destruct (textOf (q_artist row)) as [e|a] eqn:Ea;
      [cbn; repeat split; (lia || discriminate || constructor)|].
    rewrite (textOf_not_null _ _ Ep), (textOf_not_null _ _ Et),
      (textOf_not_null _ _ Ea). cbn [orb].
    destruct IH as (Hle & Hall & Hfields).
    unfold yieldThen. cbn [yielded thrown length].
    split; [lia|]. split; [intros H; by rewrite Hall|].
    constructor; [|exact Hfields]. cbn [position artist title].
    repeat split; eapply textOf_extracted; eassumption.
Qed.

Lemma readError_textOf (q : option Element) :
  match readError q with
  | Some e => textOf q = inl e
  | None => textOf q = inr (fieldOf q)
  end.
Proof. unfold readError, fieldOf. by destruct (textOf q). Qed.

(** One row of the extractors: the error of the row ends the generator, or
    else the entry of the row is yielded. *)
Lemma YearRange_parseRows_cons (i : Z) (row : Row) (rest : list Row) :
  YearRange.parseRows i (row :: rest)
  = match YearRange_rowError row with
    | Some e => stopWith [] e
    | None =>
      yieldThen (mkEntry (JNum (i + 1)) (fieldOf (q_artist row)) (fieldOf (q_title row)))
        (YearRange.parseRows (i + 1) rest)
    end.
Proof.
  cbn [YearRange.parseRows]. unfold YearRange_rowError.
  pose proof (readError_textOf (q_title row)) as Ht.
  pose proof (readError_textOf (q_artist row)) as Ha.
  destruct (readError (q_title row)); rewrite Ht; [reflexivity|].
  destruct (readError (q_artist row)); rewrite Ha; [reflexivity|].
  by rewrite (textOf_not_null _ _ Ht), (textOf_not_null _ _ Ha).
Qed.

Lemma SingleYear_parseRows_cons (row : Row) (rest : list Row) :
  SingleYear.parseRows (row :: rest)
  = match SingleYear_rowError row with
    | Some e => stopWith [] e
    | None => yieldThen (SingleYear_entryOf row) (SingleYear.parseRows rest)
    end.
Proof.
  cbn [SingleYear.parseRows]. unfold SingleYear_rowError, YearRange_rowError.
  pose proof (readError_textOf (q_position row)) as Hp.
  pose proof (readError_textOf (q_title row)) as Ht.
  pose proof (readError_textOf (q_artist row)) as Ha.
  destruct (readError (q_position row)); rewrite Hp; [reflexivity|].
  destruct (readError (q_title row)); rewrite Ht; [reflexivity|].
  destruct (readError (q_artist row)); rewrite Ha; [reflexivity|].
  by rewrite (textOf_not_null _ _ Hp), (textOf_not_null _ _ Ht),
    (textOf_not_null _ _ Ha).
Qed.

(** The extractors, row by row: the entries of the rows before the first
    row that fails, then the error of that row. *)
Lemma YearRange_parseRows_split (i : Z) (rows : list Row) :
  exists rest,
    rows = rowsBeforeError YearRange_rowError rows ++ rest
    /\ Forall (fun row => YearRange_rowError row = None)
         (rowsBeforeError YearRange_rowError rows)
    /\ yielded (YearRange.parseRows i rows)
       = imap (fun k row => mkEntry (JNum (i + Z.of_nat k + 1))
                              (fieldOf (q_artist row)) (fieldOf (q_title row)))
           (rowsBeforeError YearRange_rowError rows)
    /\ thrown (YearRange.parseRows i rows) = head rest ≫= YearRange_rowError
    /\ (rest <> [] -> is_Some (thrown (YearRange.parseRows i rows))).
Proof.
  revert i. induction rows as [|row rows IH]; intros i.
  - exists []. repeat split; (constructor || done).
  - rewrite YearRange_parseRows_cons. cbn [rowsBeforeError].
    destruct (YearRange_rowError row) as [e|] eqn:Erow.
    { exists (row :: rows). cbn [stopWith yielded thrown head mbind option_bind].
      rewrite Erow. repeat split; (constructor || by eexists). }
    destruct (IH (i + 1)) as (rest & Hrows & Hgood & Hyielded & Hthrown & Hrest).
    exists rest. unfold yieldThen. cbn [yielded thrown].
    split; [cbn [app]; by rewrite <- Hrows|]. split; [by constructor|].
    split; [|by split].
    rewrite Hyielded. cbn [imap]. f_equal; [do 2 f_equal; lia|].
    apply imap_ext. intros k r _. cbn. do 2 f_equal. lia.
Qed.

Lemma SingleYear_parseRows_split (rows : list Row) :
  exists rest,
    rows = rowsBeforeError SingleYear_rowError rows ++ rest
    /\ Forall (fun row => SingleYear_rowError row = None)
         (rowsBeforeError SingleYear_rowError rows)
    /\ yielded (SingleYear.parseRows rows)
       = map SingleYear_entryOf (rowsBeforeError SingleYear_rowError rows)
    /\ thrown (SingleYear.parseRows rows) = head rest ≫= SingleYear_rowError
    /\ (rest <> [] -> is_Some (thrown (SingleYear.parseRows rows))).
Proof.
  induction rows as [|row rows IH].
  - exists []. repeat split; (constructor || done).
  - rewrite SingleYear_parseRows_cons. cbn [rowsBeforeError].
    destruct (SingleYear_rowError row) as [e|] eqn:Erow.
    { exists (row :: rows). cbn [stopWith yielded thrown head mbind option_bind].
      rewrite Erow. repeat split; (constructor || by eexists). }
    destruct IH as (rest & Hrows & Hgood & Hyielded & Hthrown & Hrest).
    exists rest. unfold yieldThen. cbn [yielded thrown].
    split; [cbn [app]; by rewrite <- Hrows|]. split; [by constructor|].
    split; [|by split]. by rewrite Hyielded.
Qed.

(** X19.  What the extractors yield for any rows, well-formed or not.
    The rows of a page split into the rows before the first row that fails -
    a row whose title, artist or (in the single-year version) position
    element has no child, or a first child without text - and the rest.  The
    entries yielded are exactly those of the rows before the failure, one
    for each row and in the order of the rows: in the year-range version the
    k-th has the position k, every field that is read is the trimmed text of
    its element, or undefined when the element is missing.  Then the
    generator ends: normally when no row is left, and with the error of the
    first row of the rest otherwise.  No entry holds text with white space
    at its start or end. *)
Theorem entries_of_any_page :
  (forall rows, exists rest,
      rows = rowsBeforeError YearRange_rowError rows ++ rest
      /\ Forall (fun row => YearRange_rowError row = None)
           (rowsBeforeError YearRange_rowError rows)
      /\ yielded (YearRange.parseRows 0 rows)
         = imap YearRange_entryOf (rowsBeforeError YearRange_rowError rows)
      /\ thrown (YearRange.parseRows 0 rows) = head rest ≫= YearRange_rowError
      /\ (rest = [] \/ is_Some (thrown (YearRange.parseRows 0 rows)))
      /\ Forall (fun e => isExtractedField (artist e) /\ isExtractedField (title e))
           (yielded (YearRange.parseRows 0 rows)))
  /\ (forall rows, exists rest,
        rows = rowsBeforeError SingleYear_rowError rows ++ rest
        /\ Forall (fun row => SingleYear_rowError row = None)
             (rowsBeforeError SingleYear_rowError rows)
        /\ yielded (SingleYear.parseRows rows)
           = map SingleYear_entryOf (rowsBeforeError SingleYear_rowError rows)
        /\ thrown (SingleYear.parseRows rows) = head rest ≫= SingleYear_rowError
        /\ (rest = [] \/ is_Some (thrown (SingleYear.parseRows rows)))
        /\ Forall (fun e => isExtractedField (position e) /\ isExtractedField (artist e)
                            /\ isExtractedField (title e))
             (yielded (SingleYear.parseRows rows))).
Proof.
  split.
  - intros rows.
    destruct (YearRange_parseRows_split 0 rows)
      as (rest & Hrows & Hgood & Hyielded & Hthrown & Hrest).
    exists rest. repeat split; try assumption.
    + destruct rest; [by left|right; by apply Hrest].
    + apply YearRange_parseRows_invariants.
  - intros rows.
    destruct (SingleYear_parseRows_split rows)
      as (rest & Hrows & Hgood & Hyielded & Hthrown & Hrest).
    exists rest. repeat split; try assumption.
    + destruct rest; [by left|right; by apply Hrest].
    + apply SingleYear_parseRows_invariants.
Qed.

(** ** Reading a year *)

Lemma scanDigits_uint_chars_end (u : Decimal.uint) (rest : JsString) :
  endsInteger rest -> scanDigits (uint_chars u ++ rest) = (u, rest).
Proof.
  intros Hrest. destruct rest as [|d rest].
  - rewrite app_nil_r. induction u; cbn [uint_chars scanDigits];
      [reflexivity|..]; rewrite IHu; reflexivity.
  - apply scanDigits_uint_chars. apply Hrest.
Qed.

(** The digits of a numeral that does not start with 0, or is 0 itself,
    are read by [parseInt] as the number, signed or not. *)
Lemma parseInt_numeral (u : Decimal.uint) (rest : JsString) :
  validIntPart u = true -> endsInteger rest ->
  parseInt (uint_chars u ++ rest) = Some (Z.of_uint u)
  /\ parseInt (45%N :: uint_chars u ++ rest) = Some (- Z.of_uint u).
Proof.
  intros Hvalid Hrest.
  pose proof (scanDigits_uint_chars_end u rest Hrest) as Hscan.
  destruct u as [|u|u|u|u|u|u|u|u|u|u]; try discriminate.
  { destruct u; try discriminate. cbn [uint_chars app] in *.
    destruct rest as [|d rest]; [split; reflexivity|].
    destruct Hrest as (Hd & Hx & HX).
    unfold parseInt. cbn [trimStart]. 
    change (isWhiteSpace 48) with false. change (isWhiteSpace 45) with false.
    cbn [N.eqb Pos.eqb]. rewrite Hscan.
    rewrite (proj2 (N.eqb_neq d 120) Hx), (proj2 (N.eqb_neq d 88) HX).
    split; reflexivity. }
  all: cbn [uint_chars app] in *; unfold parseInt; cbn [trimStart];
    repeat match goal with
           | |- context [isWhiteSpace ?c] =>
             let b := eval vm_compute in (isWhiteSpace c) in
             change (isWhiteSpace c) with b
           end;
    cbn [N.eqb Pos.eqb];
    set (tail := uint_chars u ++ rest) in *;
    destruct tail; cbn [N.eqb Pos.eqb andb]; rewrite Hscan; split; reflexivity.
Qed.

(** X20.  [parseInt] reads a number back from its decimal text: the text of
    a safe integer, followed by nothing or by anything that does not go on
    with a digit (or, after 0, with the x of a hexadecimal prefix), is read as
    that integer.  So [parseInt(year) + 1] is the year after [year], and an
    argument such as 1998abc is taken as 1998. *)
Theorem parseInt_reads_a_number_back (z : Z) (rest : JsString) :
  isSafeInteger z = true ->
  endsInteger rest ->
  parseInt (numberToString z ++ rest) = Some z.
Proof.
  intros _ Hrest. unfold numberToString. destruct z as [|p|p]; cbn [Z.to_int].
  - exact (proj1 (parseInt_numeral (Decimal.D0 Decimal.Nil) rest eq_refl Hrest)).
  - pose proof (DecimalZ.of_to (Z.pos p)) as Hback. cbn [Z.to_int Z.of_int] in Hback.
    rewrite (proj1 (parseInt_numeral _ rest (validIntPart_to_uint p) Hrest)).
    by rewrite Hback.
  - pose proof (DecimalZ.of_to (Z.neg p)) as Hback. cbn [Z.to_int Z.of_int] in Hback.
    cbn [app].
    rewrite (proj2 (parseInt_numeral _ rest (validIntPart_to_uint p) Hrest)).
    by rewrite Hback.
Qed.

Lemma parseInt_reads_a_number_back_witness :
  parseInt (numberToString 1998 ++ lit "abc") = Some 1998.
Proof.
  apply (parseInt_reads_a_number_back 1998 (lit "abc")).
  - reflexivity.
  - split; [reflexivity|]. split; discriminate.
Defined.

(** ** The weeks of the single-year version *)

Lemma every_week_1958_2022 : Forall everyWeekOk (seqZ 1958 65).
Proof.
  assert (H : bool_decide (Forall everyWeekOk (seqZ 1958 65)) = true)
    by (vm_compute; reflexivity).
  exact (bool_decide_eq_true_1 _ H).
Qed.

Lemma SingleYear_weekLoop_forEach (env : Environment) (fuel : nat)
  (date dateTo : DateTime) (jsonlFileName : string) (w : World) :
  SingleYear.weekLoop env fuel date dateTo jsonlFileName w
  = forEach (everyWeek (zone env) fuel date dateTo)
      (fun d => SingleYear.ingest env d jsonlFileName) w.
Proof.
  revert date w. induction fuel as [|fuel IH]; intros date w; [reflexivity|].
  cbn [SingleYear.weekLoop everyWeek].
  destruct (ts date <? ts dateTo); [|reflexivity].
  cbn [forEach]. unfold bind.
  destruct (SingleYear.ingest env date jsonlFileName w) as [w' [e|[]]];
    [reflexivity|apply IH].
Qed.

(** The two ends of a year of the single-year version are valid dates in
    every zone. *)
Lemma SingleYear_ends_valid (zone : Zone) (year : Z) :
  1958 <= year <= 2022 ->
  exists dateFrom dateTo,
    fromISO_week zone year 1 6 = Some dateFrom
    /\ fromISO_week zone (year + 1) 1 6 = Some dateTo.
Proof.
  intros Hyear.
  assert (Hok : everyWeekOk year).
  { pose proof every_week_1958_2022 as Hall. rewrite Forall_forall in Hall.
    apply Hall, elem_of_seqZ. lia. }
  destruct Hok as ([dateFrom Efrom] & [dateTo Eto] & _).
  eexists _, _. split.
  - apply (fromISO_week_zone UTC zone _ _ _ _ Efrom).
  - apply (fromISO_week_zone UTC zone _ _ _ _ Eto).
Qed.

(** With the record file of the year missing, a run of the single-year
    version ingests the dates of the year, in order, and loads the file. *)
Lemma SingleYear_main_without_record_file
  (env : Environment) (argv : list string) (year : Z) (w : World) :
  (3 <= length argv)%nat ->
  parseInt (lit (nth 2 argv "")) = Some year ->
  1958 <= year <= 2022 ->
  files w !! jsonlName year = None ->
  SingleYear.main env argv w
  = (forEach (SingleYear_weekEndingDates (zone env) year)
       (fun date => SingleYear.ingest env date (jsonlName year)) ;;;
     SingleYear.store env (jsonlName year)) w.
Proof.
  intros Hargs Hparse Hyear Habsent.
  destruct (SingleYear_ends_valid (zone env) year Hyear)
    as (dateFrom & dateTo & Efrom & Eto).
  unfold SingleYear.main.
  rewrite (proj2 (Nat.ltb_ge (length argv) 3)) by lia.
  rewrite Hparse, Efrom, Eto. fold (jsonlName year).
  rewrite bind_existsSync, Habsent.
  rewrite bool_decide_eq_false_2 by (intros [? ?]; discriminate).
  cbn [negb]. unfold bind. rewrite SingleYear_weekLoop_forEach.
  unfold SingleYear_weekEndingDates. rewrite Efrom, Eto. reflexivity.
Qed.

(** In a zone with a fixed offset east of UTC the dates of a year are the
    Saturdays of its weeks. *)
Lemma SingleYear_weeks (zone : Zone) (o : Z) (year : Z) :
  fixedEastOfUTC zone o ->
  1958 <= year <= 2022 ->
  map isoWeekDate (SingleYear_weekEndingDates zone year)
  = map (fun k => (year, k, 6)) (seqZ 1 (weeksInWeekYear year)).
Proof.
  intros Hfixed Hyear.
  assert (Hok : everyWeekOk year).
  { pose proof every_week_1958_2022 as Hall. rewrite Forall_forall in Hall.
    apply Hall, elem_of_seqZ. lia. }
  destruct Hok as (_ & _ & Hweeks).
  destruct (SingleYear_weekEndingDates_fixed zone o year Hfixed) as [-> Hmidnight].
  rewrite map_inZone; [exact Hweeks| |exact Hmidnight].
  intros date Hdate. apply isoWeekDate_dayOf, dayOf_inZone; [apply Hfixed|exact Hdate].
Qed.

(** X21.  The single-year version has no first week of its own for 1958
    and no gap in 1961.  When the zone of the process has a fixed offset and
    is UTC or east of it, then for every year from 1958 to 2022 whose record
    file is missing it ingests one page for each date of its loop over the
    weeks, in order, and then loads the record file; and these dates are the
    Saturdays of the ISO weeks of the year, one for each week from week 1 to
    the last. *)
Theorem SingleYear_ingests_every_week (env : Environment) (o : Z) (year : Z) :
  fixedEastOfUTC (zone env) o ->
  1958 <= year <= 2022 ->
  (forall argv w,
      (3 <= length argv)%nat ->
      parseInt (lit (nth 2 argv "")) = Some year ->
      files w !! jsonlName year = None ->
      SingleYear.main env argv w
      = (forEach (SingleYear_weekEndingDates (zone env) year)
           (fun date => SingleYear.ingest env date (jsonlName year)) ;;;
         SingleYear.store env (jsonlName year)) w)
  /\ map isoWeekDate (SingleYear_weekEndingDates (zone env) year)
     = map (fun k => (year, k, 6)) (seqZ 1 (weeksInWeekYear year)).
Proof.
  intros Hfixed Hyear. split.
  - intros argv w Hargs Hparse Habsent.
    by apply SingleYear_main_without_record_file.
  - by apply (SingleYear_weeks (zone env) o).
Qed.

Lemma SingleYear_ingests_every_week_witness :
  (forall argv w,
      (3 <= length argv)%nat ->
      parseInt (lit (nth 2 argv "")) = Some 1961 ->
      files w !! jsonlName 1961 = None ->
      SingleYear.main (envInZone 540 []) argv w
      = (forEach (SingleYear_weekEndingDates (zone (envInZone 540 [])) 1961)
           (fun date => SingleYear.ingest (envInZone 540 []) date (jsonlName 1961)) ;;;
         SingleYear.store (envInZone 540 []) (jsonlName 1961)) w)
  /\ map isoWeekDate (SingleYear_weekEndingDates (zone (envInZone 540 [])) 1961)
     = map (fun k => (1961, k, 6)) (seqZ 1 (weeksInWeekYear 1961)).
Proof.
  apply (SingleYear_ingests_every_week (envInZone 540 []) 540 1961).
  - split; [reflexivity|lia].
  - lia.
Defined.

(** ** A run only adds *)

Lemma onlyAdds_refl (w : World) : onlyAdds w w.
Proof. split; [auto|]. exists []. by rewrite app_nil_r. Qed.

Lemma onlyAdds_trans (w1 w2 w3 : World) :
  onlyAdds w1 w2 -> onlyAdds w2 w3 -> onlyAdds w1 w3.
Proof.
  intros [Hf1 (r1 & Hr1)] [Hf2 (r2 & Hr2)]. split; [auto|].
  exists (r1 ++ r2). by rewrite Hr2, Hr1, app_assoc.
Qed.

(** The console changes neither a file nor a row. *)
Lemma onlyAdds_trace (w : World) (events : list Event) :
  onlyAdds w (mkWorld (files w) (pending w) (database w) events).
Proof. split; [auto|]. exists []. by rewrite app_nil_r. Qed.

Lemma onlyAdds_same (w w' : World) :
  files w' = files w -> database w' = database w -> onlyAdds w w'.
Proof.
  intros Hfiles Hdb. split; [by rewrite Hfiles|].
  exists []. by rewrite Hdb, app_nil_r.
Qed.

(** The loaders add rows, or nothing. *)
Lemma store_onlyAdds (env : Environment) (valuesOf : JsString -> Exn + JsValue)
  (text : list N) (w : World) (after : World * (Exn + unit)) :
  allOrNothing env valuesOf text w after -> onlyAdds w (fst after).
Proof.
  intros (Hfiles & _ & Houtcome). split; [by rewrite Hfiles|].
  destruct Houtcome as [(_ & rows & _ & ->)|(e & _ & _ & ->)];
    [by exists rows|exists []; by rewrite app_nil_r].
Qed.

Lemma YearRange_store_onlyAdds (env : Environment) (jsonlFileName : string) (w : World) :
  onlyAdds w (fst (YearRange.store env jsonlFileName w)).
Proof.
  destruct (files w !! jsonlFileName) as [text|] eqn:Hfile.
  - eapply store_onlyAdds. by apply YearRange_store_atomic.
  - unfold YearRange.store. rewrite bind_existsSync, Hfile.
    rewrite bool_decide_eq_false_2 by (intros [? ?]; discriminate).
    apply onlyAdds_trace.
Qed.

Lemma SingleYear_store_onlyAdds (env : Environment) (jsonlFileName : string) (w : World) :
  onlyAdds w (fst (SingleYear.store env jsonlFileName w)).
Proof.
  destruct (files w !! jsonlFileName) as [text|] eqn:Hfile.
  - eapply store_onlyAdds. by apply SingleYear_store_atomic.
  - unfold SingleYear.store. rewrite bind_existsSync, Hfile.
    rewrite bool_decide_eq_false_2 by (intros [? ?]; discriminate).
    apply onlyAdds_trace.
Qed.

(** Ingestions into a record file that was not there only add. *)
Lemma keeps_onlyAdds (w w' : World) :
  files w ⊆ files w' -> database w' = database w -> onlyAdds w w'.
Proof.
  intros Hsub Hdb. split.
  - intros fileName content Hfile. by eapply lookup_weaken.
  - exists []. by rewrite Hdb, app_nil_r.
Qed.

Lemma yearBody_onlyAdds (env : Environment) (year : Z) (w : World) :
  onlyAdds w (fst (YearRange.yearBody env year w)).
Proof.
  unfold YearRange.yearBody. fold (jsonlName year).
  destruct (if year =? 1958 then fromISO_week (zone env) year 31 6
               else fromISO_week (zone env) year 1 6)
    as [dateFrom|]; [destruct (fromISO_week (zone env) (year + 1) 1 6) as [dateTo|]|];
    try apply onlyAdds_trace.
  rewrite bind_existsSync.
  assert (Hweeks : onlyAdds w
            (fst ((if negb (bool_decide (is_Some (files w !! jsonlName year)))
                   then YearRange.weekLoop env (weekFuel dateFrom dateTo) dateFrom dateTo
                          (jsonlName year)
                   else ret tt) w))).
  { destruct (files w !! jsonlName year) as [text|] eqn:Hfile.
    - rewrite bool_decide_eq_true_2 by (by eexists). apply onlyAdds_refl.
    - rewrite bool_decide_eq_false_2 by (intros [? ?]; discriminate). cbn [negb].
      rewrite weekLoop_forEach.
      destruct (weeks_keep env (YearRange.parseHtml env) (YearRange_extract env)
                  (YearRange_parseLog env) (YearRange.ingest env)
                  (YearRange_parseHtml_cached env) (YearRange_parseHtml_missing env)
                  (fun _ _ => eq_refl)
                  (files w) (jsonlName year)
                  (weekDates (zone env) (weekFuel dateFrom dateTo) dateFrom dateTo) w
                  (jsonlName_not_htmlName year) Hfile ltac:(reflexivity))
        as [Hsub Hdb].
      by apply keeps_onlyAdds. }
  unfold bind at 1.
  destruct ((if negb (bool_decide (is_Some (files w !! jsonlName year)))
             then YearRange.weekLoop env (weekFuel dateFrom dateTo) dateFrom dateTo
                    (jsonlName year)
             else ret tt) w) as [w1 [e|[]]]; cbn [fst] in *; [exact Hweeks|].
  eapply onlyAdds_trans; [exact Hweeks|].
  pose proof (YearRange_store_onlyAdds env (jsonlName year) w1) as Hstore.
  unfold bind, tryCatch, throw, console_info, emit, ret.
  destruct (YearRange.store env (jsonlName year) w1) as [w2 [e|[]]];
    cbn [fst] in *; [exact Hstore|].
  eapply onlyAdds_trans; [exact Hstore|apply onlyAdds_trace].
Qed.

Lemma yearLoop_onlyAdds (env : Environment) (fuel : nat) (year yearEnd : Z) (w : World) :
  onlyAdds w (fst (YearRange.yearLoop env fuel year yearEnd w)).
Proof.
  revert year w. induction fuel as [|fuel IH]; intros year w; [apply onlyAdds_refl|].
  cbn [YearRange.yearLoop]. destruct (year <=? yearEnd); [|apply onlyAdds_refl].
  pose proof (yearBody_onlyAdds env year w) as Hbody. unfold bind.
  destruct (YearRange.yearBody env year w) as [w1 [e|[|]]]; cbn [fst] in *;
    try exact Hbody.
  eapply onlyAdds_trans; [exact Hbody|apply IH].
Qed.

(** X22.  A run only adds.  Whatever the arguments, the site, the pages
    and the server, every file that was there before a run of either version
    is there after it with the content it had - no cached page and no record
    file is overwritten, cut or removed - and the table holds the rows it
    had, in front of those the run added. *)
Theorem a_run_only_adds (env : Environment) (argv : list string) (w : World) :
  onlyAdds w (YearRange.program env argv w)
  /\ onlyAdds w (SingleYear.program env argv w).
Proof.
  split.
  - assert (Hmain : onlyAdds w (fst (YearRange.main env argv w))).
    { unfold YearRange.main. destruct (length argv <? 4)%nat; [(by apply onlyAdds_same)|].
      destruct (parseInt (lit (nth 2 argv ""))) as [yearStart|];
        [destruct (parseInt (lit (nth 3 argv ""))) as [yearEnd|]|];
        try (by apply onlyAdds_same).
      destruct ((yearStart <? 1958) || (yearEnd >? 2022)); [(by apply onlyAdds_same)|].
      apply yearLoop_onlyAdds. }
    unfold YearRange.program.
    destruct (YearRange.main env argv w) as [w1 [e|[]]]; cbn [fst] in *;
      (eapply onlyAdds_trans; [exact Hmain|(by apply onlyAdds_same)]).
  - assert (Hmain : onlyAdds w (fst (SingleYear.main env argv w))).
    { unfold SingleYear.main. destruct (length argv <? 3)%nat; [(by apply onlyAdds_same)|].
      destruct (parseInt (lit (nth 2 argv ""))) as [year|]; [|(by apply onlyAdds_same)].
      fold (jsonlName year).
      destruct (fromISO_week (zone env) year 1 6) as [dateFrom|];
        [destruct (fromISO_week (zone env) (year + 1) 1 6) as [dateTo|]|];
        try (by apply onlyAdds_same).
      rewrite bind_existsSync.
      assert (Hweeks : onlyAdds w
                (fst ((if negb (bool_decide (is_Some (files w !! jsonlName year)))
                       then SingleYear.weekLoop env (weekFuel dateFrom dateTo) dateFrom
                              dateTo (jsonlName year)
                       else ret tt) w))).
      { destruct (files w !! jsonlName year) as [text|] eqn:Hfile.
        - rewrite bool_decide_eq_true_2 by (by eexists). apply onlyAdds_refl.
        - rewrite bool_decide_eq_false_2 by (intros [? ?]; discriminate). cbn [negb].
          rewrite SingleYear_weekLoop_forEach.
          destruct (weeks_keep env (SingleYear.parseHtml env) (SingleYear_extract env)
                      (fun _ _ => []) (SingleYear.ingest env)
                      (SingleYear_parseHtml_cached env) (SingleYear_parseHtml_missing env)
                      (fun _ _ => eq_refl)
                      (files w) (jsonlName year)
                      (everyWeek (zone env) (weekFuel dateFrom dateTo) dateFrom dateTo) w
                      (jsonlName_not_htmlName year) Hfile ltac:(reflexivity))
            as [Hsub Hdb].
          by apply keeps_onlyAdds. }
      unfold bind.
      destruct ((if negb (bool_decide (is_Some (files w !! jsonlName year)))
                 then SingleYear.weekLoop env (weekFuel dateFrom dateTo) dateFrom dateTo
                        (jsonlName year)
                 else ret tt) w) as [w1 [e|[]]]; cbn [fst] in *; [exact Hweeks|].
      eapply onlyAdds_trans; [exact Hweeks|apply SingleYear_store_onlyAdds]. }
    unfold SingleYear.program.
    destruct (SingleYear.main env argv w) as [w1 [e|[]]]; cbn [fst] in *;
      (eapply onlyAdds_trans; [exact Hmain|(by apply onlyAdds_same)]).
Qed.

(** ** The single-year version from the pages to the table *)

Lemma SingleYear_recordLine_row (date : DateTime) (row : Row) :
  isSafeInteger (weekYear date) = true ->
  isSafeInteger (weekNumber date) = true ->
  labelledRow row ->
  exists p a t,
    textOf (q_position row) = inr (JStr p)
    /\ textOf (q_artist row) = inr (JStr a) /\ textOf (q_title row) = inr (JStr t)
    /\ printable (recordLine date (mkEntry (JStr p) (JStr a) (JStr t)))
    /\ rowOf JSON_parse (recordLine date (mkEntry (JStr p) (JStr a) (JStr t)))
       = inr (SingleYear_chartRow date row).
Proof.
  intros Hyear Hweek [[Htitle Hartist] Hlabel].
  destruct (textOf_visible _ Hlabel) as (p & Ep & _).
  destruct (textOf_visible _ Htitle) as (t & Et & _).
  destruct (textOf_visible _ Hartist) as (a & Ea & _).
  exists p, a, t. split; [exact Ep|]. split; [exact Ea|]. split; [exact Et|].
  destruct (chartRecord_line (recordOf date (mkEntry (JStr p) (JStr a) (JStr t))))
    as (line & Hline & Hprintable & Hparse).
  { exists (weekYear date), (weekNumber date), (JStr p), a, t. by repeat split. }
  rewrite recordLine_stringify in Hline. injection Hline as <-.
  split; [exact Hprintable|].
  unfold rowOf. rewrite Hparse.
  unfold recordOf, SingleYear_chartRow, elementText. rewrite Ep, Et, Ea.
  cbn [position artist title Pg.bindParameters length].
  by rewrite bool_decide_eq_true_2 by reflexivity.
Qed.

Lemma SingleYear_page_rows (date : DateTime) (rows : list Row) :
  isSafeInteger (weekYear date) = true ->
  isSafeInteger (weekNumber date) = true ->
  Forall labelledRow rows ->
  thrown (SingleYear.parseRows rows) = None
  /\ Forall printable (map (recordLine date) (yielded (SingleYear.parseRows rows)))
  /\ Forall2 (fun line row => rowOf JSON_parse line = inr row)
       (map (recordLine date) (yielded (SingleYear.parseRows rows)))
       (map (SingleYear_chartRow date) rows).
Proof.
  intros Hyear Hweek Hrows.
  induction Hrows as [|row rows Hrow _ IH].
  - repeat split; constructor.
  - destruct (SingleYear_recordLine_row date row Hyear Hweek Hrow)
      as (p & a & t & Ep & Ea & Et & Hprintable & Hline).
    destruct IH as (Hthrown & Hlines & Hall).
    cbn [SingleYear.parseRows map]. rewrite Ep, Et, Ea. cbn [strict_eq_null orb].
    unfold yieldThen. cbn [thrown yielded map].
    split; [exact Hthrown|]. split; by constructor.
Qed.

(** In a zone with a fixed offset east of UTC the dates of a year in the
    single-year version are Saturdays of its weeks. *)
Lemma SingleYear_weekEndingDates_weeks (zone : Zone) (o : Z) (year : Z)
  (date : DateTime) :
  fixedEastOfUTC zone o ->
  1958 <= year <= 2022 ->
  date ∈ SingleYear_weekEndingDates zone year ->
  exists week,
    1 <= week <= weeksInWeekYear year /\ isoWeekDate date = (year, week, 6).
Proof.
  intros Hfixed Hyear Hdate.
  pose proof (SingleYear_weeks zone o year Hfixed Hyear) as Hweeks.
  assert (Hin : isoWeekDate date
                ∈ map isoWeekDate (SingleYear_weekEndingDates zone year))
    by (apply list_elem_of_fmap; by exists date).
  rewrite Hweeks in Hin. apply list_elem_of_fmap in Hin as (week & Eweek & Hweek).
  apply elem_of_seqZ in Hweek. exists week. split; [lia|exact Eweek].
Qed.

(** X24.  A run of the single-year version from the pages to the table,
    for a process in a zone with a fixed offset that is UTC or east of it.
    When the argument is a year from 1958 to 2022 without a record file, the
    page of every week of the year as [ingest] reads it - the cached page,
    or what has reached the cache file of the body of a response that is
    taken - has rows, however many, that all have a rank label, a title and
    an artist with a visible text, and the server takes every row and the
    commit, then [main] returns normally and the table holds, behind the
    rows it had, one row for every row of every page, week by week in the
    order of the pages: year, week, the rank as its label reads, artist and
    title.  No position is corrected. *)
Theorem SingleYear_run_loads_the_year
  (env : Environment) (o : Z) (argv : list string) (year : Z) (w : World) :
  fixedEastOfUTC (zone env) o ->
  (3 <= length argv)%nat ->
  parseInt (lit (nth 2 argv "")) = Some year ->
  1958 <= year <= 2022 ->
  files w !! jsonlName year = None ->
  (forall date, date ∈ SingleYear_weekEndingDates (zone env) year ->
     exists page,
       pageFor env w date = Some page /\ Forall labelledRow (rowsOf env page)) ->
  (forall rows staged row, accepts env rows staged row = true) ->
  (forall rows staged, commits env rows staged = true) ->
  exists w',
    SingleYear.main env argv w = (w', inr tt)
    /\ committed (database w')
       = committed (database w)
         ++ concat (map (SingleYear_chartRows env w)
                      (SingleYear_weekEndingDates (zone env) year)).
Proof.
  intros Hfixed Hargs Hparse Hyear Habsent Hpages Haccepts Hcommits.
  pose proof (SingleYear_weeks (zone env) o year Hfixed Hyear) as Hweeks.
  assert (Hdates : SingleYear_weekEndingDates (zone env) year <> []).
  { intros E. rewrite E in Hweeks. cbn [map] in Hweeks.
    assert (52 <= weeksInWeekYear year)
      by (unfold weeksInWeekYear; destruct (_ || _); lia).
    rewrite (seqZ_cons 1) in Hweeks by lia. discriminate. }
  rewrite (SingleYear_main_without_record_file env argv year w Hargs Hparse Hyear Habsent).
  unfold bind.
  assert (Hweek : forall date, date ∈ SingleYear_weekEndingDates (zone env) year ->
            thrown (SingleYear_extract env (default [] (pageFor env w date))) = None
            /\ Forall printable
                 (map (recordLine date)
                    (yielded (SingleYear_extract env (default [] (pageFor env w date)))))
            /\ Forall2 (fun line row => rowOf JSON_parse line = inr row)
                 (map (recordLine date)
                    (yielded (SingleYear_extract env (default [] (pageFor env w date)))))
                 (SingleYear_chartRows env w date)).
  { intros date Hdate.
    destruct (Hpages date Hdate) as (page & Hpage & Hrows).
    destruct (SingleYear_weekEndingDates_weeks (zone env) o year date Hfixed Hyear Hdate)
      as (week & Hweek & Eweek).
    injection Eweek as Ey Ew _.
    assert (weeksInWeekYear year <= 53)
      by (unfold weeksInWeekYear; destruct (_ || _); lia).
    unfold SingleYear_chartRows, SingleYear_extract. rewrite Hpage. cbn [from_option id].
    apply SingleYear_page_rows;
      [apply isSafeInteger_small; lia | apply isSafeInteger_small; lia | exact Hrows]. }
  destruct (weeks_ingested_new env (SingleYear.parseHtml env) (SingleYear_extract env)
              (fun _ _ => []) (SingleYear.ingest env)
              (SingleYear_parseHtml_cached env) (fun _ _ => eq_refl)
              (jsonlName year) (SingleYear_weekEndingDates (zone env) year) w)
    as (w1 & Hloop & Hdb1 & Hfile1 & _).
  { apply jsonlName_not_htmlName. }
  { exact Habsent. }
  { exact Hdates. }
  { intros date Hdate. destruct (Hpages date Hdate) as (page & Hpage & _).
    exists page. split; [exact Hpage|].
    destruct (Hweek date Hdate) as (Hthrown & _). by rewrite Hpage in Hthrown. }
  rewrite Hloop.
  set (lines := concat (map (fun date =>
                               map (recordLine date)
                                 (yielded (SingleYear_extract env
                                             (default [] (pageFor env w date)))))
                          (SingleYear_weekEndingDates (zone env) year))) in *.
  assert (Hprintable : Forall printable lines).
  { apply Forall_concat, Forall_forall. intros l Hl.
    apply list_elem_of_fmap in Hl as (date & -> & Hdate). by apply Hweek. }
  assert (Hrows : Forall2 (fun line row => rowOf JSON_parse line = inr row)
                    lines
                    (concat (map (SingleYear_chartRows env w)
                               (SingleYear_weekEndingDates (zone env) year)))).
  { apply Forall2_concat_map. intros date Hdate. by apply Hweek. }
  pose proof (SingleYear_store_atomic env (jsonlName year) w1 _ Hfile1)
    as (_ & _ & Houtcome).
  rewrite (readLines_recordFile lines Hprintable) in Houtcome.
  destruct Houtcome as [(Hresult & rows & Hrows' & Hcommitted)|(e & _ & Hfail & _)].
  - rewrite (rows_of_lines_unique _ _ _ _ Hrows' Hrows) in Hcommitted.
    destruct (SingleYear.store env (jsonlName year) w1) as [w2 [e|[]]];
      cbn [fst snd] in *; [discriminate|].
    eexists. split; [reflexivity|]. by rewrite Hcommitted, Hdb1.
  - unfold loadOutcome in Hfail.
    rewrite (stageLines_all env _ _ [] lines _ Haccepts Hrows), Hcommits in Hfail.
    discriminate.
Qed.

Lemma SingleYear_run_loads_the_year_witness :
  exists w',
    SingleYear.main (sampleEnv [goodRow; goodRow]) ["node"; "index.js"; "1961"]
      (worldWithPages (SingleYear_weekEndingDates UTC 1961))
    = (w', inr tt)
    /\ committed (database w')
       = committed (database (worldWithPages (SingleYear_weekEndingDates UTC 1961)))
         ++ concat (map (SingleYear_chartRows (sampleEnv [goodRow; goodRow])
                           (worldWithPages (SingleYear_weekEndingDates UTC 1961)))
                      (SingleYear_weekEndingDates
                         (zone (sampleEnv [goodRow; goodRow])) 1961)).
Proof.
  assert (Hgood : labelledRow goodRow).
  { split; [split|]; (eexists; split; [reflexivity|]).
    - apply Exists_cons_tl, Exists_cons_hd. reflexivity.
    - apply Exists_cons_tl, Exists_cons_hd. reflexivity.
    - apply Exists_cons_hd. reflexivity. }
  assert (Hcached : Forall (fun date =>
                              pageFor (sampleEnv [goodRow; goodRow])
                                (worldWithPages (SingleYear_weekEndingDates UTC 1961)) date
                              = Some samplePage)
                      (SingleYear_weekEndingDates UTC 1961)).
  { assert (H : bool_decide
                  (Forall (fun date =>
                             pageFor (sampleEnv [goodRow; goodRow])
                               (worldWithPages (SingleYear_weekEndingDates UTC 1961)) date
                             = Some samplePage)
                     (SingleYear_weekEndingDates UTC 1961)) = true)
      by (vm_compute; reflexivity).
    exact (bool_decide_eq_true_1 _ H). }
  apply (SingleYear_run_loads_the_year (sampleEnv [goodRow; goodRow]) 0
           ["node"; "index.js"; "1961"] 1961
           (worldWithPages (SingleYear_weekEndingDates UTC 1961))).
  - split; [reflexivity|lia].
  - cbn. lia.
  - reflexivity.
  - lia.
  - vm_compute. reflexivity.
  - intros date Hdate. exists samplePage. split.
    + rewrite Forall_forall in Hcached. by apply Hcached.
    + repeat constructor; apply Hgood.
  - reflexivity.
  - reflexivity.
Defined.

(** ** A year that fails *)

Lemma store_failsClean (env : Environment) (valuesOf : JsString -> Exn + JsValue)
  (text : list N) (w : World) (after : World * (Exn + unit)) :
  allOrNothing env valuesOf text w after -> failsClean w after.
Proof.
  intros (_ & _ & Houtcome). unfold failsClean.
  destruct Houtcome as [(-> & _)|(e & -> & _ & Hkept)]; [exact I|exact Hkept].
Qed.

Lemma YearRange_store_failsClean (env : Environment) (jsonlFileName : string)
  (w : World) :
  failsClean w (YearRange.store env jsonlFileName w).
Proof.
  destruct (files w !! jsonlFileName) as [text|] eqn:Hfile.
  - eapply store_failsClean. by apply YearRange_store_atomic.
  - unfold YearRange.store. rewrite bind_existsSync, Hfile.
    by rewrite bool_decide_eq_false_2 by (intros [? ?]; discriminate).
Qed.

Lemma SingleYear_store_failsClean (env : Environment) (jsonlFileName : string)
  (w : World) :
  failsClean w (SingleYear.store env jsonlFileName w).
Proof.
  destruct (files w !! jsonlFileName) as [text|] eqn:Hfile.
  - eapply store_failsClean. by apply SingleYear_store_atomic.
  - unfold SingleYear.store. rewrite bind_existsSync, Hfile.
    by rewrite bool_decide_eq_false_2 by (intros [? ?]; discriminate).
Qed.

(** X25.  A year is loaded as a whole or not at all, whatever goes wrong
    and wherever: when the body of the loop over the years of the year-range
    version, or a run of the single-year version, ends with an error - of a
    request, of a page, of a line of the record file, of the server - the
    table holds exactly the rows it had before. *)
Theorem failed_year_loads_nothing
  (env : Environment) (year : Z) (argv : list string) (w : World) :
  failsClean w (YearRange.yearBody env year w)
  /\ failsClean w (SingleYear.main env argv w).
Proof.
  split.
  - unfold YearRange.yearBody. fold (jsonlName year).
    destruct (if year =? 1958 then fromISO_week (zone env) year 31 6
               else fromISO_week (zone env) year 1 6)
      as [dateFrom|]; [destruct (fromISO_week (zone env) (year + 1) 1 6) as [dateTo|]|];
      try exact I.
    rewrite bind_existsSync.
    assert (Hweeks : database
                       (fst ((if negb (bool_decide (is_Some (files w !! jsonlName year)))
                              then YearRange.weekLoop env (weekFuel dateFrom dateTo)
                                     dateFrom dateTo (jsonlName year)
                              else ret tt) w))
                     = database w).
    { destruct (negb _); [|reflexivity]. rewrite weekLoop_forEach.
      apply (weeks_keep env (YearRange.parseHtml env) (YearRange_extract env)
               (YearRange_parseLog env) (YearRange.ingest env)
               (YearRange_parseHtml_cached env) (YearRange_parseHtml_missing env)
               (fun _ _ => eq_refl) ∅ (jsonlName year)); 
        [apply jsonlName_not_htmlName|apply lookup_empty|apply map_empty_subseteq]. }
    unfold bind at 1.
    destruct ((if negb (bool_decide (is_Some (files w !! jsonlName year)))
               then YearRange.weekLoop env (weekFuel dateFrom dateTo) dateFrom dateTo
                      (jsonlName year)
               else ret tt) w) as [w1 [e|[]]]; cbn [fst] in *.
    { unfold failsClean. cbn [fst snd]. by rewrite Hweeks. }
    pose proof (YearRange_store_failsClean env (jsonlName year) w1) as Hstore.
    unfold failsClean, bind, tryCatch, throw, console_info, emit, ret in *.
    destruct (YearRange.store env (jsonlName year) w1) as [w2 [e|[]]];
      cbn [fst snd] in *; [by rewrite Hstore, Hweeks|exact I].
  - unfold SingleYear.main. destruct (length argv <? 3)%nat; [exact I|].
    destruct (parseInt (lit (nth 2 argv ""))) as [yearInput|]; [|exact I].
    fold (jsonlName yearInput).
    destruct (fromISO_week (zone env) yearInput 1 6) as [dateFrom|];
      [destruct (fromISO_week (zone env) (yearInput + 1) 1 6) as [dateTo|]|]; try exact I.
    rewrite bind_existsSync.
    assert (Hweeks : database
                       (fst ((if negb (bool_decide
                                         (is_Some (files w !! jsonlName yearInput)))
                              then SingleYear.weekLoop env (weekFuel dateFrom dateTo)
                                     dateFrom dateTo (jsonlName yearInput)
                              else ret tt) w))
                     = database w).
    { destruct (negb _); [|reflexivity]. rewrite SingleYear_weekLoop_forEach.
      apply (weeks_keep env (SingleYear.parseHtml env) (SingleYear_extract env)
               (fun _ _ => []) (SingleYear.ingest env)
               (SingleYear_parseHtml_cached env) (SingleYear_parseHtml_missing env)
               (fun _ _ => eq_refl) ∅ (jsonlName yearInput));
        [apply jsonlName_not_htmlName|apply lookup_empty|apply map_empty_subseteq]. }
    unfold bind.
    destruct ((if negb (bool_decide (is_Some (files w !! jsonlName yearInput)))
               then SingleYear.weekLoop env (weekFuel dateFrom dateTo) dateFrom dateTo
                      (jsonlName yearInput)
               else ret tt) w) as [w1 [e|[]]]; cbn [fst] in *.
    { unfold failsClean. cbn [fst snd]. by rewrite Hweeks. }
    pose proof (SingleYear_store_failsClean env (jsonlName yearInput) w1) as Hstore.
    unfold failsClean in *.
    destruct (SingleYear.store env (jsonlName yearInput) w1) as [w2 [e|[]]];
      cbn [fst snd] in *; [by rewrite Hstore, Hweeks|exact I].
Qed.
